(** * ReaRead: the gaze estimation and calibration pipeline

    A shallow embedding of the estimator ([MediaPipeTracker], in its
    linear per-axis and its affine variant), of the per-point capture
    routine of [runCalibration] and of [CalibrationSystem.runValidation],
    followed by the properties the specification states about them.

    Numbers.  A JavaScript [number] is modelled as a real number: the
    arithmetic is exact, and IEEE rounding, the infinities and NaN are not
    represented.  [x / y] is the total division of the reals; where a
    property rests on a quotient, its divisor being non-zero is part of
    the property, as a hypothesis or as a fact proved of the divisors the
    code divides by.  Where an infinity, a NaN or a rounding decides what
    the code does, the linear estimator is given a second time, on
    binary64 numbers ([Binary64]), and evaluated there.

    Environment.  Console output and DOM updates are left out;
    [window.innerWidth], [window.innerHeight] and [performance.now()] are
    arguments of the functions that read them, so that a viewport that
    changes between two calls is two arguments.  A callback is modelled
    by what is handed to it. *)

From Stdlib Require Import Reals Lra Lia List Arith ZArith Bool.
From Stdlib Require Import Permutation Sorted.
From Stdlib Require PrimFloat.
Import ListNotations.
Local Open Scope R_scope.
Set Warnings "-inexact-float".

(* ================================================================== *)
(** ** JavaScript values and array methods *)
(* ================================================================== *)

Module JS.

Definition number := R.

(** Relational operators, as booleans. *)
Definition lt (a b : number) : bool := if Rlt_dec a b then true else false.
Definition gt (a b : number) : bool := lt b a.
Definition strict_neq (a b : number) : bool :=
  if Req_dec_T a b then false else true.

(** [Math.max], [Math.min], [Math.abs], [Math.sqrt], [Math.pow(v, 2)]. *)
Definition max (a b : number) : number := Rmax a b.
Definition min (a b : number) : number := Rmin a b.
Definition abs (a : number) : number := Rabs a.
Definition sqrt (a : number) : number := R_sqrt.sqrt a.
Definition pow2 (a : number) : number := a ^ 2.

(** [a.push(v)], [a.shift()] (the array that is left), [a.slice(-k)]. *)
Definition push {A} (a : list A) (v : A) : list A := a ++ [v].
Definition shift {A} (a : list A) : list A := tl a.
Definition slice_last {A} (k : nat) (a : list A) : list A :=
  skipn (length a - k) a.

(** [a.reduce((sum, v) => sum + f(v), 0)] and [a.length] as a number. *)
Definition reduce_sum {A} (f : A -> number) (a : list A) : number :=
  fold_left (fun sum v => sum + f v) a 0.
Definition length {A} (a : list A) : number := INR (List.length a).

(** [a.indexOf(v)] on an array of object references: the first index
    holding the same reference, [-1] when there is none. *)
Fixpoint indexOf_from (i : Z) (a : list nat) (v : nat) : Z :=
  match a with
  | [] => (-1)%Z
  | r :: a' => if Nat.eqb r v then i else indexOf_from (i + 1)%Z a' v
  end.
Definition indexOf (a : list nat) (v : nat) : Z := indexOf_from 0%Z a v.

(** [a.sort((p, q) => key(p) - key(q))] on a copy of the array.  The
    comparator is consistent, so the result is the stable ascending
    arrangement, whichever algorithm the engine runs; insertion of
    each element before the first strictly later one computes it. *)
Section Sort.
Context {A : Type} (key : A -> number).
Fixpoint insert (v : A) (a : list A) : list A :=
  match a with
  | [] => [v]
  | u :: a' =>
      if Rle_dec (key v) (key u) then v :: u :: a'
      else u :: insert v a'
  end.
Fixpoint sort_by (a : list A) : list A :=
  match a with
  | [] => []
  | v :: a' => insert v (sort_by a')
  end.
End Sort.

(** [v || 0] on an optional number: [undefined] and [0] give [0]. *)
Definition or_zero (v : option number) : number :=
  match v with Some r => r | None => 0 end.

(** [v !== undefined ? v : other] *)
Definition defined_or (v : option number) (other : number) : number :=
  match v with Some r => r | None => other end.

(** Divisions whose divisor matters are run in a logging monad: the
    value is the quotient, the log is the list of divisors used, in
    evaluation order. *)
Definition Div (A : Type) : Type := (A * list number)%type.
Definition ret {A} (a : A) : Div A := (a, []).
Definition bind {A B} (c : Div A) (k : A -> Div B) : Div B :=
  let r := k (fst c) in (fst r, snd c ++ snd r).
Definition div (a b : number) : Div number := (a / b, [b]).
Definition value {A} (c : Div A) : A := fst c.
Definition divisors {A} (c : Div A) : list number := snd c.

Fixpoint mapM {A B} (f : A -> Div B) (a : list A) : Div (list B) :=
  match a with
  | [] => ret []
  | v :: a' =>
      bind (f v) (fun w => bind (mapM f a') (fun ws => ret (w :: ws)))
  end.

End JS.

Declare Scope div_scope.
Delimit Scope div_scope with div.
Notation "x <- c ;; k" := (JS.bind c (fun x => k))
  (at level 61, c at next level, right associativity) : div_scope.

(* ================================================================== *)
(** ** Shared data *)
(* ================================================================== *)

(** [{ x, y }] *)
Module Point2D.
Record t := mk { x : R; y : R }.
End Point2D.

(** [interface GazePoint] *)
Module GazePoint.
Record t := mk {
  x : R;
  y : R;
  timestamp : R;
  confidence : R;
  normalizedX : option R;
  normalizedY : option R
}.
End GazePoint.

(** [interface SandboxGazeData]; a field that is missing is [None]. *)
Module SandboxGazeData.
Record t := mk {
  leftIris : option Point2D.t;
  rightIris : option Point2D.t;
  landmarks : option (list Point2D.t);
  timestamp : R
}.
End SandboxGazeData.

(** [window.innerWidth], [window.innerHeight] *)
Module Window.
Record t := mk { innerWidth : R; innerHeight : R }.
End Window.

(** The [measured] member of a calibration point. *)
Module Measured.
Record t := mk {
  x : R;
  y : R;
  normalizedX : option R;
  normalizedY : option R
}.
End Measured.

(** An element of the array handed to [applyCalibration]. *)
Module CalibrationPoint.
Record t := mk {
  actual : Point2D.t;
  measured : Measured.t;
  stdDev : option R
}.
End CalibrationPoint.

(** [landmarks[i]] after the length check. *)
Definition landmark (lm : list Point2D.t) (i : nat) : Point2D.t :=
  nth i lm (Point2D.mk 0 0).

(* ================================================================== *)
(** ** The estimator, linear per-axis variant
       (src/eye/MediaPipeTracker.ts) *)
(* ================================================================== *)

Module Linear.

(** [calibrationMatrix] *)
Record CalibrationMatrix := mkMatrix {
  scaleX : R;
  scaleY : R;
  offsetX : R;
  offsetY : R
}.

(** [MediaPipeConfig]: of the callbacks only their presence matters;
    the points handed to [onGazeUpdate] are the estimator's output. *)
Record MediaPipeConfig := mkConfig { onGazeUpdate : bool }.

(** The fields of a [MediaPipeTracker] instance. *)
Record MediaPipeTracker := mkTracker {
  config : MediaPipeConfig;
  isRunning : bool;
  calibrationMatrix : CalibrationMatrix;
  gazeHistory : list Point2D.t;
  eyeHeightHistory : list R;
  stableEyeHeight : R;
  frameCounter : nat
}.

Definition SMOOTHING_WINDOW_X : nat := 8.
Definition SMOOTHING_WINDOW_Y : nat := 4.
Definition EYE_HEIGHT_WINDOW : nat := 15.

(** [new MediaPipeTracker(config)] *)
Definition create (cfg : MediaPipeConfig) : MediaPipeTracker :=
  {| config := cfg;
     isRunning := false;
     calibrationMatrix :=
       {| scaleX := 1; scaleY := 1; offsetX := 0; offsetY := 0 |};
     gazeHistory := [];
     eyeHeightHistory := [];
     stableEyeHeight := 0.03;
     frameCounter := 0 |}.

(** [start()] and [stop()], as far as the tracker's own fields go. *)
Definition start (t : MediaPipeTracker) : MediaPipeTracker :=
  {| config := config t; isRunning := true;
     calibrationMatrix := calibrationMatrix t;
     gazeHistory := gazeHistory t;
     eyeHeightHistory := eyeHeightHistory t;
     stableEyeHeight := stableEyeHeight t;
     frameCounter := frameCounter t |}.

Definition stop (t : MediaPipeTracker) : MediaPipeTracker :=
  {| config := config t; isRunning := false;
     calibrationMatrix := calibrationMatrix t;
     gazeHistory := gazeHistory t;
     eyeHeightHistory := eyeHeightHistory t;
     stableEyeHeight := stableEyeHeight t;
     frameCounter := frameCounter t |}.

(** *** [handleGazeData], the eye geometry *)

Definition leftEyeWidth (lm : list Point2D.t) : R :=
  JS.abs (Point2D.x (landmark lm 133) - Point2D.x (landmark lm 33)).
Definition rightEyeWidth (lm : list Point2D.t) : R :=
  JS.abs (Point2D.x (landmark lm 263) - Point2D.x (landmark lm 362)).
Definition avgEyeWidth (lm : list Point2D.t) : R :=
  (leftEyeWidth lm + rightEyeWidth lm) / 2.

Definition leftEyeHeight (lm : list Point2D.t) : R :=
  JS.abs (Point2D.y (landmark lm 145) - Point2D.y (landmark lm 159)).
Definition rightEyeHeight (lm : list Point2D.t) : R :=
  JS.abs (Point2D.y (landmark lm 374) - Point2D.y (landmark lm 386)).
Definition currentEyeHeight (lm : list Point2D.t) : R :=
  (leftEyeHeight lm + rightEyeHeight lm) / 2.

(** The blink check.  The quotient is the one of the reals, which
    stands for the code's as long as [avgEyeWidth] is not zero; with a
    width of zero the code's quotient is Infinity or NaN and its
    comparison is false ([Binary64.isBlinking]). *)
Definition aspectRatio (lm : list Point2D.t) : R :=
  currentEyeHeight lm / avgEyeWidth lm.
Definition isBlinking (lm : list Point2D.t) : bool :=
  JS.lt (aspectRatio lm) 0.15.

(** The moving average of the eye height: the new history and the new
    [stableEyeHeight]. *)
Definition updateEyeHeight (hist : list R) (h : R) : list R * R :=
  let hist1 := JS.push hist h in
  let hist2 :=
    if (EYE_HEIGHT_WINDOW <? List.length hist1)%nat
    then JS.shift hist1 else hist1 in
  (hist2, JS.reduce_sum (fun v => v) hist2 / JS.length hist2).

(** The averaged iris offset, [(normalizedX, normalizedY)].  The four
    quotients stand for the code's as long as the width and the height
    of each eye are not zero; otherwise the code computes with Infinity
    or NaN ([Binary64.normalized]). *)
Definition normalized (lm : list Point2D.t) (leftIris rightIris : Point2D.t)
  : R * R :=
  let leftEyeLeft := landmark lm 33 in
  let leftEyeRight := landmark lm 133 in
  let rightEyeLeft := landmark lm 362 in
  let rightEyeRight := landmark lm 263 in
  let leftEyeTop := landmark lm 159 in
  let leftEyeBottom := landmark lm 145 in
  let rightEyeTop := landmark lm 386 in
  let rightEyeBottom := landmark lm 374 in
  let leftEyeCenterX := (Point2D.x leftEyeLeft + Point2D.x leftEyeRight) / 2 in
  let rightEyeCenterX :=
    (Point2D.x rightEyeLeft + Point2D.x rightEyeRight) / 2 in
  let leftEyeCenterY := (Point2D.y leftEyeTop + Point2D.y leftEyeBottom) / 2 in
  let rightEyeCenterY :=
    (Point2D.y rightEyeTop + Point2D.y rightEyeBottom) / 2 in
  let leftIrisOffsetX :=
    (Point2D.x leftIris - leftEyeCenterX) / (leftEyeWidth lm / 2) in
  let rightIrisOffsetX :=
    (Point2D.x rightIris - rightEyeCenterX) / (rightEyeWidth lm / 2) in
  let leftIrisOffsetY :=
    (Point2D.y leftIris - leftEyeCenterY) / (leftEyeHeight lm / 2) in
  let rightIrisOffsetY :=
    (Point2D.y rightIris - rightEyeCenterY) / (rightEyeHeight lm / 2) in
  let avgIrisOffsetX := (leftIrisOffsetX + rightIrisOffsetX) / 2 in
  let avgIrisOffsetY := (leftIrisOffsetY + rightIrisOffsetY) / 2 in
  (avgIrisOffsetX, avgIrisOffsetY).

(** Calibration on the normalized pair, mapping to the screen, clamp:
    the point that enters the smoothing buffer. *)
Definition screenPoint (w : Window.t) (m : CalibrationMatrix)
    (normalizedX normalizedY : R) : Point2D.t :=
  let sw := Window.innerWidth w in
  let sh := Window.innerHeight w in
  let calibratedX := normalizedX * scaleX m + offsetX m in
  let calibratedY := normalizedY * scaleY m + offsetY m in
  let screenX := (calibratedX + 1) * 0.5 * sw in
  let screenY := (calibratedY + 1) * 0.5 * sh in
  let gazeX := JS.max 0 (JS.min sw screenX) in
  let gazeY := JS.max 0 (JS.min sh screenY) in
  Point2D.mk gazeX gazeY.

(** Separate smoothing for X and Y: the new [gazeHistory] and the pair
    [(smoothedX, smoothedY)]. *)
Definition smooth (hist : list Point2D.t) (p : Point2D.t)
  : list Point2D.t * (R * R) :=
  let hist1 := JS.push hist p in
  let maxWindow := Nat.max SMOOTHING_WINDOW_X SMOOTHING_WINDOW_Y in
  let hist2 :=
    if (maxWindow <? List.length hist1)%nat then JS.shift hist1 else hist1 in
  let recentX := JS.slice_last SMOOTHING_WINDOW_X hist2 in
  let recentY := JS.slice_last SMOOTHING_WINDOW_Y hist2 in
  let smoothedX := JS.reduce_sum Point2D.x recentX / JS.length recentX in
  let smoothedY := JS.reduce_sum Point2D.y recentY / JS.length recentY in
  (hist2, (smoothedX, smoothedY)).

(** *** [handleGazeData]: the tracker afterwards and the points handed
    to [onGazeUpdate] during the call. *)

Definition countFrame (t : MediaPipeTracker) : MediaPipeTracker :=
  {| config := config t; isRunning := isRunning t;
     calibrationMatrix := calibrationMatrix t;
     gazeHistory := gazeHistory t;
     eyeHeightHistory := eyeHeightHistory t;
     stableEyeHeight := stableEyeHeight t;
     frameCounter := S (frameCounter t) |}.

Definition handleGazeData (w : Window.t) (now : R)
    (t : MediaPipeTracker) (data : SandboxGazeData.t)
  : MediaPipeTracker * list GazePoint.t :=
  let t := countFrame t in
  if negb (isRunning t) then (t, []) else
  match SandboxGazeData.landmarks data with
  | None => (t, [])
  | Some lm =>
    if (List.length lm <? 478)%nat then (t, []) else
    match SandboxGazeData.leftIris data, SandboxGazeData.rightIris data with
    | Some leftIris, Some rightIris =>
      if isBlinking lm then (t, []) else
      let '(heights, stable) :=
        updateEyeHeight (eyeHeightHistory t) (currentEyeHeight lm) in
      let '(normalizedX, normalizedY) := normalized lm leftIris rightIris in
      let p := screenPoint w (calibrationMatrix t) normalizedX normalizedY in
      let '(hist, (smoothedX, smoothedY)) := smooth (gazeHistory t) p in
      let t' :=
        {| config := config t; isRunning := isRunning t;
           calibrationMatrix := calibrationMatrix t;
           gazeHistory := hist;
           eyeHeightHistory := heights;
           stableEyeHeight := stable;
           frameCounter := frameCounter t |} in
      if onGazeUpdate (config t) then
        (t', [ {| GazePoint.x := smoothedX;
                  GazePoint.y := smoothedY;
                  GazePoint.timestamp := now;
                  GazePoint.confidence := 0.8;
                  GazePoint.normalizedX := Some normalizedX;
                  GazePoint.normalizedY := Some normalizedY |} ])
      else (t', [])
    | _, _ => (t, [])
    end
  end.

(** *** [applyCalibration] *)

(** An element of [normalizedPoints]. *)
Record NormalizedPoint := mkNormalized {
  actual : Point2D.t;
  measured : Point2D.t
}.

Local Open Scope div_scope.

Definition normalizePoint (w : Window.t) (p : CalibrationPoint.t)
  : JS.Div NormalizedPoint :=
  let sw := Window.innerWidth w in
  let sh := Window.innerHeight w in
  ax <- JS.div (Point2D.x (CalibrationPoint.actual p)) sw ;;
  ay <- JS.div (Point2D.y (CalibrationPoint.actual p)) sh ;;
  mx <- match Measured.normalizedX (CalibrationPoint.measured p) with
        | Some v => JS.ret v
        | None =>
            q <- JS.div (Measured.x (CalibrationPoint.measured p)) sw ;;
            JS.ret (q * 2 - 1)
        end ;;
  my <- match Measured.normalizedY (CalibrationPoint.measured p) with
        | Some v => JS.ret v
        | None =>
            q <- JS.div (Measured.y (CalibrationPoint.measured p)) sh ;;
            JS.ret (q * 2 - 1)
        end ;;
  JS.ret {| actual := Point2D.mk (ax * 2 - 1) (ay * 2 - 1);
            measured := Point2D.mk mx my |}.

(** The first [forEach]: the four running sums. *)
Record Sums := mkSums {
  sumActualX : R; sumActualY : R; sumMeasuredX : R; sumMeasuredY : R
}.
Definition addSums (s : Sums) (p : NormalizedPoint) : Sums :=
  {| sumActualX := sumActualX s + Point2D.x (actual p);
     sumActualY := sumActualY s + Point2D.y (actual p);
     sumMeasuredX := sumMeasuredX s + Point2D.x (measured p);
     sumMeasuredY := sumMeasuredY s + Point2D.y (measured p) |}.
Definition sums (nps : list NormalizedPoint) : Sums :=
  fold_left addSums nps (mkSums 0 0 0 0).

(** The second [forEach]: numerators and denominators. *)
Record Moments := mkMoments {
  numeratorX : R; denominatorX : R; numeratorY : R; denominatorY : R
}.
Definition addMoments (meanActualX meanActualY meanMeasuredX meanMeasuredY : R)
    (m : Moments) (p : NormalizedPoint) : Moments :=
  let dx := Point2D.x (measured p) - meanMeasuredX in
  let dy := Point2D.y (measured p) - meanMeasuredY in
  {| numeratorX := numeratorX m + dx * (Point2D.x (actual p) - meanActualX);
     denominatorX := denominatorX m + dx * dx;
     numeratorY := numeratorY m + dy * (Point2D.y (actual p) - meanActualY);
     denominatorY := denominatorY m + dy * dy |}.
Definition moments (meanActualX meanActualY meanMeasuredX meanMeasuredY : R)
    (nps : list NormalizedPoint) : Moments :=
  fold_left (addMoments meanActualX meanActualY meanMeasuredX meanMeasuredY)
            nps (mkMoments 0 0 0 0).

(** The four means: the sums, each divided by
    [normalizedPoints.length]. *)
Record Means := mkMeans {
  meanActualX : R; meanActualY : R; meanMeasuredX : R; meanMeasuredY : R
}.
Definition means (nps : list NormalizedPoint) : JS.Div Means :=
  let s := sums nps in
  meanActualX <- JS.div (sumActualX s) (JS.length nps) ;;
  meanActualY <- JS.div (sumActualY s) (JS.length nps) ;;
  meanMeasuredX <- JS.div (sumMeasuredX s) (JS.length nps) ;;
  meanMeasuredY <- JS.div (sumMeasuredY s) (JS.length nps) ;;
  JS.ret {| meanActualX := meanActualX; meanActualY := meanActualY;
            meanMeasuredX := meanMeasuredX;
            meanMeasuredY := meanMeasuredY |}.

(** The numerators and denominators the scales are computed from, in
    exact arithmetic; [Binary64.fitMoments] has them on doubles, where
    the means are rounded. *)
Definition fitMoments (nps : list NormalizedPoint) : Moments :=
  let mu := JS.value (means nps) in
  moments (meanActualX mu) (meanActualY mu)
          (meanMeasuredX mu) (meanMeasuredY mu) nps.

(** From [normalizedPoints] to the new matrix (means, scales, offsets). *)
Definition fit (nps : list NormalizedPoint) : JS.Div CalibrationMatrix :=
  mu <- means nps ;;
  let meanActualX := meanActualX mu in
  let meanActualY := meanActualY mu in
  let meanMeasuredX := meanMeasuredX mu in
  let meanMeasuredY := meanMeasuredY mu in
  let m := moments meanActualX meanActualY meanMeasuredX meanMeasuredY nps in
  scaleX <- (if JS.strict_neq (denominatorX m) 0
             then JS.div (numeratorX m) (denominatorX m) else JS.ret 1) ;;
  scaleY <- (if JS.strict_neq (denominatorY m) 0
             then JS.div (numeratorY m) (denominatorY m) else JS.ret 1) ;;
  let offsetX := meanActualX - scaleX * meanMeasuredX in
  let offsetY := meanActualY - scaleY * meanMeasuredY in
  JS.ret {| scaleX := scaleX; scaleY := scaleY;
            offsetX := offsetX; offsetY := offsetY |}.

Definition setMatrix (t : MediaPipeTracker) (m : CalibrationMatrix)
  : MediaPipeTracker :=
  {| config := config t; isRunning := isRunning t;
     calibrationMatrix := m;
     gazeHistory := gazeHistory t;
     eyeHeightHistory := eyeHeightHistory t;
     stableEyeHeight := stableEyeHeight t;
     frameCounter := frameCounter t |}.

Definition applyCalibration (w : Window.t) (t : MediaPipeTracker)
    (points : list CalibrationPoint.t) : JS.Div MediaPipeTracker :=
  match points with
  | [] => JS.ret t
  | _ :: _ =>
      normalizedPoints <- JS.mapM (normalizePoint w) points ;;
      m <- fit normalizedPoints ;;
      JS.ret (setMatrix t m)
  end.

End Linear.

(* ================================================================== *)
(** ** The estimator, affine variant: calibration
       (the [MediaPipeTracker] listed in docs/feature_map.md) *)
(* ================================================================== *)

Module Affine.

(** [calibrationMatrix]: x' = a*x + b*y + tx, y' = c*x + d*y + ty *)
Record CalibrationMatrix := mkMatrix {
  a : R; b : R; c : R; d : R; tx : R; ty : R
}.

(** The fields of the tracker that calibration reads and writes. *)
Record MediaPipeTracker := mkTracker {
  calibrationMatrix : CalibrationMatrix;
  isCalibrated : bool
}.

(** [new MediaPipeTracker(config)] *)
Definition create : MediaPipeTracker :=
  {| calibrationMatrix :=
       {| a := 1; b := 0; tx := 0; c := 0; d := 1; ty := 0 |};
     isCalibrated := false |}.

(** The calibrated branch of [handleGazeData]: [(gazeX, gazeY)] before
    the clamp. *)
Definition transform (m : CalibrationMatrix) (normalizedX normalizedY : R)
  : Point2D.t :=
  Point2D.mk (a m * normalizedX + b m * normalizedY + tx m)
             (c m * normalizedX + d m * normalizedY + ty m).

(** The mapping to the screen in [handleGazeData]: the provisional
    scale before any calibration, the affine transform after it, and the
    clamp to the screen bounds in both cases. *)
Definition gazePoint (w : Window.t) (t : MediaPipeTracker)
    (normalizedX normalizedY : R) : Point2D.t :=
  let sw := Window.innerWidth w in
  let sh := Window.innerHeight w in
  let raw :=
    if negb (isCalibrated t) then
      let irisRange := 0.4 in
      Point2D.mk (sw / 2 + normalizedX / irisRange * (sw / 2))
                 (sh / 2 + normalizedY / irisRange * (sh / 2))
    else transform (calibrationMatrix t) normalizedX normalizedY in
  Point2D.mk (JS.max 0 (JS.min sw (Point2D.x raw)))
             (JS.max 0 (JS.min sh (Point2D.y raw))).

(** [useDefaultCalibration] *)
Definition defaultMatrix (w : Window.t) : CalibrationMatrix :=
  let sw := Window.innerWidth w in
  let sh := Window.innerHeight w in
  let irisRange := 0.6 in
  {| a := sw / irisRange;
     b := 0;
     c := 0;
     d := sh / irisRange;
     tx := sw / 2;
     ty := sh / 2 |}.

Definition useDefaultCalibration (w : Window.t) (t : MediaPipeTracker)
  : MediaPipeTracker :=
  {| calibrationMatrix := defaultMatrix w; isCalibrated := true |}.

(** *** [applyCalibration] *)

Definition MAX_STDDEV : R := 50.

(** [!p.stdDev || p.stdDev < MAX_STDDEV]: a missing or zero [stdDev]
    passes. *)
Definition isGood (p : CalibrationPoint.t) : bool :=
  match CalibrationPoint.stdDev p with
  | None => true
  | Some s => negb (JS.strict_neq s 0) || JS.lt s MAX_STDDEV
  end.

Definition goodPoints (points : list CalibrationPoint.t)
  : list CalibrationPoint.t :=
  filter isGood points.

(** An element of [data]. *)
Record Datum := mkDatum { srcX : R; srcY : R; dstX : R; dstY : R }.

Definition datum (p : CalibrationPoint.t) : Datum :=
  {| srcX :=
       JS.defined_or (Measured.normalizedX (CalibrationPoint.measured p)) 0;
     srcY :=
       JS.defined_or (Measured.normalizedY (CalibrationPoint.measured p)) 0;
     dstX := Point2D.x (CalibrationPoint.actual p);
     dstY := Point2D.y (CalibrationPoint.actual p) |}.

(** The running sums of the [forEach] over [data]. *)
Record Sums := mkSums {
  sumX : R; sumY : R;
  sumXX : R; sumYY : R; sumXY : R;
  sumDstX : R; sumDstY : R;
  sumXDstX : R; sumYDstX : R;
  sumXDstY : R; sumYDstY : R
}.

Definition addSums (s : Sums) (p : Datum) : Sums :=
  {| sumX := sumX s + srcX p;
     sumY := sumY s + srcY p;
     sumXX := sumXX s + srcX p * srcX p;
     sumYY := sumYY s + srcY p * srcY p;
     sumXY := sumXY s + srcX p * srcY p;
     sumDstX := sumDstX s + dstX p;
     sumDstY := sumDstY s + dstY p;
     sumXDstX := sumXDstX s + srcX p * dstX p;
     sumYDstX := sumYDstX s + srcY p * dstX p;
     sumXDstY := sumXDstY s + srcX p * dstY p;
     sumYDstY := sumYDstY s + srcY p * dstY p |}.

Definition sums (data : list Datum) : Sums :=
  fold_left addSums data (mkSums 0 0 0 0 0 0 0 0 0 0 0).

(** The determinant of the normal equations, [n] being [data.length]. *)
Definition detA (s : Sums) (n : R) : R :=
  sumXX s * (sumYY s * n - sumY s * sumY s)
  - sumXY s * (sumXY s * n - sumY s * sumX s)
  + sumX s * (sumXY s * sumY s - sumYY s * sumX s).

(** Cramer's rule, for the X row ([a], [b], [tx]) and the Y row. *)
Definition solve (s : Sums) (n : R) : CalibrationMatrix :=
  let detAa := sumXDstX s * (sumYY s * n - sumY s * sumY s)
               - sumXY s * (sumYDstX s * n - sumY s * sumDstX s)
               + sumX s * (sumYDstX s * sumY s - sumYY s * sumDstX s) in
  let detAb := sumXX s * (sumYDstX s * n - sumY s * sumDstX s)
               - sumXDstX s * (sumXY s * n - sumY s * sumX s)
               + sumX s * (sumXY s * sumDstX s - sumYDstX s * sumX s) in
  let detAtx := sumXX s * (sumYY s * sumDstX s - sumYDstX s * sumY s)
                - sumXY s * (sumXY s * sumDstX s - sumYDstX s * sumX s)
                + sumXDstX s * (sumXY s * sumY s - sumYY s * sumX s) in
  let detAc := sumXDstY s * (sumYY s * n - sumY s * sumY s)
               - sumXY s * (sumYDstY s * n - sumY s * sumDstY s)
               + sumX s * (sumYDstY s * sumY s - sumYY s * sumDstY s) in
  let detAd := sumXX s * (sumYDstY s * n - sumY s * sumDstY s)
               - sumXDstY s * (sumXY s * n - sumY s * sumX s)
               + sumX s * (sumXY s * sumDstY s - sumYDstY s * sumX s) in
  let detAty := sumXX s * (sumYY s * sumDstY s - sumYDstY s * sumY s)
                - sumXY s * (sumXY s * sumDstY s - sumYDstY s * sumX s)
                + sumXDstY s * (sumXY s * sumY s - sumYY s * sumX s) in
  {| a := detAa / detA s n;
     b := detAb / detA s n;
     tx := detAtx / detA s n;
     c := detAc / detA s n;
     d := detAd / detA s n;
     ty := detAty / detA s n |}.

(** The sanity check on the fitted scales. *)
Definition expectedScale (w : Window.t) : R := Window.innerWidth w / 0.6.
Definition MAX_SCALE (w : Window.t) : R := expectedScale w * 3.
Definition MIN_SCALE (w : Window.t) : R := expectedScale w / 5.
Definition effectiveScaleX (m : CalibrationMatrix) : R :=
  JS.sqrt (a m * a m + c m * c m).
Definition primaryScaleY (m : CalibrationMatrix) : R := JS.abs (d m).
Definition outOfRange (w : Window.t) (scale : R) : bool :=
  JS.gt scale (MAX_SCALE w) || JS.lt scale (MIN_SCALE w).

Definition applyCalibration (w : Window.t) (t : MediaPipeTracker)
    (points : list CalibrationPoint.t) : MediaPipeTracker :=
  match points with
  | [] => t
  | _ :: _ =>
    let good := goodPoints points in
    if (List.length good <? 4)%nat then useDefaultCalibration w t else
    let data := map datum good in
    let n := JS.length data in
    let s := sums data in
    if JS.lt (JS.abs (detA s n)) 1e-10 then useDefaultCalibration w t else
    let m := solve s n in
    if outOfRange w (effectiveScaleX m) then useDefaultCalibration w t else
    if outOfRange w (primaryScaleY m) then useDefaultCalibration w t else
    {| calibrationMatrix := m; isCalibrated := true |}
  end.

End Affine.

(* ================================================================== *)
(** ** The per-point capture callback of [runCalibration]
       (src/popup/App.tsx) *)
(* ================================================================== *)

Module Capture.

(** [samples] holds references to the [GazePoint] objects that
    [handleGazeUpdate] stored in [currentGaze]; the same object is
    pushed again when no new point arrived between two ticks.  [Store]
    gives the object behind a reference. *)
Definition Store := nat -> GazePoint.t.

Definition sampleCount : nat := 50.

(** [Math.floor(sampleCount * 0.1)] *)
Definition trimCount : Z := Int_part (INR sampleCount * 0.1).

Section WithStore.
Variable store : Store.

Definition xOf (g : nat) : R := GazePoint.x (store g).
Definition yOf (g : nat) : R := GazePoint.y (store g).

Definition sortedX (samples : list nat) : list nat := JS.sort_by xOf samples.
Definition sortedY (samples : list nat) : list nat := JS.sort_by yOf samples.
Definition xRank (samples : list nat) (g : nat) : Z :=
  JS.indexOf (sortedX samples) g.
Definition yRank (samples : list nat) (g : nat) : Z :=
  JS.indexOf (sortedY samples) g.

(** The predicate of [samples.filter]. *)
Definition kept (samples : list nat) (g : nat) : bool :=
  (trimCount <=? xRank samples g)%Z
  && (xRank samples g <? Z.of_nat sampleCount - trimCount)%Z
  && (trimCount <=? yRank samples g)%Z
  && (yRank samples g <? Z.of_nat sampleCount - trimCount)%Z.

Definition trimmedSamples (samples : list nat) : list nat :=
  filter (kept samples) samples.

Definition validSamples (samples : list nat) : list nat :=
  if (10 <=? List.length (trimmedSamples samples))%nat
  then trimmedSamples samples else samples.

(** Averages, variances and the sample pushed to [calibrationData];
    the second component is the value the promise resolves to. *)
Definition summarize (targetPoint : Point2D.t) (samples : list nat)
  : CalibrationPoint.t * Point2D.t :=
  let valid := validSamples samples in
  let avgX := JS.reduce_sum xOf valid / JS.length valid in
  let avgY := JS.reduce_sum yOf valid / JS.length valid in
  let avgNormX :=
    JS.reduce_sum (fun g => JS.or_zero (GazePoint.normalizedX (store g)))
                  valid / JS.length valid in
  let avgNormY :=
    JS.reduce_sum (fun g => JS.or_zero (GazePoint.normalizedY (store g)))
                  valid / JS.length valid in
  let varX :=
    JS.reduce_sum (fun g => JS.pow2 (xOf g - avgX)) valid
    / JS.length valid in
  let varY :=
    JS.reduce_sum (fun g => JS.pow2 (yOf g - avgY)) valid
    / JS.length valid in
  let stdDev := JS.sqrt (varX + varY) in
  ({| CalibrationPoint.actual := targetPoint;
      CalibrationPoint.measured :=
        {| Measured.x := avgX; Measured.y := avgY;
           Measured.normalizedX := Some avgNormX;
           Measured.normalizedY := Some avgNormY |};
      CalibrationPoint.stdDev := Some stdDev |},
   Point2D.mk avgX avgY).

(** One run of the [setInterval] callback: [currentGaze] is pushed
    when there is one, and the sample is produced once
    [sampleCount] references are there. *)
Definition tick (targetPoint : Point2D.t) (currentGaze : option nat)
    (samples : list nat)
  : list nat * option (CalibrationPoint.t * Point2D.t) :=
  let samples :=
    match currentGaze with
    | Some g => JS.push samples g
    | None => samples
    end in
  if (sampleCount <=? List.length samples)%nat
  then (samples, Some (summarize targetPoint samples))
  else (samples, None).
End WithStore.

End Capture.

(* ================================================================== *)
(** ** [CalibrationSystem]: the grid and [runValidation] *)
(* ================================================================== *)

Module CalibrationSystem.

Definition positions : list (R * R) :=
  [ (0.15, 0.15); (0.5, 0.15); (0.85, 0.15);
    (0.15, 0.5);  (0.5, 0.5);  (0.85, 0.5);
    (0.15, 0.85); (0.5, 0.85); (0.85, 0.85) ].

(** [generateCalibrationGrid] *)
Definition generateCalibrationGrid (w : Window.t) : list Point2D.t :=
  let width := Window.innerWidth w in
  let height := Window.innerHeight w in
  map (fun '(x, y) => Point2D.mk (width * x) (height * y)) positions.

Definition validationPoints (w : Window.t) : list Point2D.t :=
  [ Point2D.mk (Window.innerWidth w * 0.3) (Window.innerHeight w * 0.3);
    Point2D.mk (Window.innerWidth w * 0.7) (Window.innerHeight w * 0.3);
    Point2D.mk (Window.innerWidth w * 0.5) (Window.innerHeight w * 0.5);
    Point2D.mk (Window.innerWidth w * 0.3) (Window.innerHeight w * 0.7);
    Point2D.mk (Window.innerWidth w * 0.7) (Window.innerHeight w * 0.7) ].

(** What [runValidation] resolves to. *)
Record ValidationResult := mkResult { success : bool; avgError : R }.

(** The caller's capture routine: [onGazeCapture k point] is what its
    promise resolves to on the call number [k], made with [point]. *)
Definition CaptureFn := nat -> Point2D.t -> Point2D.t.

Definition errorOf (measured point : Point2D.t) : R :=
  JS.sqrt (JS.pow2 (Point2D.x measured - Point2D.x point)
           + JS.pow2 (Point2D.y measured - Point2D.y point)).

(** [showNextPoint], on the targets from [currentIndex] on. *)
Fixpoint showNextPoint (onGazeCapture : CaptureFn)
    (remaining : list Point2D.t) (currentIndex : nat) (errors : list R)
  : ValidationResult :=
  match remaining with
  | [] =>
      let avgError := JS.reduce_sum (fun e => e) errors / JS.length errors in
      {| success := JS.lt avgError 100; avgError := avgError |}
  | point :: rest =>
      let measured := onGazeCapture currentIndex point in
      showNextPoint onGazeCapture rest (S currentIndex)
                    (JS.push errors (errorOf measured point))
  end.

Definition runValidation (w : Window.t) (onGazeCapture : CaptureFn)
  : ValidationResult :=
  showNextPoint onGazeCapture (validationPoints w) 0 [].

End CalibrationSystem.

(* ================================================================== *)
(** ** A tracking session *)
(* ================================================================== *)

(** The calls made on one linear tracker: frames delivered by the
    bridge, calibrations, [start] and [stop].  [run] has them while the
    viewport keeps its size, [play] with the viewport that each call
    reads; both return the tracker at the end and every point handed to
    [onGazeUpdate], oldest first. *)
Module Session.

Inductive Event :=
| Frame (now : R) (data : SandboxGazeData.t)
| Calibrate (points : list CalibrationPoint.t)
| Start
| Stop.

Definition step (w : Window.t) (t : Linear.MediaPipeTracker) (e : Event)
  : Linear.MediaPipeTracker * list GazePoint.t :=
  match e with
  | Frame now data => Linear.handleGazeData w now t data
  | Calibrate points => (JS.value (Linear.applyCalibration w t points), [])
  | Start => (Linear.start t, [])
  | Stop => (Linear.stop t, [])
  end.

Fixpoint run (w : Window.t) (t : Linear.MediaPipeTracker) (es : list Event)
  : Linear.MediaPipeTracker * list GazePoint.t :=
  match es with
  | [] => (t, [])
  | e :: es' =>
      let '(t1, out1) := step w t e in
      let '(t2, out2) := run w t1 es' in
      (t2, out1 ++ out2)
  end.

(** The same calls when the viewport may change between them: every
    call comes with the viewport that it reads. *)
Fixpoint play (t : Linear.MediaPipeTracker) (calls : list (Window.t * Event))
  : Linear.MediaPipeTracker * list GazePoint.t :=
  match calls with
  | [] => (t, [])
  | (w, e) :: calls' =>
      let '(t1, out1) := step w t e in
      let '(t2, out2) := play t1 calls' in
      (t2, out1 ++ out2)
  end.

End Session.

(* ================================================================== *)
(** ** The specification's vocabulary *)
(* ================================================================== *)

(** The notions the specification is worded in, defined on their own:
    the theorems below relate them to what the code computes. *)
Module Spec.

Definition sum (l : list R) : R := fold_right Rplus 0 l.
Definition mean (l : list R) : R := sum l / INR (length l).

(** var(l): the mean squared deviation from the mean. *)
Definition variance (l : list R) : R :=
  mean (map (fun v => (v - mean l) * (v - mean l)) l).

(** The [k] most recent elements of a buffer that grows at its end. *)
Definition mostRecent {A} (k : nat) (l : list A) : list A :=
  rev (firstn k (rev l)).

(** Least squares on mean-centered (measured, actual) pairs:
    sum(dm*da), sum(dm^2), and then
    scale = sum(dm*da) / sum(dm^2),
    offset = mean(actual) - scale * mean(measured). *)
Definition sum_dm_da (pairs : list (R * R)) : R :=
  let mm := mean (map fst pairs) in
  let ma := mean (map snd pairs) in
  sum (map (fun p => (fst p - mm) * (snd p - ma)) pairs).
Definition sum_dm2 (pairs : list (R * R)) : R :=
  let mm := mean (map fst pairs) in
  sum (map (fun p => (fst p - mm) * (fst p - mm)) pairs).
Definition scale (pairs : list (R * R)) : R :=
  sum_dm_da pairs / sum_dm2 pairs.
Definition offset (scale : R) (pairs : list (R * R)) : R :=
  mean (map snd pairs) - scale * mean (map fst pairs).

(** The normalized (measured, actual) pairs of one axis. *)
Definition toUnit (v size : R) : R := v / size * 2 - 1.
Definition pairX (w : Window.t) (p : CalibrationPoint.t) : R * R :=
  (match Measured.normalizedX (CalibrationPoint.measured p) with
   | Some v => v
   | None => toUnit (Measured.x (CalibrationPoint.measured p))
                    (Window.innerWidth w)
   end,
   toUnit (Point2D.x (CalibrationPoint.actual p)) (Window.innerWidth w)).
Definition pairY (w : Window.t) (p : CalibrationPoint.t) : R * R :=
  (match Measured.normalizedY (CalibrationPoint.measured p) with
   | Some v => v
   | None => toUnit (Measured.y (CalibrationPoint.measured p))
                    (Window.innerHeight w)
   end,
   toUnit (Point2D.y (CalibrationPoint.actual p)) (Window.innerHeight w)).

(** The same pairs, read off [normalizedPoints]. *)
Definition axisX (nps : list Linear.NormalizedPoint) : list (R * R) :=
  map (fun q => (Point2D.x (Linear.measured q), Point2D.x (Linear.actual q)))
      nps.
Definition axisY (nps : list Linear.NormalizedPoint) : list (R * R) :=
  map (fun q => (Point2D.y (Linear.measured q), Point2D.y (Linear.actual q)))
      nps.

(** All measured values of an axis are equal. *)
Definition allMeasuredEqual (pairs : list (R * R)) : Prop :=
  forall p q, In p pairs -> In q pairs -> fst p = fst q.

(** A frame the validation step lets through, and one it drops. *)
Definition wellFormed (data : SandboxGazeData.t) (lm : list Point2D.t)
    (leftIris rightIris : Point2D.t) : Prop :=
  SandboxGazeData.landmarks data = Some lm
  /\ (478 <= length lm)%nat
  /\ SandboxGazeData.leftIris data = Some leftIris
  /\ SandboxGazeData.rightIris data = Some rightIris.

Definition malformed (data : SandboxGazeData.t) : Prop :=
  match SandboxGazeData.landmarks data with
  | None => True
  | Some lm => (length lm < 478)%nat
  end
  \/ SandboxGazeData.leftIris data = None
  \/ SandboxGazeData.rightIris data = None.

(** The frame's eyes have an aspect ratio (their average width is not
    zero), and it is below [r]. *)
Definition aspectRatioBelow (data : SandboxGazeData.t) (r : R) : Prop :=
  exists lm, SandboxGazeData.landmarks data = Some lm
             /\ Linear.avgEyeWidth lm <> 0
             /\ Linear.aspectRatio lm < r.

(** Both eyes have a width and a height, so that the iris offsets are
    quotients with non-zero divisors. *)
Definition eyesMeasurable (lm : list Point2D.t) : Prop :=
  Linear.leftEyeWidth lm <> 0 /\ Linear.rightEyeWidth lm <> 0
  /\ Linear.leftEyeHeight lm <> 0 /\ Linear.rightEyeHeight lm <> 0.

(** Feeding the smoother the points [ps] one after the other, from the
    buffer [hist]: the buffer at the end and the last smoothed pair
    ([start] when [ps] is empty). *)
Definition smoothAll (start : list Point2D.t * (R * R))
    (ps : list Point2D.t) : list Point2D.t * (R * R) :=
  fold_left (fun acc p => Linear.smooth (fst acc) p) ps start.

(** The buffer ends with [k] copies of [p]. *)
Definition endsWith (k : nat) (p : Point2D.t) (hist : list Point2D.t)
  : Prop :=
  exists pre, hist = pre ++ repeat p k.

(** [e] is a frame that passes validation and the blink check and whose
    clamped screen point, under the transform [m], is [p]. *)
Definition feeds (w : Window.t) (m : Linear.CalibrationMatrix)
    (p : Point2D.t) (e : Session.Event) : Prop :=
  exists now data lm li ri,
    e = Session.Frame now data
    /\ wellFormed data lm li ri
    /\ eyesMeasurable lm
    /\ Linear.aspectRatio lm >= 0.15
    /\ Linear.screenPoint w m (fst (Linear.normalized lm li ri))
                              (snd (Linear.normalized lm li ri)) = p.

(** Screen bounds. *)
Definition onScreen (w : Window.t) (x y : R) : Prop :=
  0 <= x <= Window.innerWidth w /\ 0 <= y <= Window.innerHeight w.

(** Euclidean length of a vector. *)
Definition magnitude (dx dy : R) : R := sqrt (dx * dx + dy * dy).

(** The Euclidean pixel errors of a validation pass: the [k]-th call of
    the capture routine is made with the [k]-th target, counting from
    [first]. *)
Definition validationErrors (capture : nat -> Point2D.t -> Point2D.t)
    (first : nat) (targets : list Point2D.t) : list R :=
  map (fun kp =>
         magnitude
           (Point2D.x (capture (fst kp) (snd kp)) - Point2D.x (snd kp))
           (Point2D.y (capture (fst kp) (snd kp)) - Point2D.y (snd kp)))
      (combine (seq first (length targets)) targets).

(** A capture routine that is off by the fixed vector [(dx, dy)]. *)
Definition offBy (dx dy : R) (capture : nat -> Point2D.t -> Point2D.t)
  : Prop :=
  forall k point,
    capture k point
    = Point2D.mk (Point2D.x point + dx) (Point2D.y point + dy).

(** No quotient of a frame has a zero divisor: a complete frame shows
    eyes whose average width is not zero and, unless it is dropped as a
    blink, eyes of non-zero width and height. *)
Definition frameDefined (data : SandboxGazeData.t) : Prop :=
  forall lm li ri,
    wellFormed data lm li ri ->
    Linear.avgEyeWidth lm <> 0
    /\ (Linear.isBlinking lm = false -> eyesMeasurable lm).

(** No quotient of a call has a zero divisor: a frame as above; a
    calibration with samples reads a viewport of non-zero width and
    height. *)
Definition quotientsDefined (call : Window.t * Session.Event) : Prop :=
  match snd call with
  | Session.Frame _ data => frameDefined data
  | Session.Calibrate points =>
      points <> [] ->
      Window.innerWidth (fst call) <> 0 /\ Window.innerHeight (fst call) <> 0
  | Session.Start => True
  | Session.Stop => True
  end.

(** The viewport that a call reads is no wider and no higher than
    [bound]. *)
Definition viewportWithin (bound : Window.t)
    (call : Window.t * Session.Event) : Prop :=
  0 <= Window.innerWidth (fst call) <= Window.innerWidth bound
  /\ 0 <= Window.innerHeight (fst call) <= Window.innerHeight bound.

End Spec.

(* ================================================================== *)
(** ** Concrete inputs *)
(* ================================================================== *)

Module Examples.

Definition viewport : Window.t := Window.mk 1920 1080.

(** A tracker with and without an [onGazeUpdate] callback. *)
Definition listening : Linear.MediaPipeConfig := Linear.mkConfig true.
Definition silent : Linear.MediaPipeConfig := Linear.mkConfig false.

(** A face whose eyes are 0.1 wide and [2 * lid] high: the eight eye
    landmarks the estimator reads, every other landmark at the origin. *)
Definition facePoint (lid : R) (i : nat) : Point2D.t :=
  if (i =? 33)%nat then Point2D.mk 0.30 0.40
  else if (i =? 133)%nat then Point2D.mk 0.40 0.40
  else if (i =? 362)%nat then Point2D.mk 0.60 0.40
  else if (i =? 263)%nat then Point2D.mk 0.70 0.40
  else if (i =? 159)%nat then Point2D.mk 0.35 (0.40 - lid)
  else if (i =? 145)%nat then Point2D.mk 0.35 (0.40 + lid)
  else if (i =? 386)%nat then Point2D.mk 0.65 (0.40 - lid)
  else if (i =? 374)%nat then Point2D.mk 0.65 (0.40 + lid)
  else Point2D.mk 0 0.
Definition face (lid : R) : list Point2D.t := map (facePoint lid) (seq 0 478).

Definition leftIris : Point2D.t := Point2D.mk 0.35 0.40.
Definition rightIris : Point2D.t := Point2D.mk 0.65 0.40.

Definition frameOf (lm : list Point2D.t) : SandboxGazeData.t :=
  {| SandboxGazeData.leftIris := Some leftIris;
     SandboxGazeData.rightIris := Some rightIris;
     SandboxGazeData.landmarks := Some lm;
     SandboxGazeData.timestamp := 0 |}.

(** Open eyes (aspect ratio 0.4), a blink (aspect ratio 0.02), a frame
    with three landmarks only. *)
Definition openEyes : list Point2D.t := face 0.02.
Definition closedEyes : list Point2D.t := face 0.001.
Definition openFrame : SandboxGazeData.t := frameOf openEyes.
Definition blinkFrame : SandboxGazeData.t := frameOf closedEyes.
Definition shortFrame : SandboxGazeData.t :=
  frameOf [Point2D.mk 0 0; Point2D.mk 0 0; Point2D.mk 0 0].

(** Calibration samples: a target, the measured screen point and the
    measured normalized pair. *)
Definition sample (ax ay mx my nx ny : R) : CalibrationPoint.t :=
  {| CalibrationPoint.actual := Point2D.mk ax ay;
     CalibrationPoint.measured :=
       {| Measured.x := mx; Measured.y := my;
          Measured.normalizedX := Some nx;
          Measured.normalizedY := Some ny |};
     CalibrationPoint.stdDev := None |}.

Definition oneSample : list CalibrationPoint.t :=
  [ sample 960 540 900 500 0.1 (-0.2) ].
Definition twoSamples : list CalibrationPoint.t :=
  [ sample 480 270 500 300 (-0.1) (-0.2); sample 1440 810 1400 800 0.3 0.2 ].

End Examples.

(** Further concrete inputs, for the affine fit. *)
Module AffineExamples.

(** Four samples that all measured the same normalized pair. *)
Definition degenerate : list CalibrationPoint.t :=
  [ Examples.sample 288 162 0 0 0 0; Examples.sample 1632 162 0 0 0 0;
    Examples.sample 288 918 0 0 0 0; Examples.sample 1632 918 0 0 0 0 ].

End AffineExamples.

(** A capture routine that measures every target 3 px to the right and
    4 px below. *)
Module ValidationExamples.

Definition shifted : CalibrationSystem.CaptureFn :=
  fun _ point => Point2D.mk (Point2D.x point + 3) (Point2D.y point + 4).

End ValidationExamples.

(** Further concrete inputs, for the capture callback: fifty distinct
    objects, the [g]-th one at the screen point [(g, 2g)]. *)
Module CaptureExamples.

Definition store : Capture.Store :=
  fun g =>
    {| GazePoint.x := INR g; GazePoint.y := 2 * INR g;
       GazePoint.timestamp := INR g; GazePoint.confidence := 0.8;
       GazePoint.normalizedX := Some 0.1;
       GazePoint.normalizedY := Some 0.2 |}.

Definition samples : list nat := seq 0 50.

Definition target : Point2D.t := Point2D.mk 960 540.

End CaptureExamples.

(** Further concrete inputs: four samples measured at the normalized
    corners (+-0.3, +-0.3) while the targets were the screen corners, and
    the same object captured fifty times. *)
Module MoreExamples.

Definition corners : list CalibrationPoint.t :=
  [ Examples.sample 0 0 0 0 (-0.3) (-0.3);
    Examples.sample 1920 0 0 0 0.3 (-0.3);
    Examples.sample 0 1080 0 0 (-0.3) 0.3;
    Examples.sample 1920 1080 0 0 0.3 0.3 ].

Definition sameObject : list nat := repeat 7%nat 50.

End MoreExamples.

(** A viewport after the window has been made smaller. *)
Module ResizeExamples.

Definition narrow : Window.t := Window.mk 600 400.

Definition resized : list (Window.t * Session.Event) :=
  [ (Examples.viewport, Session.Frame 0 Examples.openFrame);
    (narrow, Session.Frame 1 Examples.openFrame) ].

Definition steady : list (Window.t * Session.Event) :=
  [ (Examples.viewport, Session.Start);
    (Examples.viewport, Session.Frame 0 Examples.openFrame);
    (Examples.viewport, Session.Calibrate Examples.twoSamples);
    (Examples.viewport, Session.Frame 1 Examples.blinkFrame);
    (Examples.viewport, Session.Frame 2 Examples.openFrame) ].

End ResizeExamples.

(* ================================================================== *)
(** ** The linear estimator on IEEE-754 doubles *)
(* ================================================================== *)

(** The numbers JavaScript computes with are binary64 floating-point
    numbers.  Where an infinity, a NaN or a rounding decides what the
    code does, the linear estimator is evaluated on them: the same
    statements as in [Linear], operation by operation and in the order
    in which the code evaluates them, on Rocq's primitive [float]. *)
Module Binary64.
Import PrimFloat.
Local Open Scope float_scope.

(** [Math.max], [Math.min]: NaN when an argument is NaN, and +0 above
    -0. *)
Definition max (a b : float) : float :=
  if is_nan a || is_nan b then nan
  else if a <? b then b
  else if b <? a then a
  else if get_sign a then b else a.
Definition min (a b : float) : float :=
  if is_nan a || is_nan b then nan
  else if a <? b then a
  else if b <? a then b
  else if get_sign a then a else b.

(** [a !== b] on numbers. *)
Definition strict_neq (a b : float) : bool := negb (a =? b).

(** [a.length] as a number, [a.reduce((sum, v) => sum + f(v), 0)]. *)
Fixpoint length {A} (a : list A) : float :=
  match a with
  | [] => 0
  | _ :: rest => length rest + 1
  end.
Definition reduce_sum {A} (f : A -> float) (a : list A) : float :=
  fold_left (fun sum v => sum + f v) a 0.

Module Point2D.
Record t := mk { x : float; y : float }.
End Point2D.

Module GazePoint.
Record t := mk {
  x : float;
  y : float;
  timestamp : float;
  confidence : float;
  normalizedX : option float;
  normalizedY : option float
}.
End GazePoint.

Module SandboxGazeData.
Record t := mk {
  leftIris : option Point2D.t;
  rightIris : option Point2D.t;
  landmarks : option (list Point2D.t)
}.
End SandboxGazeData.

Module Window.
Record t := mk { innerWidth : float; innerHeight : float }.
End Window.

Module Measured.
Record t := mk {
  x : float;
  y : float;
  normalizedX : option float;
  normalizedY : option float
}.
End Measured.

Module CalibrationPoint.
Record t := mk { actual : Point2D.t; measured : Measured.t }.
End CalibrationPoint.

Record CalibrationMatrix := mkMatrix {
  scaleX : float;
  scaleY : float;
  offsetX : float;
  offsetY : float
}.

Record MediaPipeTracker := mkTracker {
  onGazeUpdate : bool;
  isRunning : bool;
  calibrationMatrix : CalibrationMatrix;
  gazeHistory : list Point2D.t;
  eyeHeightHistory : list float;
  stableEyeHeight : float;
  frameCounter : nat
}.

(** [new MediaPipeTracker(config)], then [start()]. *)
Definition started (onGazeUpdate : bool) : MediaPipeTracker :=
  {| onGazeUpdate := onGazeUpdate;
     isRunning := true;
     calibrationMatrix :=
       {| scaleX := 1; scaleY := 1; offsetX := 0; offsetY := 0 |};
     gazeHistory := [];
     eyeHeightHistory := [];
     stableEyeHeight := 0.03;
     frameCounter := 0 |}.

Definition landmark (lm : list Point2D.t) (i : nat) : Point2D.t :=
  nth i lm (Point2D.mk 0 0).

(** *** [handleGazeData] *)

Definition leftEyeWidth (lm : list Point2D.t) : float :=
  abs (Point2D.x (landmark lm 133) - Point2D.x (landmark lm 33)).
Definition rightEyeWidth (lm : list Point2D.t) : float :=
  abs (Point2D.x (landmark lm 263) - Point2D.x (landmark lm 362)).
Definition avgEyeWidth (lm : list Point2D.t) : float :=
  (leftEyeWidth lm + rightEyeWidth lm) / 2.
Definition leftEyeHeight (lm : list Point2D.t) : float :=
  abs (Point2D.y (landmark lm 145) - Point2D.y (landmark lm 159)).
Definition rightEyeHeight (lm : list Point2D.t) : float :=
  abs (Point2D.y (landmark lm 374) - Point2D.y (landmark lm 386)).
Definition currentEyeHeight (lm : list Point2D.t) : float :=
  (leftEyeHeight lm + rightEyeHeight lm) / 2.
Definition aspectRatio (lm : list Point2D.t) : float :=
  currentEyeHeight lm / avgEyeWidth lm.
Definition isBlinking (lm : list Point2D.t) : bool :=
  aspectRatio lm <? 0.15.

Definition updateEyeHeight (hist : list float) (h : float)
  : list float * float :=
  let hist1 := hist ++ [h] in
  let hist2 := if (15 <? List.length hist1)%nat then tl hist1 else hist1 in
  (hist2, reduce_sum (fun v => v) hist2 / length hist2).

Definition normalized (lm : list Point2D.t) (leftIris rightIris : Point2D.t)
  : float * float :=
  let leftEyeLeft := landmark lm 33 in
  let leftEyeRight := landmark lm 133 in
  let rightEyeLeft := landmark lm 362 in
  let rightEyeRight := landmark lm 263 in
  let leftEyeTop := landmark lm 159 in
  let leftEyeBottom := landmark lm 145 in
  let rightEyeTop := landmark lm 386 in
  let rightEyeBottom := landmark lm 374 in
  let leftEyeCenterX := (Point2D.x leftEyeLeft + Point2D.x leftEyeRight) / 2 in
  let rightEyeCenterX :=
    (Point2D.x rightEyeLeft + Point2D.x rightEyeRight) / 2 in
  let leftEyeCenterY := (Point2D.y leftEyeTop + Point2D.y leftEyeBottom) / 2 in
  let rightEyeCenterY :=
    (Point2D.y rightEyeTop + Point2D.y rightEyeBottom) / 2 in
  let leftIrisOffsetX :=
    (Point2D.x leftIris - leftEyeCenterX) / (leftEyeWidth lm / 2) in
  let rightIrisOffsetX :=
    (Point2D.x rightIris - rightEyeCenterX) / (rightEyeWidth lm / 2) in
  let leftIrisOffsetY :=
    (Point2D.y leftIris - leftEyeCenterY) / (leftEyeHeight lm / 2) in
  let rightIrisOffsetY :=
    (Point2D.y rightIris - rightEyeCenterY) / (rightEyeHeight lm / 2) in
  let avgIrisOffsetX := (leftIrisOffsetX + rightIrisOffsetX) / 2 in
  let avgIrisOffsetY := (leftIrisOffsetY + rightIrisOffsetY) / 2 in
  (avgIrisOffsetX, avgIrisOffsetY).

Definition screenPoint (w : Window.t) (m : CalibrationMatrix)
    (normalizedX normalizedY : float) : Point2D.t :=
  let sw := Window.innerWidth w in
  let sh := Window.innerHeight w in
  let calibratedX := normalizedX * scaleX m + offsetX m in
  let calibratedY := normalizedY * scaleY m + offsetY m in
  let screenX := (calibratedX + 1) * 0.5 * sw in
  let screenY := (calibratedY + 1) * 0.5 * sh in
  let gazeX := max 0 (min sw screenX) in
  let gazeY := max 0 (min sh screenY) in
  Point2D.mk gazeX gazeY.

Definition slice_last {A} (k : nat) (a : list A) : list A :=
  skipn (List.length a - k) a.

Definition smooth (hist : list Point2D.t) (p : Point2D.t)
  : list Point2D.t * (float * float) :=
  let hist1 := hist ++ [p] in
  let maxWindow := Nat.max 8 4 in
  let hist2 :=
    if (maxWindow <? List.length hist1)%nat then tl hist1 else hist1 in
  let recentX := slice_last 8 hist2 in
  let recentY := slice_last 4 hist2 in
  let smoothedX := reduce_sum Point2D.x recentX / length recentX in
  let smoothedY := reduce_sum Point2D.y recentY / length recentY in
  (hist2, (smoothedX, smoothedY)).

Definition countFrame (t : MediaPipeTracker) : MediaPipeTracker :=
  {| onGazeUpdate := onGazeUpdate t; isRunning := isRunning t;
     calibrationMatrix := calibrationMatrix t;
     gazeHistory := gazeHistory t;
     eyeHeightHistory := eyeHeightHistory t;
     stableEyeHeight := stableEyeHeight t;
     frameCounter := S (frameCounter t) |}.

Definition handleGazeData (w : Window.t) (now : float)
    (t : MediaPipeTracker) (data : SandboxGazeData.t)
  : MediaPipeTracker * list GazePoint.t :=
  let t := countFrame t in
  if negb (isRunning t) then (t, []) else
  match SandboxGazeData.landmarks data with
  | None => (t, [])
  | Some lm =>
    if (List.length lm <? 478)%nat then (t, []) else
    match SandboxGazeData.leftIris data, SandboxGazeData.rightIris data with
    | Some leftIris, Some rightIris =>
      if isBlinking lm then (t, []) else
      let '(heights, stable) :=
        updateEyeHeight (eyeHeightHistory t) (currentEyeHeight lm) in
      let '(normalizedX, normalizedY) := normalized lm leftIris rightIris in
      let p := screenPoint w (calibrationMatrix t) normalizedX normalizedY in
      let '(hist, (smoothedX, smoothedY)) := smooth (gazeHistory t) p in
      let t' :=
        {| onGazeUpdate := onGazeUpdate t; isRunning := isRunning t;
           calibrationMatrix := calibrationMatrix t;
           gazeHistory := hist;
           eyeHeightHistory := heights;
           stableEyeHeight := stable;
           frameCounter := frameCounter t |} in
      if onGazeUpdate t then
        (t', [ {| GazePoint.x := smoothedX;
                  GazePoint.y := smoothedY;
                  GazePoint.timestamp := now;
                  GazePoint.confidence := 0.8;
                  GazePoint.normalizedX := Some normalizedX;
                  GazePoint.normalizedY := Some normalizedY |} ])
      else (t', [])
    | _, _ => (t, [])
    end
  end.

(** *** [applyCalibration] *)

Record NormalizedPoint := mkNormalized {
  actual : Point2D.t;
  measured : Point2D.t
}.

Definition normalizePoint (w : Window.t) (p : CalibrationPoint.t)
  : NormalizedPoint :=
  let sw := Window.innerWidth w in
  let sh := Window.innerHeight w in
  {| actual :=
       Point2D.mk (Point2D.x (CalibrationPoint.actual p) / sw * 2 - 1)
                  (Point2D.y (CalibrationPoint.actual p) / sh * 2 - 1);
     measured :=
       Point2D.mk
         match Measured.normalizedX (CalibrationPoint.measured p) with
         | Some v => v
         | None => Measured.x (CalibrationPoint.measured p) / sw * 2 - 1
         end
         match Measured.normalizedY (CalibrationPoint.measured p) with
         | Some v => v
         | None => Measured.y (CalibrationPoint.measured p) / sh * 2 - 1
         end |}.

(** The numerators and the denominators of the second [forEach], from
    the means of the first one. *)
Record Moments := mkMoments {
  numeratorX : float; denominatorX : float;
  numeratorY : float; denominatorY : float;
  meanActualX : float; meanActualY : float;
  meanMeasuredX : float; meanMeasuredY : float
}.

Definition fitMoments (nps : list NormalizedPoint) : Moments :=
  let meanActualX :=
    reduce_sum (fun p => Point2D.x (actual p)) nps / length nps in
  let meanActualY :=
    reduce_sum (fun p => Point2D.y (actual p)) nps / length nps in
  let meanMeasuredX :=
    reduce_sum (fun p => Point2D.x (measured p)) nps / length nps in
  let meanMeasuredY :=
    reduce_sum (fun p => Point2D.y (measured p)) nps / length nps in
  {| numeratorX :=
       reduce_sum (fun p => (Point2D.x (measured p) - meanMeasuredX)
                            * (Point2D.x (actual p) - meanActualX)) nps;
     denominatorX :=
       reduce_sum (fun p => (Point2D.x (measured p) - meanMeasuredX)
                            * (Point2D.x (measured p) - meanMeasuredX)) nps;
     numeratorY :=
       reduce_sum (fun p => (Point2D.y (measured p) - meanMeasuredY)
                            * (Point2D.y (actual p) - meanActualY)) nps;
     denominatorY :=
       reduce_sum (fun p => (Point2D.y (measured p) - meanMeasuredY)
                            * (Point2D.y (measured p) - meanMeasuredY)) nps;
     meanActualX := meanActualX; meanActualY := meanActualY;
     meanMeasuredX := meanMeasuredX; meanMeasuredY := meanMeasuredY |}.

Definition fit (nps : list NormalizedPoint) : CalibrationMatrix :=
  let mo := fitMoments nps in
  let scaleX :=
    if strict_neq (denominatorX mo) 0
    then numeratorX mo / denominatorX mo else 1 in
  let scaleY :=
    if strict_neq (denominatorY mo) 0
    then numeratorY mo / denominatorY mo else 1 in
  let offsetX := meanActualX mo - scaleX * meanMeasuredX mo in
  let offsetY := meanActualY mo - scaleY * meanMeasuredY mo in
  {| scaleX := scaleX; scaleY := scaleY;
     offsetX := offsetX; offsetY := offsetY |}.

Definition applyCalibration (w : Window.t) (t : MediaPipeTracker)
    (points : list CalibrationPoint.t) : MediaPipeTracker :=
  match points with
  | [] => t
  | _ :: _ =>
      {| onGazeUpdate := onGazeUpdate t; isRunning := isRunning t;
         calibrationMatrix := fit (map (normalizePoint w) points);
         gazeHistory := gazeHistory t;
         eyeHeightHistory := eyeHeightHistory t;
         stableEyeHeight := stableEyeHeight t;
         frameCounter := frameCounter t |}
  end.

End Binary64.

(** Inputs for the evaluation on doubles. *)
Module Binary64Examples.
Import PrimFloat.
Local Open Scope float_scope.

Definition viewport : Binary64.Window.t := Binary64.Window.mk 1920 1080.

(** A frame whose 478 landmarks and two iris points all lie at the
    origin: both eyes have width 0 and height 0. *)
Definition collapsedFrame : Binary64.SandboxGazeData.t :=
  {| Binary64.SandboxGazeData.leftIris := Some (Binary64.Point2D.mk 0 0);
     Binary64.SandboxGazeData.rightIris := Some (Binary64.Point2D.mk 0 0);
     Binary64.SandboxGazeData.landmarks :=
       Some (repeat (Binary64.Point2D.mk 0 0) 478) |}.

(** The nine targets of the calibration grid on a 1920 x 1080 viewport,
    each measured at the same normalized pair (0.1, 0.2). *)
Definition stuckAt (x y : float) : Binary64.CalibrationPoint.t :=
  {| Binary64.CalibrationPoint.actual :=
       Binary64.Point2D.mk (1920 * x) (1080 * y);
     Binary64.CalibrationPoint.measured :=
       {| Binary64.Measured.x := 1056; Binary64.Measured.y := 648;
          Binary64.Measured.normalizedX := Some 0.1;
          Binary64.Measured.normalizedY := Some 0.2 |} |}.

Definition stuckGrid : list Binary64.CalibrationPoint.t :=
  [ stuckAt 0.15 0.15; stuckAt 0.5 0.15; stuckAt 0.85 0.15;
    stuckAt 0.15 0.5;  stuckAt 0.5 0.5;  stuckAt 0.85 0.5;
    stuckAt 0.15 0.85; stuckAt 0.5 0.85; stuckAt 0.85 0.85 ].

End Binary64Examples.
(* ================================================================== *)
(** ** Least squares, in the specification's vocabulary *)
(* ================================================================== *)

Module LeastSquares.

(** The sum of squared errors that the line [scale * measured + offset]
    leaves on the (measured, actual) pairs of one axis. *)
Definition squaredError (scale offset : R) (pairs : list (R * R)) : R :=
  Spec.sum (map (fun p => (snd p - (scale * fst p + offset))
                          * (snd p - (scale * fst p + offset))) pairs).

(** The raw sums of a list of (measured, actual) pairs. *)
Definition count (pairs : list (R * R)) : R := INR (length pairs).
Definition Sm (pairs : list (R * R)) : R := Spec.sum (map fst pairs).
Definition Sa (pairs : list (R * R)) : R := Spec.sum (map snd pairs).
Definition Smm (pairs : list (R * R)) : R :=
  Spec.sum (map (fun p => fst p * fst p) pairs).
Definition Sma (pairs : list (R * R)) : R :=
  Spec.sum (map (fun p => fst p * snd p) pairs).
Definition Saa (pairs : list (R * R)) : R :=
  Spec.sum (map (fun p => snd p * snd p) pairs).

(** Every pair lies on the line [actual = alpha * measured + beta]. *)
Definition onLine (alpha beta : R) (pairs : list (R * R)) : Prop :=
  forall p, In p pairs -> snd p = alpha * fst p + beta.

(** The errors an affine matrix leaves on one datum, per output axis. *)
Definition residualX (m : Affine.CalibrationMatrix) (p : Affine.Datum) : R :=
  Affine.dstX p
  - (Affine.a m * Affine.srcX p + Affine.b m * Affine.srcY p + Affine.tx m).
Definition residualY (m : Affine.CalibrationMatrix) (p : Affine.Datum) : R :=
  Affine.dstY p
  - (Affine.c m * Affine.srcX p + Affine.d m * Affine.srcY p + Affine.ty m).

Definition squaredErrorX (m : Affine.CalibrationMatrix)
    (data : list Affine.Datum) : R :=
  Spec.sum (map (fun p => residualX m p * residualX m p) data).
Definition squaredErrorY (m : Affine.CalibrationMatrix)
    (data : list Affine.Datum) : R :=
  Spec.sum (map (fun p => residualY m p * residualY m p) data).

(** The matrix reproduces every datum without error. *)
Definition exactOn (m : Affine.CalibrationMatrix) (data : list Affine.Datum)
  : Prop :=
  forall p, In p data -> residualX m p = 0 /\ residualY m p = 0.

End LeastSquares.

(** The checks that the affine [applyCalibration] makes before it keeps
    a fitted matrix, in the order of the code. *)
Module AffineFit.

Definition data (points : list CalibrationPoint.t) : list Affine.Datum :=
  map Affine.datum (Affine.goodPoints points).

Definition fitted (points : list CalibrationPoint.t)
  : Affine.CalibrationMatrix :=
  Affine.solve (Affine.sums (data points)) (JS.length (data points)).

Definition scalesInRange (w : Window.t) (m : Affine.CalibrationMatrix)
  : Prop :=
  Affine.MIN_SCALE w <= Affine.effectiveScaleX m <= Affine.MAX_SCALE w
  /\ Affine.MIN_SCALE w <= Affine.primaryScaleY m <= Affine.MAX_SCALE w.

Definition accepted (w : Window.t) (points : list CalibrationPoint.t)
  : Prop :=
  (4 <= length (Affine.goodPoints points))%nat
  /\ 1e-10 <= Rabs (Affine.detA (Affine.sums (data points))
                                (JS.length (data points)))
  /\ scalesInRange w (fitted points).

End AffineFit.

(** A sample whose captures were scattered ([stdDev] 80), put in front
    of the four corner samples. *)
Module OutlierExamples.

Definition scattered : CalibrationPoint.t :=
  {| CalibrationPoint.actual := Point2D.mk 960 540;
     CalibrationPoint.measured :=
       {| Measured.x := 100; Measured.y := 900;
          Measured.normalizedX := Some 0.25;
          Measured.normalizedY := Some (-0.1) |};
     CalibrationPoint.stdDev := Some 80 |}.

Definition withOutlier : list CalibrationPoint.t :=
  scattered :: MoreExamples.corners.

End OutlierExamples.

(** What a sequence of events says, independently of the tracker. *)
Module SessionSpec.


Definition isStart (e : Session.Event) : bool :=
  match e with Session.Start => true | _ => false end.



(** The eye heights of a new tracker and of one that has processed
    frames. *)
Definition eyeHeightConsistent (t : Linear.MediaPipeTracker) : Prop :=
  Forall (fun h => 0 <= h) (Linear.eyeHeightHistory t)
  /\ (Linear.eyeHeightHistory t = [] ->
      Linear.stableEyeHeight t = 0.03)
  /\ (Linear.eyeHeightHistory t <> [] ->
      Linear.stableEyeHeight t = Spec.mean (Linear.eyeHeightHistory t)).

End SessionSpec.

(** The interval of the capture callback as a whole: [gazes] is what
    [currentGaze] holds at the successive ticks; the interval is cleared
    at the tick that produces the sample. *)
Module CaptureRun.

Fixpoint collect (store : Capture.Store) (targetPoint : Point2D.t)
    (gazes : list (option nat)) (samples : list nat)
  : option (CalibrationPoint.t * Point2D.t) :=
  match gazes with
  | [] => None
  | g :: rest =>
      match Capture.tick store targetPoint g samples with
      | (_, Some r) => Some r
      | (samples', None) => collect store targetPoint rest samples'
      end
  end.

(** The references among the ticks, in order. *)
Fixpoint readings (gazes : list (option nat)) : list nat :=
  match gazes with
  | [] => []
  | Some g :: rest => g :: readings rest
  | None :: rest => readings rest
  end.

End CaptureRun.

(* ================================================================== *)
(** ** The cursor conditioner of the content script: [handleGazeUpdate]
       (src/popup/App.tsx) *)
(* ================================================================== *)

Module Cursor.

Definition SMOOTHING_ALPHA : R := 0.15.
Definition LINE_HEIGHT : R := 16.
Definition DEAD_ZONE_Y : R := LINE_HEIGHT * 0.5.
Definition DEAD_ZONE_X : R := 20.

(** The module-level variables that [handleGazeUpdate] reads and
    writes. *)
Record State := mkState {
  currentGaze : option GazePoint.t;
  smoothedX : R;
  smoothedY : R;
  displayX : R;
  displayY : R;
  isFirstGaze : bool;
  frameSkip : nat
}.

(** Their initial values. *)
Definition init : State :=
  {| currentGaze := None;
     smoothedX := 0; smoothedY := 0; displayX := 0; displayY := 0;
     isFirstGaze := true; frameSkip := 0 |}.

(** [handleGazeUpdate(gaze)]: the variables afterwards and, when the
    call reaches the indicator and there is one, the [left] and [top]
    it is given (in px). *)
Definition handleGazeUpdate (gazeIndicator : bool) (s : State)
    (gaze : GazePoint.t) : State * option (R * R) :=
  let frameSkip' := ((frameSkip s + 1) mod 2)%nat in
  if negb (frameSkip' =? 0)%nat then
    ({| currentGaze := Some gaze;
        smoothedX := smoothedX s; smoothedY := smoothedY s;
        displayX := displayX s; displayY := displayY s;
        isFirstGaze := isFirstGaze s; frameSkip := frameSkip' |}, None)
  else
    let smoothedX0 := if isFirstGaze s then GazePoint.x gaze else smoothedX s in
    let smoothedY0 := if isFirstGaze s then GazePoint.y gaze else smoothedY s in
    let displayX0 := if isFirstGaze s then GazePoint.x gaze else displayX s in
    let displayY0 := if isFirstGaze s then GazePoint.y gaze else displayY s in
    let smoothedX1 :=
      SMOOTHING_ALPHA * GazePoint.x gaze + (1 - SMOOTHING_ALPHA) * smoothedX0 in
    let smoothedY1 :=
      SMOOTHING_ALPHA * GazePoint.y gaze + (1 - SMOOTHING_ALPHA) * smoothedY0 in
    let displayX1 :=
      if JS.gt (JS.abs (smoothedX1 - displayX0)) DEAD_ZONE_X
      then smoothedX1 else displayX0 in
    let displayY1 :=
      if JS.gt (JS.abs (smoothedY1 - displayY0)) DEAD_ZONE_Y
      then smoothedY1 else displayY0 in
    ({| currentGaze := Some gaze;
        smoothedX := smoothedX1; smoothedY := smoothedY1;
        displayX := displayX1; displayY := displayY1;
        isFirstGaze := false; frameSkip := frameSkip' |},
     if gazeIndicator then Some (displayX1 - 8, displayY1 - 8) else None).

(** The calls for a stream of gaze points, one after the other: the
    variables at the end and what each call did to the indicator. *)
Fixpoint run (gazeIndicator : bool) (s : State) (gazes : list GazePoint.t)
  : State * list (option (R * R)) :=
  match gazes with
  | [] => (s, [])
  | g :: rest =>
      let '(s1, out1) := handleGazeUpdate gazeIndicator s g in
      let '(s2, outs) := run gazeIndicator s1 rest in
      (s2, out1 :: outs)
  end.

End Cursor.

(** What the conditioner is expected to keep. *)
Module CursorSpec.

(** The displayed cursor is within the dead zone of the low-pass
    value. *)
Definition withinDeadZone (s : Cursor.State) : Prop :=
  Rabs (Cursor.smoothedX s - Cursor.displayX s) <= 20
  /\ Rabs (Cursor.smoothedY s - Cursor.displayY s) <= 8.

(** Once a gaze has been processed, the low-pass value and the
    displayed cursor are within the box. *)
Definition inBox (loX hiX loY hiY : R) (s : Cursor.State) : Prop :=
  Cursor.isFirstGaze s = false ->
  (loX <= Cursor.smoothedX s <= hiX /\ loX <= Cursor.displayX s <= hiX)
  /\ (loY <= Cursor.smoothedY s <= hiY /\ loY <= Cursor.displayY s <= hiY).

Definition gazeInBox (loX hiX loY hiY : R) (g : GazePoint.t) : Prop :=
  loX <= GazePoint.x g <= hiX /\ loY <= GazePoint.y g <= hiY.

(** The indicator positions among the outputs of the calls. *)
Fixpoint positions (outs : list (option (R * R))) : list (R * R) :=
  match outs with
  | [] => []
  | Some p :: rest => p :: positions rest
  | None :: rest => positions rest
  end.

End CursorSpec.

Module CursorExamples.

Definition gazeAt (x y : R) : GazePoint.t :=
  {| GazePoint.x := x; GazePoint.y := y;
     GazePoint.timestamp := 0; GazePoint.confidence := 0.8;
     GazePoint.normalizedX := None; GazePoint.normalizedY := None |}.

Definition stream : list GazePoint.t :=
  [ gazeAt 100 100; gazeAt 400 300; gazeAt 900 500; gazeAt 1000 300 ].

End CursorExamples.

(* ================================================================== *)
(** ** The estimator, affine variant: [handleGazeData]
       (docs/feature_map.md) *)
(* ================================================================== *)

Module AffineTracker.

(** [interface HeadPose] *)
Record HeadPose := mkPose { yaw : R; pitch : R; x : R; y : R }.

(** [MediaPipeConfig]: the presence of the two callbacks. *)
Record MediaPipeConfig := mkConfig {
  onGazeUpdate : bool;
  onHeadPoseUpdate : bool
}.

(** The fields of the tracker; [calibration] holds [calibrationMatrix]
    and [isCalibrated]. *)
Record MediaPipeTracker := mkTracker {
  config : MediaPipeConfig;
  isRunning : bool;
  calibration : Affine.MediaPipeTracker;
  gazeHistory : list Point2D.t;
  eyeHeightHistory : list R;
  stableEyeHeight : R;
  frameCounter : nat
}.

(** A call of one of the two callbacks. *)
Inductive Output :=
| HeadPoseUpdate (pose : HeadPose)
| GazeUpdate (gaze : GazePoint.t).

(** [new MediaPipeTracker(config)] *)
Definition create (cfg : MediaPipeConfig) : MediaPipeTracker :=
  {| config := cfg; isRunning := false;
     calibration := Affine.create;
     gazeHistory := []; eyeHeightHistory := [];
     stableEyeHeight := 0.03; frameCounter := 0 |}.

Definition start (t : MediaPipeTracker) : MediaPipeTracker :=
  {| config := config t; isRunning := true;
     calibration := calibration t;
     gazeHistory := gazeHistory t;
     eyeHeightHistory := eyeHeightHistory t;
     stableEyeHeight := stableEyeHeight t;
     frameCounter := frameCounter t |}.

(** [applyCalibration] and [useDefaultCalibration] on the tracker. *)
Definition applyCalibration (w : Window.t) (t : MediaPipeTracker)
    (points : list CalibrationPoint.t) : MediaPipeTracker :=
  {| config := config t; isRunning := isRunning t;
     calibration := Affine.applyCalibration w (calibration t) points;
     gazeHistory := gazeHistory t;
     eyeHeightHistory := eyeHeightHistory t;
     stableEyeHeight := stableEyeHeight t;
     frameCounter := frameCounter t |}.

(** The iris offsets of both eyes, weighted by the eye's size:
    [(irisOffsetX, irisOffsetY)]. *)
Definition irisOffset (lm : list Point2D.t) (leftIris rightIris : Point2D.t)
  : R * R :=
  let leftEyeLeft := landmark lm 33 in
  let leftEyeRight := landmark lm 133 in
  let rightEyeLeft := landmark lm 362 in
  let rightEyeRight := landmark lm 263 in
  let leftEyeTop := landmark lm 159 in
  let leftEyeBottom := landmark lm 145 in
  let rightEyeTop := landmark lm 386 in
  let rightEyeBottom := landmark lm 374 in
  let leftEyeWidth := Linear.leftEyeWidth lm in
  let rightEyeWidth := Linear.rightEyeWidth lm in
  let leftEyeHeight := Linear.leftEyeHeight lm in
  let rightEyeHeight := Linear.rightEyeHeight lm in
  let leftEyeCenterX := (Point2D.x leftEyeLeft + Point2D.x leftEyeRight) / 2 in
  let rightEyeCenterX :=
    (Point2D.x rightEyeLeft + Point2D.x rightEyeRight) / 2 in
  let leftEyeCenterY := (Point2D.y leftEyeTop + Point2D.y leftEyeBottom) / 2 in
  let rightEyeCenterY :=
    (Point2D.y rightEyeTop + Point2D.y rightEyeBottom) / 2 in
  let leftIrisCenter :=
    Point2D.mk ((Point2D.x leftIris - leftEyeCenterX) / (leftEyeWidth / 2))
               ((Point2D.y leftIris - leftEyeCenterY) / (leftEyeHeight / 2)) in
  let rightIrisCenter :=
    Point2D.mk ((Point2D.x rightIris - rightEyeCenterX) / (rightEyeWidth / 2))
               ((Point2D.y rightIris - rightEyeCenterY)
                / (rightEyeHeight / 2)) in
  let leftWeight := leftEyeWidth * leftEyeHeight in
  let rightWeight := rightEyeWidth * rightEyeHeight in
  let totalWeight := leftWeight + rightWeight in
  ((Point2D.x leftIrisCenter * leftWeight
    + Point2D.x rightIrisCenter * rightWeight) / totalWeight,
   (Point2D.y leftIrisCenter * leftWeight
    + Point2D.y rightIrisCenter * rightWeight) / totalWeight).

(** Head pose from the nose tip (4), the forehead (10), the chin (152)
    and the cheeks (234, 454). *)
Definition faceWidth (lm : list Point2D.t) : R :=
  JS.abs (Point2D.x (landmark lm 454) - Point2D.x (landmark lm 234)).
Definition headYaw (lm : list Point2D.t) : R :=
  let noseTip := landmark lm 4 in
  let leftCheek := landmark lm 234 in
  let rightCheek := landmark lm 454 in
  let faceCenterX := (Point2D.x leftCheek + Point2D.x rightCheek) / 2 in
  let noseOffsetFromCenter := Point2D.x noseTip - faceCenterX in
  if JS.gt (faceWidth lm) 0.01
  then noseOffsetFromCenter / faceWidth lm * 2 else 0.
Definition faceHeight (lm : list Point2D.t) : R :=
  JS.abs (Point2D.y (landmark lm 152) - Point2D.y (landmark lm 10)).
Definition headPitch (lm : list Point2D.t) : R :=
  let noseTip := landmark lm 4 in
  let forehead := landmark lm 10 in
  let nosePitchOffset :=
    (Point2D.y noseTip - Point2D.y forehead) / faceHeight lm - 0.5 in
  nosePitchOffset * 2.

Definition yawGain : R := 0.3.
Definition pitchGain : R := 0.2.

(** The clamped head-pose contribution [(dx, dy)]. *)
Definition headContribution (lm : list Point2D.t) : R * R :=
  let dx := headYaw lm * yawGain in
  let dy := headPitch lm * pitchGain in
  (JS.max (-0.3) (JS.min 0.3 dx), JS.max (-0.3) (JS.min 0.3 dy)).

(** [(normalizedX, normalizedY)]: mirrored, and clamped to +-0.95. *)
Definition normalized (lm : list Point2D.t) (leftIris rightIris : Point2D.t)
  : R * R :=
  let '(irisOffsetX, irisOffsetY) := irisOffset lm leftIris rightIris in
  let '(dx, dy) := headContribution lm in
  let avgIrisOffsetX := - (irisOffsetX + dx) in
  let avgIrisOffsetY := - (irisOffsetY + dy) in
  (JS.max (-0.95) (JS.min 0.95 avgIrisOffsetX),
   JS.max (-0.95) (JS.min 0.95 avgIrisOffsetY)).

Definition countFrame (t : MediaPipeTracker) : MediaPipeTracker :=
  {| config := config t; isRunning := isRunning t;
     calibration := calibration t;
     gazeHistory := gazeHistory t;
     eyeHeightHistory := eyeHeightHistory t;
     stableEyeHeight := stableEyeHeight t;
     frameCounter := S (frameCounter t) |}.

(** [handleGazeData]: the tracker afterwards and the callbacks called,
    in the order of the calls. *)
Definition handleGazeData (w : Window.t) (now : R)
    (t : MediaPipeTracker) (data : SandboxGazeData.t)
  : MediaPipeTracker * list Output :=
  let t := countFrame t in
  if negb (isRunning t) then (t, []) else
  match SandboxGazeData.landmarks data with
  | None => (t, [])
  | Some lm =>
    if (List.length lm <? 478)%nat then (t, []) else
    match SandboxGazeData.leftIris data, SandboxGazeData.rightIris data with
    | Some leftIris, Some rightIris =>
      if Linear.isBlinking lm then (t, []) else
      let '(heights, stable) :=
        Linear.updateEyeHeight (eyeHeightHistory t)
                               (Linear.currentEyeHeight lm) in
      let '(normalizedX, normalizedY) := normalized lm leftIris rightIris in
      let pose :=
        if onHeadPoseUpdate (config t)
        then [ HeadPoseUpdate {| yaw := headYaw lm; pitch := headPitch lm;
                                 x := Point2D.x (landmark lm 4);
                                 y := Point2D.y (landmark lm 4) |} ]
        else [] in
      let p := Affine.gazePoint w (calibration t) normalizedX normalizedY in
      let '(hist, (smoothedX, smoothedY)) := Linear.smooth (gazeHistory t) p in
      let t' :=
        {| config := config t; isRunning := isRunning t;
           calibration := calibration t;
           gazeHistory := hist;
           eyeHeightHistory := heights;
           stableEyeHeight := stable;
           frameCounter := frameCounter t |} in
      let gaze :=
        if onGazeUpdate (config t)
        then [ GazeUpdate {| GazePoint.x := smoothedX;
                             GazePoint.y := smoothedY;
                             GazePoint.timestamp := now;
                             GazePoint.confidence := 0.8;
                             GazePoint.normalizedX := Some normalizedX;
                             GazePoint.normalizedY := Some normalizedY |} ]
        else [] in
      (t', pose ++ gaze)
    | _, _ => (t, [])
    end
  end.

End AffineTracker.

Module AffineTrackerSpec.

(** Clamp to [-0.95, 0.95]. *)
Definition clamp95 (v : R) : R := Rmax (-0.95) (Rmin 0.95 v).

(** Every quotient of the frame has a divisor that is not zero: the
    eyes have a width and a height, and the face has a height. *)
Definition measurable (lm : list Point2D.t) : Prop :=
  Spec.eyesMeasurable lm /\ AffineTracker.faceHeight lm <> 0.

End AffineTrackerSpec.

(** A face with open eyes, the nose tip in the middle between the
    cheeks and slightly below the middle between forehead and chin. *)
Module HeadExamples.

Definition facePoint (i : nat) : Point2D.t :=
  if (i =? 4)%nat then Point2D.mk 0.5 0.56
  else if (i =? 10)%nat then Point2D.mk 0.5 0.2
  else if (i =? 152)%nat then Point2D.mk 0.5 0.8
  else if (i =? 234)%nat then Point2D.mk 0.2 0.5
  else if (i =? 454)%nat then Point2D.mk 0.8 0.5
  else Examples.facePoint 0.02 i.

Definition face : list Point2D.t := map facePoint (seq 0 478).

Definition frame : SandboxGazeData.t := Examples.frameOf face.

Definition both : AffineTracker.MediaPipeConfig :=
  AffineTracker.mkConfig true true.

End HeadExamples.

(* ================================================================== *)
(** ** The calibration pass of the content script: [runMainCalibration]
       (part_002) driving the capture callback of [runCalibration]
       (src/popup/App.tsx) *)
(* ================================================================== *)

Module ContentScript.

(** [showNextPoint] of [runMainCalibration], with the capture callback
    of the content script: the targets are taken one after the other,
    each capture is awaited before the next target is shown, and every
    capture pushes its sample to [calibrationData].  [ticks] gives, for
    each capture, what [currentGaze] holds at the ticks of its interval;
    [None] is a pass that does not come to its end because a capture's
    promise is not resolved. *)
Fixpoint showNextPoint (store : Capture.Store) (targets : list Point2D.t)
    (ticks : list (list (option nat)))
    (calibrationData : list CalibrationPoint.t)
  : option (list CalibrationPoint.t) :=
  match targets with
  | [] => Some calibrationData
  | targetPoint :: rest =>
      match CaptureRun.collect store targetPoint (hd [] ticks) [] with
      | None => None
      | Some (sample, _) =>
          showNextPoint store rest (tl ticks)
                        (JS.push calibrationData sample)
      end
  end.

(** [runCalibration] of the content script: the pass over the grid, then
    [tracker.applyCalibration(calibrationData)].  The grid is laid out
    on the viewport found when the pass starts ([atStart]);
    [applyCalibration] reads the viewport again when the pass is over
    ([atEnd]). *)
Definition runCalibration (store : Capture.Store) (atStart atEnd : Window.t)
    (ticks : list (list (option nat))) (tracker : AffineTracker.MediaPipeTracker)
  : option AffineTracker.MediaPipeTracker :=
  match showNextPoint store (CalibrationSystem.generateCalibrationGrid atStart)
                      ticks [] with
  | None => None
  | Some calibrationData =>
      Some (AffineTracker.applyCalibration atEnd tracker calibrationData)
  end.

(** The samples a complete pass collects: one per target, from the
    first 50 readings of its capture. *)
Fixpoint samplesOf (store : Capture.Store) (targets : list Point2D.t)
    (ticks : list (list (option nat))) : list CalibrationPoint.t :=
  match targets with
  | [] => []
  | targetPoint :: rest =>
      fst (Capture.summarize store targetPoint
             (firstn 50 (CaptureRun.readings (hd [] ticks))))
      :: samplesOf store rest (tl ticks)
  end.

(** Every capture of the pass sees 50 readings or more. *)
Fixpoint complete (n : nat) (ticks : list (list (option nat))) : Prop :=
  match n with
  | O => True
  | S n' =>
      (50 <= length (CaptureRun.readings (hd [] ticks)))%nat
      /\ complete n' (tl ticks)
  end.

End ContentScript.

Module ContentScriptExamples.

(** Nine captures during which the gaze did not change. *)
Definition frozen : list (list (option nat)) :=
  repeat (repeat (Some 7%nat) 50) 9.

End ContentScriptExamples.

(* ================================================================== *)
(** ** The message queue of [SandboxBridge] (part_000) *)
(* ================================================================== *)

Module SandboxBridge.

(** The messages the bridge sends to the sandbox, by [type]. *)
Inductive Message :=
| INIT_MEDIAPIPE
| VIDEO_READY
| VIDEO_FRAME (imageData : nat)
| START_TRACKING
| STOP_TRACKING.

(** [SandboxBridgeConfig]: the presence of the callbacks. *)
Record SandboxBridgeConfig := mkConfig {
  onGazeData : bool;
  onReady : bool;
  onError : bool
}.

(** The fields of the bridge; [posted] lists the messages handed to
    [contentWindow.postMessage], in the order of the calls. *)
Record State := mkState {
  iframe : bool;
  contentWindow : bool;
  isMediaPipeReady : bool;
  messageQueue : list Message;
  posted : list Message
}.

(** A call of one of the callbacks. *)
Inductive Callback :=
| Ready
| Error
| GazeData (data : SandboxGazeData.t).

(** What the sandbox sends, by [type]. *)
Inductive Event :=
| SANDBOX_READY
| SANDBOX_LOG
| MEDIAPIPE_READY (success : bool)
| GAZE_DATA (data : SandboxGazeData.t)
| Unknown.

(** [new SandboxBridge(config)] *)
Definition create : State :=
  {| iframe := false; contentWindow := false; isMediaPipeReady := false;
     messageQueue := []; posted := [] |}.

(** The three types that are not held back until MediaPipe is ready. *)
Definition passesEarly (message : Message) : bool :=
  match message with
  | INIT_MEDIAPIPE | VIDEO_READY | VIDEO_FRAME _ => true
  | START_TRACKING | STOP_TRACKING => false
  end.

Definition enqueue (s : State) (message : Message) : State :=
  {| iframe := iframe s; contentWindow := contentWindow s;
     isMediaPipeReady := isMediaPipeReady s;
     messageQueue := JS.push (messageQueue s) message;
     posted := posted s |}.

Definition post (s : State) (message : Message) : State :=
  {| iframe := iframe s; contentWindow := contentWindow s;
     isMediaPipeReady := isMediaPipeReady s;
     messageQueue := messageQueue s;
     posted := JS.push (posted s) message |}.

(** [sendMessage] *)
Definition sendMessage (s : State) (message : Message) : State :=
  if negb (iframe s) || negb (contentWindow s) then enqueue s message
  else if negb (isMediaPipeReady s) && negb (passesEarly message)
       then enqueue s message
       else post s message.

Definition setQueue (s : State) (q : list Message) : State :=
  {| iframe := iframe s; contentWindow := contentWindow s;
     isMediaPipeReady := isMediaPipeReady s;
     messageQueue := q; posted := posted s |}.

(** [flushMessageQueue]: the [while] loop, with [fuel] bounding the
    number of iterations; [None] when the bound is reached with
    messages still queued. *)
Fixpoint flushMessageQueue (fuel : nat) (s : State) : option State :=
  match messageQueue s with
  | [] => Some s
  | message :: rest =>
      match fuel with
      | O => None
      | S fuel' => flushMessageQueue fuel' (sendMessage (setQueue s rest) message)
      end
  end.

Definition setReady (s : State) : State :=
  {| iframe := iframe s; contentWindow := contentWindow s;
     isMediaPipeReady := true;
     messageQueue := messageQueue s; posted := posted s |}.

(** The [message] listener; [fromSandbox] says whether [event.source]
    is the iframe's [contentWindow]. *)
Definition onMessage (fuel : nat) (config : SandboxBridgeConfig) (s : State)
    (fromSandbox : bool) (event : Event) : option (State * list Callback) :=
  if negb (iframe s) || negb fromSandbox then Some (s, []) else
  match event with
  | SANDBOX_READY => Some (sendMessage s INIT_MEDIAPIPE, [])
  | SANDBOX_LOG => Some (s, [])
  | MEDIAPIPE_READY true =>
      match flushMessageQueue fuel (setReady s) with
      | Some s' => Some (s', if onReady config then [Ready] else [])
      | None => None
      end
  | MEDIAPIPE_READY false => Some (s, if onError config then [Error] else [])
  | GAZE_DATA data => Some (s, if onGazeData config then [GazeData data] else [])
  | Unknown => Some (s, [])
  end.

(** [initialize()]: the iframe is created and appended to the page;
    [window] says whether it has a [contentWindow] from then on. *)
Definition initialize (s : State) (window : bool) : State :=
  {| iframe := true; contentWindow := window;
     isMediaPipeReady := isMediaPipeReady s;
     messageQueue := messageQueue s; posted := posted s |}.

(** [stop()] of the bridge. *)
Definition stop (s : State) : State := sendMessage s STOP_TRACKING.

(** [dispose()]: [stop()], then the iframe is removed and forgotten. *)
Definition dispose (s : State) : State :=
  let s := stop s in
  {| iframe := false; contentWindow := false;
     isMediaPipeReady := isMediaPipeReady s;
     messageQueue := messageQueue s; posted := posted s |}.

(** What happens to a bridge: [initialize()], one of its own calls of
    [sendMessage], a message event, or [dispose()]. *)
Inductive Op :=
| Initialize (window : bool)
| Send (message : Message)
| Receive (fromSandbox : bool) (event : Event)
| Dispose.

Definition step (fuel : nat) (config : SandboxBridgeConfig) (s : State)
    (op : Op) : option (State * list Callback) :=
  match op with
  | Initialize window => Some (initialize s window, [])
  | Send message => Some (sendMessage s message, [])
  | Receive fromSandbox event => onMessage fuel config s fromSandbox event
  | Dispose => Some (dispose s, [])
  end.

Fixpoint run (fuel : nat) (config : SandboxBridgeConfig) (s : State)
    (ops : list Op) : option (State * list Callback) :=
  match ops with
  | [] => Some (s, [])
  | op :: rest =>
      match step fuel config s op with
      | None => None
      | Some (s1, out1) =>
          match run fuel config s1 rest with
          | None => None
          | Some (s2, out2) => Some (s2, out1 ++ out2)
          end
      end
  end.

End SandboxBridge.

Module SandboxBridgeSpec.

(** Until MediaPipe is ready, only initialization messages have been
    posted. *)
Definition heldBack (s : SandboxBridge.State) : Prop :=
  SandboxBridge.isMediaPipeReady s = false ->
  Forall (fun m => SandboxBridge.passesEarly m = true)
         (SandboxBridge.posted s).

End SandboxBridgeSpec.

Module SandboxBridgeExamples.

Definition listening : SandboxBridge.SandboxBridgeConfig :=
  SandboxBridge.mkConfig true true true.

(** A bridge whose iframe is there, with a stop and a start waiting. *)
Definition waiting : SandboxBridge.State :=
  {| SandboxBridge.iframe := true; SandboxBridge.contentWindow := true;
     SandboxBridge.isMediaPipeReady := false;
     SandboxBridge.messageQueue :=
       [SandboxBridge.STOP_TRACKING; SandboxBridge.START_TRACKING];
     SandboxBridge.posted := [SandboxBridge.INIT_MEDIAPIPE] |}.

End SandboxBridgeExamples.

(* ================================================================== *)
(** ** The affine [applyCalibration] on binary64 numbers
       (docs/feature_map.md) *)
(* ================================================================== *)

(** The same function as [Affine.applyCalibration], operation for
    operation, with the doubles the code computes on. *)
Module Binary64Affine.
Import PrimFloat.
Local Open Scope float_scope.

Record CalibrationPoint := mkPoint {
  actual : Binary64.Point2D.t;
  measured : Binary64.Measured.t;
  stdDev : option float
}.

Record CalibrationMatrix := mkMatrix {
  a : float; b : float; c : float; d : float; tx : float; ty : float
}.

Record MediaPipeTracker := mkTracker {
  calibrationMatrix : CalibrationMatrix;
  isCalibrated : bool
}.

(** [new MediaPipeTracker(config)] *)
Definition create : MediaPipeTracker :=
  {| calibrationMatrix :=
       {| a := 1; b := 0; tx := 0; c := 0; d := 1; ty := 0 |};
     isCalibrated := false |}.

(** [useDefaultCalibration] *)
Definition useDefaultCalibration (w : Binary64.Window.t)
    (t : MediaPipeTracker) : MediaPipeTracker :=
  let sw := Binary64.Window.innerWidth w in
  let sh := Binary64.Window.innerHeight w in
  let irisRange := 0.6 in
  {| calibrationMatrix :=
       {| a := sw / irisRange;
          b := 0;
          c := 0;
          d := sh / irisRange;
          tx := sw / 2;
          ty := sh / 2 |};
     isCalibrated := true |}.

(** [!p.stdDev || p.stdDev < MAX_STDDEV]: [!v] holds for a missing
    value, for 0 and for NaN. *)
Definition isGood (p : CalibrationPoint) : bool :=
  match stdDev p with
  | None => true
  | Some s => (is_nan s || (s =? 0)) || (s <? 50)
  end.

Definition goodPoints (points : list CalibrationPoint)
  : list CalibrationPoint :=
  filter isGood points.

Record Datum := mkDatum {
  srcX : float; srcY : float; dstX : float; dstY : float
}.

Definition datum (p : CalibrationPoint) : Datum :=
  {| srcX := match Binary64.Measured.normalizedX (measured p) with
             | Some v => v
             | None => 0
             end;
     srcY := match Binary64.Measured.normalizedY (measured p) with
             | Some v => v
             | None => 0
             end;
     dstX := Binary64.Point2D.x (actual p);
     dstY := Binary64.Point2D.y (actual p) |}.

Record Sums := mkSums {
  sumX : float; sumY : float;
  sumXX : float; sumYY : float; sumXY : float;
  sumDstX : float; sumDstY : float;
  sumXDstX : float; sumYDstX : float;
  sumXDstY : float; sumYDstY : float
}.

Definition addSums (s : Sums) (p : Datum) : Sums :=
  {| sumX := sumX s + srcX p;
     sumY := sumY s + srcY p;
     sumXX := sumXX s + srcX p * srcX p;
     sumYY := sumYY s + srcY p * srcY p;
     sumXY := sumXY s + srcX p * srcY p;
     sumDstX := sumDstX s + dstX p;
     sumDstY := sumDstY s + dstY p;
     sumXDstX := sumXDstX s + srcX p * dstX p;
     sumYDstX := sumYDstX s + srcY p * dstX p;
     sumXDstY := sumXDstY s + srcX p * dstY p;
     sumYDstY := sumYDstY s + srcY p * dstY p |}.

Definition sums (data : list Datum) : Sums :=
  fold_left addSums data (mkSums 0 0 0 0 0 0 0 0 0 0 0).

Definition detA (s : Sums) (n : float) : float :=
  sumXX s * (sumYY s * n - sumY s * sumY s)
  - sumXY s * (sumXY s * n - sumY s * sumX s)
  + sumX s * (sumXY s * sumY s - sumYY s * sumX s).

Definition solve (s : Sums) (n : float) : CalibrationMatrix :=
  let detAa := sumXDstX s * (sumYY s * n - sumY s * sumY s)
               - sumXY s * (sumYDstX s * n - sumY s * sumDstX s)
               + sumX s * (sumYDstX s * sumY s - sumYY s * sumDstX s) in
  let detAb := sumXX s * (sumYDstX s * n - sumY s * sumDstX s)
               - sumXDstX s * (sumXY s * n - sumY s * sumX s)
               + sumX s * (sumXY s * sumDstX s - sumYDstX s * sumX s) in
  let detAtx := sumXX s * (sumYY s * sumDstX s - sumYDstX s * sumY s)
                - sumXY s * (sumXY s * sumDstX s - sumYDstX s * sumX s)
                + sumXDstX s * (sumXY s * sumY s - sumYY s * sumX s) in
  let detAc := sumXDstY s * (sumYY s * n - sumY s * sumY s)
               - sumXY s * (sumYDstY s * n - sumY s * sumDstY s)
               + sumX s * (sumYDstY s * sumY s - sumYY s * sumDstY s) in
  let detAd := sumXX s * (sumYDstY s * n - sumY s * sumDstY s)
               - sumXDstY s * (sumXY s * n - sumY s * sumX s)
               + sumX s * (sumXY s * sumDstY s - sumYDstY s * sumX s) in
  let detAty := sumXX s * (sumYY s * sumDstY s - sumYDstY s * sumY s)
                - sumXY s * (sumXY s * sumDstY s - sumYDstY s * sumX s)
                + sumXDstY s * (sumXY s * sumY s - sumYY s * sumX s) in
  {| a := detAa / detA s n;
     b := detAb / detA s n;
     tx := detAtx / detA s n;
     c := detAc / detA s n;
     d := detAd / detA s n;
     ty := detAty / detA s n |}.

(** [scale > MAX_SCALE || scale < MIN_SCALE] *)
Definition outOfRange (w : Binary64.Window.t) (scale : float) : bool :=
  let expectedScale := Binary64.Window.innerWidth w / 0.6 in
  let MAX_SCALE := expectedScale * 3 in
  let MIN_SCALE := expectedScale / 5 in
  (MAX_SCALE <? scale) || (scale <? MIN_SCALE).

(** [applyCalibration]: the filter, the sums, the
    determinant and its guard, Cramer's rule and the sanity check. *)
Definition applyCalibration (w : Binary64.Window.t) (t : MediaPipeTracker)
    (points : list CalibrationPoint) : MediaPipeTracker :=
  match points with
  | [] => t
  | _ :: _ =>
    let good := goodPoints points in
    if (List.length good <? 4)%nat then useDefaultCalibration w t else
    let data := map datum good in
    let n := Binary64.length data in
    let s := sums data in
    if abs (detA s n) <? 1e-10 then useDefaultCalibration w t else
    let m := solve s n in
    if outOfRange w (sqrt (a m * a m + c m * c m))
    then useDefaultCalibration w t else
    if outOfRange w (abs (d m)) then useDefaultCalibration w t else
    {| calibrationMatrix := m; isCalibrated := true |}
  end.

End Binary64Affine.

Module Binary64AffineExamples.
Import PrimFloat.
Local Open Scope float_scope.

(** The nine targets of the calibration grid on a 1920 x 1080 viewport,
    each measured at the same normalized pair (0.9, 0.8) without any
    spread. *)
Definition stuckAt (x y : float) : Binary64Affine.CalibrationPoint :=
  {| Binary64Affine.actual := Binary64.Point2D.mk (1920 * x) (1080 * y);
     Binary64Affine.measured :=
       {| Binary64.Measured.x := 1824; Binary64.Measured.y := 972;
          Binary64.Measured.normalizedX := Some 0.9;
          Binary64.Measured.normalizedY := Some 0.8 |};
     Binary64Affine.stdDev := Some 0 |}.

Definition stuckGrid : list Binary64Affine.CalibrationPoint :=
  [ stuckAt 0.15 0.15; stuckAt 0.5 0.15; stuckAt 0.85 0.15;
    stuckAt 0.15 0.5;  stuckAt 0.5 0.5;  stuckAt 0.85 0.5;
    stuckAt 0.15 0.85; stuckAt 0.5 0.85; stuckAt 0.85 0.85 ].

(** Nine samples that are explained by an affine map: the targets of
    the grid, each measured where the default transform would put
    it. *)
Definition spreadAt (x y : float) : Binary64Affine.CalibrationPoint :=
  {| Binary64Affine.actual := Binary64.Point2D.mk (1920 * x) (1080 * y);
     Binary64Affine.measured :=
       {| Binary64.Measured.x := 1920 * x; Binary64.Measured.y := 1080 * y;
          Binary64.Measured.normalizedX := Some ((x - 0.5) * 0.6);
          Binary64.Measured.normalizedY := Some ((y - 0.5) * 0.6) |};
     Binary64Affine.stdDev := Some 3 |}.

Definition spreadGrid : list Binary64Affine.CalibrationPoint :=
  [ spreadAt 0.15 0.15; spreadAt 0.5 0.15; spreadAt 0.85 0.15;
    spreadAt 0.15 0.5;  spreadAt 0.5 0.5;  spreadAt 0.85 0.5;
    spreadAt 0.15 0.85; spreadAt 0.5 0.85; spreadAt 0.85 0.85 ].

End Binary64AffineExamples.

(* ================================================================== *)
(** ** Arrays and the division log *)
(* ================================================================== *)

Section ArrayFacts.
Context {A : Type}.

Lemma fold_sum_from (f : A -> R) (l : list A) (a0 : R) :
  fold_left (fun sum v => sum + f v) l a0 = a0 + Spec.sum (map f l).
Proof.
  revert a0; induction l as [|v l IH]; intros a0; simpl.
  - lra.
  - rewrite IH. lra.
Qed.

Lemma reduce_sum_spec (f : A -> R) (l : list A) :
  JS.reduce_sum f l = Spec.sum (map f l).
Proof. unfold JS.reduce_sum. rewrite fold_sum_from. lra. Qed.

Lemma slice_last_mostRecent (k : nat) (l : list A) :
  JS.slice_last k l = Spec.mostRecent k l.
Proof.
  unfold JS.slice_last, Spec.mostRecent.
  rewrite firstn_rev, rev_involutive. reflexivity.
Qed.

Lemma slice_last_app_exact (pre suf : list A) :
  JS.slice_last (length suf) (pre ++ suf) = suf.
Proof.
  unfold JS.slice_last. rewrite length_app.
  replace (length pre + length suf - length suf)%nat with (length pre) by lia.
  rewrite skipn_app, skipn_all, Nat.sub_diag. reflexivity.
Qed.
End ArrayFacts.

Lemma sum_app (l1 l2 : list R) :
  Spec.sum (l1 ++ l2) = Spec.sum l1 + Spec.sum l2.
Proof. induction l1 as [|v l1 IH]; simpl; [lra | rewrite IH; lra]. Qed.

Lemma sum_repeat (v : R) (n : nat) : Spec.sum (repeat v n) = INR n * v.
Proof.
  induction n as [|n IH]; [simpl; lra|].
  cbn [repeat Spec.sum fold_right]. fold (Spec.sum (repeat v n)).
  rewrite IH, S_INR. lra.
Qed.

Lemma sum_bounds (lo hi : R) (l : list R) :
  Forall (fun v => lo <= v <= hi) l ->
  INR (length l) * lo <= Spec.sum l <= INR (length l) * hi.
Proof.
  induction 1 as [|v l Hv _ IH].
  - simpl. lra.
  - cbn [Spec.sum fold_right]. fold (Spec.sum l).
    change (length (v :: l)) with (S (length l)). rewrite S_INR. lra.
Qed.

Lemma mean_bounds (lo hi : R) (l : list R) :
  l <> [] -> Forall (fun v => lo <= v <= hi) l -> lo <= Spec.mean l <= hi.
Proof.
  intros Hne Hall. pose proof (sum_bounds lo hi l Hall) as Hs.
  assert (Hn : 0 < INR (length l)).
  { apply lt_0_INR. destruct l; [congruence | simpl; lia]. }
  unfold Spec.mean. split.
  - apply Rmult_le_reg_r with (INR (length l)); [exact Hn|].
    unfold Rdiv. rewrite Rmult_assoc, Rinv_l by lra. lra.
  - apply Rmult_le_reg_r with (INR (length l)); [exact Hn|].
    unfold Rdiv. rewrite Rmult_assoc, Rinv_l by lra. lra.
Qed.

Lemma sum_squares_zero (l : list R) :
  Spec.sum (map (fun v => v * v) l) = 0 <-> Forall (fun v => v = 0) l.
Proof.
  assert (Hnn : forall l', 0 <= Spec.sum (map (fun v => v * v) l')).
  { induction l' as [|v l' IH]; simpl; [lra | nra]. }
  induction l as [|v l IH]; simpl.
  - split; [constructor | reflexivity].
  - fold (Spec.sum (map (fun v => v * v) l)). specialize (Hnn l). split.
    + intros H. assert (v * v = 0) by nra.
      constructor; [nra | apply IH; nra].
    + intros H. inversion H as [|? ? Hv Hl]; subst.
      apply IH in Hl. nra.
Qed.

Section DivFacts.

Lemma value_bind {A B} (c : JS.Div A) (k : A -> JS.Div B) :
  JS.value (JS.bind c k) = JS.value (k (JS.value c)).
Proof. reflexivity. Qed.

Lemma divisors_bind {A B} (c : JS.Div A) (k : A -> JS.Div B) :
  JS.divisors (JS.bind c k) = JS.divisors c ++ JS.divisors (k (JS.value c)).
Proof. reflexivity. Qed.

Lemma value_mapM {A B} (f : A -> JS.Div B) (l : list A) :
  JS.value (JS.mapM f l) = map (fun v => JS.value (f v)) l.
Proof.
  induction l as [|v l IH]; [reflexivity|].
  change (JS.mapM f (v :: l))
    with (JS.bind (f v) (fun w =>
            JS.bind (JS.mapM f l) (fun ws => JS.ret (w :: ws)))).
  rewrite !value_bind. cbn [map]. rewrite <- IH. reflexivity.
Qed.

Lemma divisors_mapM {A B} (P : R -> Prop) (f : A -> JS.Div B) (l : list A) :
  (forall v, In v l -> Forall P (JS.divisors (f v))) ->
  Forall P (JS.divisors (JS.mapM f l)).
Proof.
  induction l as [|v l IH]; intros H; [constructor|].
  change (JS.mapM f (v :: l))
    with (JS.bind (f v) (fun w =>
            JS.bind (JS.mapM f l) (fun ws => JS.ret (w :: ws)))).
  rewrite !divisors_bind. apply Forall_app; split.
  - apply H. left; reflexivity.
  - apply Forall_app; split; [|constructor].
    apply IH. intros u Hu. apply H. right; exact Hu.
Qed.
End DivFacts.

(* ================================================================== *)
(** ** The linear fit *)
(* ================================================================== *)

Section LinearFit.
Import Linear.

Lemma sums_from (nps : list NormalizedPoint) (s : Sums) :
  fold_left addSums nps s =
  {| sumActualX := sumActualX s + Spec.sum (map snd (Spec.axisX nps));
     sumActualY := sumActualY s + Spec.sum (map snd (Spec.axisY nps));
     sumMeasuredX := sumMeasuredX s + Spec.sum (map fst (Spec.axisX nps));
     sumMeasuredY := sumMeasuredY s + Spec.sum (map fst (Spec.axisY nps)) |}.
Proof.
  revert s; induction nps as [|q nps IH]; intros s.
  - destruct s; simpl. f_equal; lra.
  - cbn [fold_left]. rewrite IH. destruct s; simpl. f_equal; lra.
Qed.

Lemma moments_from (aX aY mX mY : R) (nps : list NormalizedPoint)
    (m : Moments) :
  fold_left (addMoments aX aY mX mY) nps m =
  {| numeratorX := numeratorX m
       + Spec.sum (map (fun p => (fst p - mX) * (snd p - aX)) (Spec.axisX nps));
     denominatorX := denominatorX m
       + Spec.sum (map (fun p => (fst p - mX) * (fst p - mX)) (Spec.axisX nps));
     numeratorY := numeratorY m
       + Spec.sum (map (fun p => (fst p - mY) * (snd p - aY)) (Spec.axisY nps));
     denominatorY := denominatorY m
       + Spec.sum (map (fun p => (fst p - mY) * (fst p - mY)) (Spec.axisY nps))
  |}.
Proof.
  revert m; induction nps as [|q nps IH]; intros m.
  - destruct m; simpl. f_equal; lra.
  - cbn [fold_left]. rewrite IH. destruct m; simpl. f_equal; lra.
Qed.

Lemma axis_length (nps : list NormalizedPoint) :
  length (map fst (Spec.axisX nps)) = length nps
  /\ length (map snd (Spec.axisX nps)) = length nps
  /\ length (map fst (Spec.axisY nps)) = length nps
  /\ length (map snd (Spec.axisY nps)) = length nps.
Proof. unfold Spec.axisX, Spec.axisY. rewrite !length_map. auto. Qed.

Lemma means_value (nps : list NormalizedPoint) :
  JS.value (means nps) =
  {| meanActualX := Spec.mean (map snd (Spec.axisX nps));
     meanActualY := Spec.mean (map snd (Spec.axisY nps));
     meanMeasuredX := Spec.mean (map fst (Spec.axisX nps));
     meanMeasuredY := Spec.mean (map fst (Spec.axisY nps)) |}.
Proof.
  destruct (axis_length nps) as (E1 & E2 & E3 & E4).
  unfold means, sums, Spec.mean. rewrite sums_from, E1, E2, E3, E4.
  unfold JS.value, JS.bind, JS.div, JS.ret, JS.length; simpl.
  f_equal; lra.
Qed.

Lemma means_divisors (nps : list NormalizedPoint) :
  JS.divisors (means nps) = repeat (JS.length nps) 4.
Proof. reflexivity. Qed.

Lemma fitMoments_spec (nps : list NormalizedPoint) :
  fitMoments nps =
  {| numeratorX := Spec.sum_dm_da (Spec.axisX nps);
     denominatorX := Spec.sum_dm2 (Spec.axisX nps);
     numeratorY := Spec.sum_dm_da (Spec.axisY nps);
     denominatorY := Spec.sum_dm2 (Spec.axisY nps) |}.
Proof.
  unfold fitMoments, moments. rewrite means_value, moments_from.
  unfold Spec.sum_dm_da, Spec.sum_dm2; simpl. f_equal; lra.
Qed.

(** The scale of one axis, as the conditional computes it. *)
Lemma fit_value (nps : list NormalizedPoint) :
  let mu := JS.value (means nps) in
  let mo := fitMoments nps in
  let sx := if JS.strict_neq (denominatorX mo) 0
            then numeratorX mo / denominatorX mo else 1 in
  let sy := if JS.strict_neq (denominatorY mo) 0
            then numeratorY mo / denominatorY mo else 1 in
  JS.value (fit nps) =
  {| scaleX := sx; scaleY := sy;
     offsetX := meanActualX mu - sx * meanMeasuredX mu;
     offsetY := meanActualY mu - sy * meanMeasuredY mu |}.
Proof.
  intros mu mo sx sy. subst sx sy mo.
  unfold fitMoments, fit. rewrite value_bind. fold mu. cbv zeta.
  set (mo := moments _ _ _ _ nps).
  destruct (JS.strict_neq (denominatorX mo) 0);
    destruct (JS.strict_neq (denominatorY mo) 0); reflexivity.
Qed.

Lemma fit_spec (nps : list NormalizedPoint) :
  let xs := Spec.axisX nps in
  let ys := Spec.axisY nps in
  let sx := if JS.strict_neq (Spec.sum_dm2 xs) 0 then Spec.scale xs else 1 in
  let sy := if JS.strict_neq (Spec.sum_dm2 ys) 0 then Spec.scale ys else 1 in
  JS.value (fit nps) =
  {| scaleX := sx; scaleY := sy;
     offsetX := Spec.offset sx xs; offsetY := Spec.offset sy ys |}.
Proof.
  intros xs ys sx sy.
  pose proof (fit_value nps) as H. cbv zeta in H. rewrite H. clear H.
  rewrite fitMoments_spec, means_value. reflexivity.
Qed.

Lemma fit_divisors (nps : list NormalizedPoint) :
  nps <> [] -> Forall (fun d => d <> 0) (JS.divisors (fit nps)).
Proof.
  intros Hne.
  assert (Hn : JS.length nps <> 0).
  { unfold JS.length. apply not_0_INR. destruct nps; [congruence|]. simpl. lia. }
  unfold fit. rewrite divisors_bind, means_divisors.
  apply Forall_app; split; [repeat constructor; exact Hn|].
  cbv zeta. set (mo := moments _ _ _ _ nps).
  rewrite divisors_bind. apply Forall_app; split.
  - unfold JS.strict_neq. destruct (Req_dec_T (denominatorX mo) 0);
      [constructor | repeat constructor; assumption].
  - rewrite divisors_bind. apply Forall_app; split; [|constructor].
    unfold JS.strict_neq. destruct (Req_dec_T (denominatorY mo) 0);
      [constructor | repeat constructor; assumption].
Qed.

Lemma normalizePoint_axes (w : Window.t) (points : list CalibrationPoint.t) :
  let nps := JS.value (JS.mapM (normalizePoint w) points) in
  Spec.axisX nps = map (Spec.pairX w) points
  /\ Spec.axisY nps = map (Spec.pairY w) points.
Proof.
  cbv zeta. rewrite value_mapM. unfold Spec.axisX, Spec.axisY.
  rewrite !map_map. split; apply map_ext; intros p;
    unfold normalizePoint, Spec.pairX, Spec.pairY, Spec.toUnit;
    destruct (Measured.normalizedX (CalibrationPoint.measured p));
    destruct (Measured.normalizedY (CalibrationPoint.measured p));
    reflexivity.
Qed.

Lemma normalizePoint_divisors (w : Window.t) (p : CalibrationPoint.t) :
  Window.innerWidth w <> 0 -> Window.innerHeight w <> 0 ->
  Forall (fun d => d <> 0) (JS.divisors (normalizePoint w p)).
Proof.
  intros Hw Hh. unfold normalizePoint.
  destruct (Measured.normalizedX (CalibrationPoint.measured p));
    destruct (Measured.normalizedY (CalibrationPoint.measured p));
    cbn; repeat constructor; assumption.
Qed.

Lemma applyCalibration_value (w : Window.t) (t : MediaPipeTracker)
    (points : list CalibrationPoint.t) :
  points <> [] ->
  JS.value (applyCalibration w t points) =
  setMatrix t (JS.value (fit (JS.value (JS.mapM (normalizePoint w) points)))).
Proof. destruct points; [congruence | reflexivity]. Qed.

Lemma applyCalibration_spec (w : Window.t) (t : MediaPipeTracker)
    (points : list CalibrationPoint.t) :
  points <> [] ->
  let xs := map (Spec.pairX w) points in
  let ys := map (Spec.pairY w) points in
  let sx := if JS.strict_neq (Spec.sum_dm2 xs) 0 then Spec.scale xs else 1 in
  let sy := if JS.strict_neq (Spec.sum_dm2 ys) 0 then Spec.scale ys else 1 in
  calibrationMatrix (JS.value (applyCalibration w t points)) =
  {| scaleX := sx; scaleY := sy;
     offsetX := Spec.offset sx xs; offsetY := Spec.offset sy ys |}.
Proof.
  intros Hne xs ys sx sy.
  rewrite applyCalibration_value by exact Hne.
  destruct (normalizePoint_axes w points) as [Ex Ey].
  pose proof (fit_spec (JS.value (JS.mapM (normalizePoint w) points))) as H.
  cbv zeta in H. rewrite Ex, Ey in H.
  cbn [calibrationMatrix setMatrix]. exact H.
Qed.

End LinearFit.

Lemma mean_constant (v : R) (l : list R) :
  l <> [] -> Forall (fun u => u = v) l -> Spec.mean l = v.
Proof.
  intros Hne Hall.
  assert (lo : v <= Spec.mean l <= v).
  { apply mean_bounds; [exact Hne|].
    eapply Forall_impl; [|exact Hall]. simpl. intros; lra. }
  lra.
Qed.

Lemma sum_dm2_zero (pairs : list (R * R)) :
  pairs <> [] ->
  (Spec.sum_dm2 pairs = 0 <-> Spec.allMeasuredEqual pairs).
Proof.
  intros Hne. unfold Spec.sum_dm2, Spec.allMeasuredEqual.
  set (mm := Spec.mean (map fst pairs)).
  assert (E : map (fun p => (fst p - mm) * (fst p - mm)) pairs
              = map (fun v => v * v) (map (fun p => fst p - mm) pairs)).
  { rewrite map_map. reflexivity. }
  rewrite E, sum_squares_zero, Forall_map, Forall_forall. split.
  - intros H p q Hp Hq. apply H in Hp. apply H in Hq. lra.
  - intros H p Hp.
    assert (Hm : mm = fst p).
    { apply mean_constant.
      - destruct pairs; [contradiction | discriminate].
      - rewrite Forall_map, Forall_forall. intros q Hq. apply H; assumption. }
    lra.
Qed.


Lemma strict_neq_true (a b : R) : a <> b -> JS.strict_neq a b = true.
Proof. intros H. unfold JS.strict_neq. destruct (Req_dec_T a b); congruence. Qed.

Lemma strict_neq_false (a b : R) : a = b -> JS.strict_neq a b = false.
Proof. intros H. unfold JS.strict_neq. destruct (Req_dec_T a b); congruence. Qed.

Lemma mapM_nonempty {A B} (f : A -> JS.Div B) (l : list A) :
  l <> [] -> JS.value (JS.mapM f l) <> [].
Proof. rewrite value_mapM. destruct l; [congruence | discriminate]. Qed.


(** C8.  [applyCalibration] with an empty array returns the tracker as it
    is, in both variants: the transform (and, in the affine variant, the
    calibrated flag) is the one from before the call. *)
Theorem C8_empty_samples_noop (w : Window.t) :
  (forall t : Linear.MediaPipeTracker,
      JS.value (Linear.applyCalibration w t []) = t
      /\ JS.divisors (Linear.applyCalibration w t []) = [])
  /\ (forall t : Affine.MediaPipeTracker,
         Affine.applyCalibration w t [] = t
         /\ Affine.calibrationMatrix (Affine.applyCalibration w t [])
            = Affine.calibrationMatrix t
         /\ Affine.isCalibrated (Affine.applyCalibration w t [])
            = Affine.isCalibrated t).
Proof. split; intros t; repeat split; reflexivity. Qed.

(** In exact arithmetic, on a non-empty list of samples: an axis's
    denominator sum(dm^2) is zero exactly when all measured values of
    that axis are equal, which a single sample always gives; the axis's
    scale is then 1 and its offset is mean(actual) - mean(measured); and
    no division of the fit has a zero divisor, nor has any division of
    the whole call when the viewport's width and height are not zero.
    (On doubles the means are rounded; see the last section.) *)
Lemma exact_fit_zero_denominator (w : Window.t)
    (t : Linear.MediaPipeTracker) (points : list CalibrationPoint.t) :
  points <> [] ->
  let nps := JS.value (JS.mapM (Linear.normalizePoint w) points) in
  let xs := Spec.axisX nps in
  let ys := Spec.axisY nps in
  let mo := Linear.fitMoments nps in
  let m := Linear.calibrationMatrix
             (JS.value (Linear.applyCalibration w t points)) in
  (Linear.denominatorX mo = Spec.sum_dm2 xs
   /\ Linear.denominatorY mo = Spec.sum_dm2 ys)
  /\ (Linear.denominatorX mo = 0 <-> Spec.allMeasuredEqual xs)
  /\ (Linear.denominatorY mo = 0 <-> Spec.allMeasuredEqual ys)
  /\ (length points = 1%nat ->
      Linear.denominatorX mo = 0 /\ Linear.denominatorY mo = 0)
  /\ (Linear.denominatorX mo = 0 ->
      Linear.scaleX m = 1
      /\ Linear.offsetX m = Spec.mean (map snd xs) - Spec.mean (map fst xs))
  /\ (Linear.denominatorY mo = 0 ->
      Linear.scaleY m = 1
      /\ Linear.offsetY m = Spec.mean (map snd ys) - Spec.mean (map fst ys))
  /\ Forall (fun d => d <> 0) (JS.divisors (Linear.fit nps))
  /\ (Window.innerWidth w <> 0 -> Window.innerHeight w <> 0 ->
      Forall (fun d => d <> 0)
             (JS.divisors (Linear.applyCalibration w t points))).
Proof.
  intros Hne nps xs ys mo m.
  assert (Hnps : nps <> []) by (apply mapM_nonempty; exact Hne).
  assert (Hxs : xs <> []).
  { subst xs. unfold Spec.axisX. destruct nps; [congruence | discriminate]. }
  assert (Hys : ys <> []).
  { subst ys. unfold Spec.axisY. destruct nps; [congruence | discriminate]. }
  assert (Emo : mo = {| Linear.numeratorX := Spec.sum_dm_da xs;
                        Linear.denominatorX := Spec.sum_dm2 xs;
                        Linear.numeratorY := Spec.sum_dm_da ys;
                        Linear.denominatorY := Spec.sum_dm2 ys |})
    by apply fitMoments_spec.
  assert (Edx : Linear.denominatorX mo = Spec.sum_dm2 xs)
    by (rewrite Emo; reflexivity).
  assert (Edy : Linear.denominatorY mo = Spec.sum_dm2 ys)
    by (rewrite Emo; reflexivity).
  assert (Em : m = JS.value (Linear.fit nps)).
  { subst m. rewrite applyCalibration_value by exact Hne. reflexivity. }
  pose proof (fit_spec nps) as Hfit. cbv zeta in Hfit. fold xs ys in Hfit.
  rewrite <- Edx, <- Edy in Hfit.
  split; [split; assumption|].
  split; [rewrite Edx; apply sum_dm2_zero; exact Hxs|].
  split; [rewrite Edy; apply sum_dm2_zero; exact Hys|].
  split.
  { intros Hlen.
    assert (Hl : length nps = 1%nat).
    { subst nps. rewrite value_mapM, length_map. exact Hlen. }
    split.
    - rewrite Edx. apply sum_dm2_zero; [exact Hxs|].
      subst xs. destruct nps as [|q [|q' nps']]; try discriminate.
      intros p1 p2 [<-|[]] [<-|[]]. reflexivity.
    - rewrite Edy. apply sum_dm2_zero; [exact Hys|].
      subst ys. destruct nps as [|q [|q' nps']]; try discriminate.
      intros p1 p2 [<-|[]] [<-|[]]. reflexivity. }
  split.
  { intros Hd. rewrite Em, Hfit. cbn [Linear.scaleX Linear.offsetX].
    rewrite (strict_neq_false _ _ Hd). unfold Spec.offset.
    split; [reflexivity | lra]. }
  split.
  { intros Hd. rewrite Em, Hfit. cbn [Linear.scaleY Linear.offsetY].
    rewrite (strict_neq_false _ _ Hd). unfold Spec.offset.
    split; [reflexivity | lra]. }
  split; [apply fit_divisors; exact Hnps|].
  intros Hw Hh. destruct points as [|p ps]; [congruence|].
  unfold Linear.applyCalibration. rewrite divisors_bind.
  apply Forall_app; split.
  - apply divisors_mapM. intros q _. apply normalizePoint_divisors; assumption.
  - rewrite divisors_bind. apply Forall_app; split; [|constructor].
    apply fit_divisors. exact Hnps.
Qed.



Lemma exact_fit_single_sample :
  let points := Examples.oneSample in
  let m := Linear.calibrationMatrix
             (JS.value (Linear.applyCalibration Examples.viewport
                          (Linear.create Examples.listening) points)) in
  (points <> [] /\ length points = 1%nat
   /\ Window.innerWidth Examples.viewport <> 0
   /\ Window.innerHeight Examples.viewport <> 0)
  /\ Linear.scaleX m = 1 /\ Linear.scaleY m = 1
  /\ Forall (fun d => d <> 0)
            (JS.divisors (Linear.applyCalibration Examples.viewport
                            (Linear.create Examples.listening) points)).
Proof.
  cbv zeta.
  assert (Hne : Examples.oneSample <> []) by discriminate.
  assert (Hw : Window.innerWidth Examples.viewport <> 0) by (simpl; lra).
  assert (Hh : Window.innerHeight Examples.viewport <> 0) by (simpl; lra).
  destruct (exact_fit_zero_denominator Examples.viewport
              (Linear.create Examples.listening) Examples.oneSample Hne)
    as (_ & _ & _ & Hone & Hx & Hy & _ & Hdiv).
  destruct (Hone eq_refl) as [Dx Dy].
  split; [repeat split; assumption|].
  split; [apply Hx; exact Dx|].
  split; [apply Hy; exact Dy|].
  apply Hdiv; assumption.
Defined.

(* ================================================================== *)
(** ** One frame through [handleGazeData] *)
(* ================================================================== *)

Lemma lt_true (a b : R) : JS.lt a b = true <-> a < b.
Proof. unfold JS.lt. destruct (Rlt_dec a b); split; intros; congruence. Qed.

Lemma lt_false (a b : R) : JS.lt a b = false <-> b <= a.
Proof.
  unfold JS.lt. destruct (Rlt_dec a b); split; intros; try congruence; lra.
Qed.

Section OneFrame.
Import Linear.
Variables (w : Window.t) (now : R) (t : MediaPipeTracker)
          (data : SandboxGazeData.t).

(** A frame that passes validation and the blink check: the histories
    advance, and the smoothed point goes to the callback, if any. *)
Lemma handleGazeData_open (lm : list Point2D.t) (li ri : Point2D.t) :
  isRunning t = true ->
  Spec.wellFormed data lm li ri ->
  isBlinking lm = false ->
  let nxy := normalized lm li ri in
  let p := screenPoint w (calibrationMatrix t) (fst nxy) (snd nxy) in
  let sm := smooth (gazeHistory t) p in
  let eh := updateEyeHeight (eyeHeightHistory t) (currentEyeHeight lm) in
  handleGazeData w now t data =
  ({| config := config t; isRunning := true;
      calibrationMatrix := calibrationMatrix t;
      gazeHistory := fst sm;
      eyeHeightHistory := fst eh;
      stableEyeHeight := snd eh;
      frameCounter := S (frameCounter t) |},
   if onGazeUpdate (config t)
   then [ {| GazePoint.x := fst (snd sm);
             GazePoint.y := snd (snd sm);
             GazePoint.timestamp := now;
             GazePoint.confidence := 0.8;
             GazePoint.normalizedX := Some (fst nxy);
             GazePoint.normalizedY := Some (snd nxy) |} ]
   else []).
Proof.
  intros Hrun (Hlm & Hlen & Hli & Hri) Hblink nxy p sm eh.
  unfold handleGazeData. cbn [countFrame isRunning config calibrationMatrix
    gazeHistory eyeHeightHistory stableEyeHeight frameCounter].
  rewrite Hrun, Hlm, Hli, Hri, Hblink. cbn [negb].
  destruct (Nat.ltb_spec (length lm) 478) as [Hlt|_]; [lia|].
  subst nxy p sm eh.
  destruct (onGazeUpdate (config t)); reflexivity.
Qed.

(** A frame that is dropped: only the frame counter moves. *)
Lemma handleGazeData_dropped :
  isRunning t = false \/ Spec.malformed data
  \/ (exists lm, SandboxGazeData.landmarks data = Some lm
                 /\ isBlinking lm = true) ->
  handleGazeData w now t data = (countFrame t, []).
Proof.
  intros H. unfold handleGazeData.
  cbn [countFrame isRunning config calibrationMatrix
    gazeHistory eyeHeightHistory stableEyeHeight frameCounter].
  destruct (isRunning t) eqn:Hrun; cbn [negb]; [|reflexivity].
  destruct H as [H | [H | H]]; [discriminate | |].
  - destruct H as [H | [H | H]].
    + destruct (SandboxGazeData.landmarks data) as [lm|]; [|reflexivity].
      destruct (Nat.ltb_spec (length lm) 478) as [_|Hge]; [reflexivity|lia].
    + rewrite H.
      destruct (SandboxGazeData.landmarks data) as [lm|]; [|reflexivity].
      destruct (length lm <? 478)%nat; reflexivity.
    + rewrite H.
      destruct (SandboxGazeData.landmarks data) as [lm|]; [|reflexivity].
      destruct (length lm <? 478)%nat; [reflexivity|].
      destruct (SandboxGazeData.leftIris data); reflexivity.
  - destruct H as (lm & Hlm & Hb). rewrite Hlm.
    destruct (length lm <? 478)%nat; [reflexivity|].
    destruct (SandboxGazeData.leftIris data); [|reflexivity].
    destruct (SandboxGazeData.rightIris data); [|reflexivity].
    rewrite Hb. reflexivity.
Qed.

Lemma aspectRatioBelow_blinking :
  Spec.aspectRatioBelow data 0.15 ->
  exists lm, SandboxGazeData.landmarks data = Some lm
             /\ isBlinking lm = true.
Proof.
  intros (lm & Hlm & _ & Hr). exists lm. split; [exact Hlm|].
  unfold isBlinking. apply lt_true. exact Hr.
Qed.
End OneFrame.

(** C1 (as amended).  A running estimator that has an [onGazeUpdate]
    callback hands it exactly one GazePoint for every frame with at least
    478 landmarks, both iris points and an aspect ratio of at least 0.15.
    For a frame with fewer than 478 landmarks (or none), a missing iris
    point, or an aspect ratio (of eyes of non-zero width) below 0.15, no
    estimator hands out a point, and [gazeHistory], the eye-height
    history and the stable eye height stay as they were. *)
Theorem C1_frame_validation (w : Window.t) (now : R)
    (t : Linear.MediaPipeTracker) (data : SandboxGazeData.t) :
  (Linear.isRunning t = true ->
   Linear.onGazeUpdate (Linear.config t) = true ->
   forall lm li ri,
     Spec.wellFormed data lm li ri ->
     Linear.aspectRatio lm >= 0.15 ->
     exists g, snd (Linear.handleGazeData w now t data) = [g])
  /\ (Spec.malformed data \/ Spec.aspectRatioBelow data 0.15 ->
      let t' := fst (Linear.handleGazeData w now t data) in
      snd (Linear.handleGazeData w now t data) = []
      /\ Linear.gazeHistory t' = Linear.gazeHistory t
      /\ Linear.eyeHeightHistory t' = Linear.eyeHeightHistory t
      /\ Linear.stableEyeHeight t' = Linear.stableEyeHeight t).
Proof.
  split.
  - intros Hrun Hcb lm li ri Hwf Hr.
    assert (Hb : Linear.isBlinking lm = false).
    { unfold Linear.isBlinking. apply lt_false. lra. }
    rewrite (handleGazeData_open w now t data lm li ri Hrun Hwf Hb).
    cbn [snd]. rewrite Hcb. eexists. reflexivity.
  - intros H. cbv zeta.
    rewrite (handleGazeData_dropped w now t data).
    + repeat split.
    + destruct H as [H | H]; [right; left; exact H|].
      right; right. apply aspectRatioBelow_blinking. exact H.
Qed.

Section ExampleFrames.
Import Examples.

Lemma face_length (lid : R) : length (face lid) = 478%nat.
Proof. unfold face. rewrite length_map, length_seq. reflexivity. Qed.

Lemma face_landmark (lid : R) (i : nat) :
  (i < 478)%nat -> landmark (face lid) i = facePoint lid i.
Proof.
  intros Hi. unfold landmark, face.
  rewrite nth_indep with (d' := facePoint lid 0%nat)
    by (rewrite length_map, length_seq; exact Hi).
  rewrite map_nth, seq_nth by exact Hi. reflexivity.
Qed.

Lemma face_aspectRatio (lid : R) :
  0 <= lid -> Linear.aspectRatio (face lid) = 2 * lid / 0.1.
Proof.
  intros Hlid.
  unfold Linear.aspectRatio, Linear.currentEyeHeight, Linear.avgEyeWidth,
    Linear.leftEyeHeight, Linear.rightEyeHeight,
    Linear.leftEyeWidth, Linear.rightEyeWidth.
  rewrite !face_landmark by lia.
  cbn [facePoint Nat.eqb Point2D.x Point2D.y].
  unfold JS.abs.
  rewrite !Rabs_pos_eq by lra. lra.
Qed.

Lemma face_widths (lid : R) :
  Linear.leftEyeWidth (face lid) = 0.1
  /\ Linear.rightEyeWidth (face lid) = 0.1.
Proof.
  unfold Linear.leftEyeWidth, Linear.rightEyeWidth.
  rewrite !face_landmark by lia.
  cbn [facePoint Nat.eqb Point2D.x Point2D.y].
  unfold JS.abs. rewrite !Rabs_pos_eq by lra. split; lra.
Qed.

Lemma face_heights (lid : R) :
  0 <= lid ->
  Linear.leftEyeHeight (face lid) = 2 * lid
  /\ Linear.rightEyeHeight (face lid) = 2 * lid.
Proof.
  intros Hlid. unfold Linear.leftEyeHeight, Linear.rightEyeHeight.
  rewrite !face_landmark by lia.
  cbn [facePoint Nat.eqb Point2D.x Point2D.y].
  unfold JS.abs. rewrite !Rabs_pos_eq by lra. split; lra.
Qed.

Lemma face_measurable (lid : R) :
  0 < lid -> Spec.eyesMeasurable (face lid).
Proof.
  intros Hlid. unfold Spec.eyesMeasurable.
  destruct (face_widths lid) as [-> ->].
  destruct (face_heights lid) as [-> ->]; [lra|].
  repeat split; lra.
Qed.

Lemma face_avgEyeWidth (lid : R) : Linear.avgEyeWidth (face lid) = 0.1.
Proof.
  unfold Linear.avgEyeWidth. destruct (face_widths lid) as [-> ->]. lra.
Qed.

Lemma frameOf_wellFormed (lid : R) :
  Spec.wellFormed (frameOf (face lid)) (face lid) leftIris rightIris.
Proof.
  unfold Spec.wellFormed. split; [reflexivity|].
  split; [rewrite face_length; lia|]. split; reflexivity.
Qed.
End ExampleFrames.

(** The original wording of C1 fails for a tracker that was given no
    [onGazeUpdate] callback: it is running, the frame has 478 landmarks,
    both iris points and aspect ratio 0.4, and nothing is handed out. *)
Lemma C1_counterexample_no_callback :
  let t := Linear.start (Linear.create Examples.silent) in
  Linear.isRunning t = true
  /\ Spec.wellFormed Examples.openFrame Examples.openEyes
       Examples.leftIris Examples.rightIris
  /\ Linear.aspectRatio Examples.openEyes >= 0.15
  /\ snd (Linear.handleGazeData Examples.viewport 0 t Examples.openFrame) = [].
Proof.
  cbv zeta.
  assert (Hr : Linear.aspectRatio Examples.openEyes >= 0.15).
  { unfold Examples.openEyes. rewrite face_aspectRatio by lra. lra. }
  split; [reflexivity|].
  split; [apply frameOf_wellFormed|].
  split; [exact Hr|].
  rewrite (handleGazeData_open _ _ _ _ Examples.openEyes
             Examples.leftIris Examples.rightIris).
  - reflexivity.
  - reflexivity.
  - apply frameOf_wellFormed.
  - unfold Linear.isBlinking. apply lt_false. lra.
Qed.

Lemma C1_witness_open_blink_short :
  let t := Linear.start (Linear.create Examples.listening) in
  (Linear.isRunning t = true
   /\ Linear.onGazeUpdate (Linear.config t) = true
   /\ Spec.wellFormed Examples.openFrame Examples.openEyes
        Examples.leftIris Examples.rightIris
   /\ Linear.aspectRatio Examples.openEyes >= 0.15
   /\ Spec.aspectRatioBelow Examples.blinkFrame 0.15
   /\ Spec.malformed Examples.shortFrame)
  /\ (exists g,
        snd (Linear.handleGazeData Examples.viewport 0 t Examples.openFrame)
        = [g])
  /\ snd (Linear.handleGazeData Examples.viewport 0 t Examples.blinkFrame) = []
  /\ snd (Linear.handleGazeData Examples.viewport 0 t Examples.shortFrame) = [].
Proof.
  cbv zeta.
  assert (Hr : Linear.aspectRatio Examples.openEyes >= 0.15).
  { unfold Examples.openEyes. rewrite face_aspectRatio by lra. lra. }
  assert (Hb : Spec.aspectRatioBelow Examples.blinkFrame 0.15).
  { exists Examples.closedEyes. split; [reflexivity|].
    unfold Examples.closedEyes. rewrite face_avgEyeWidth.
    rewrite face_aspectRatio by lra. split; lra. }
  assert (Hs : Spec.malformed Examples.shortFrame).
  { left. cbn. lia. }
  split.
  { split; [reflexivity|]. split; [reflexivity|].
    split; [apply frameOf_wellFormed|]. repeat split; assumption. }
  split.
  - apply (proj1 (C1_frame_validation Examples.viewport 0
                    (Linear.start (Linear.create Examples.listening))
                    Examples.openFrame) eq_refl eq_refl
             Examples.openEyes Examples.leftIris Examples.rightIris).
    + apply frameOf_wellFormed.
    + exact Hr.
  - split.
    + apply (proj2 (C1_frame_validation Examples.viewport 0
                      (Linear.start (Linear.create Examples.listening))
                      Examples.blinkFrame)).
      right; exact Hb.
    + apply (proj2 (C1_frame_validation Examples.viewport 0
                      (Linear.start (Linear.create Examples.listening))
                      Examples.shortFrame)).
      left; exact Hs.
Defined.

(* ================================================================== *)
(** ** The smoothing buffer *)
(* ================================================================== *)

Section Smoothing.
Import Linear.

(** The buffer after the push and the optional shift. *)
Lemma smooth_buffer (hist : list Point2D.t) (p : Point2D.t) :
  fst (smooth hist p) =
  if (8 <? length (hist ++ [p]))%nat then tl (hist ++ [p]) else hist ++ [p].
Proof. reflexivity. Qed.

(** A buffer of at most 8 points holds, after the step, the 8 most
    recent points. *)
Lemma smooth_buffer_recent (hist : list Point2D.t) (p : Point2D.t) :
  (length hist <= SMOOTHING_WINDOW_X)%nat ->
  fst (smooth hist p) = Spec.mostRecent SMOOTHING_WINDOW_X (hist ++ [p]).
Proof.
  unfold SMOOTHING_WINDOW_X. intros Hlen.
  rewrite smooth_buffer, <- slice_last_mostRecent. unfold JS.slice_last.
  assert (Hl : length (hist ++ [p]) = S (length hist)).
  { rewrite length_app. simpl. lia. }
  destruct (Nat.ltb_spec 8 (length (hist ++ [p]))) as [Hlt|Hge].
  - replace (length (hist ++ [p]) - 8)%nat with 1%nat by lia.
    destruct (hist ++ [p]); reflexivity.
  - replace (length (hist ++ [p]) - 8)%nat with 0%nat by lia. reflexivity.
Qed.

Lemma smooth_output (hist : list Point2D.t) (p : Point2D.t) :
  let buf := fst (smooth hist p) in
  snd (smooth hist p) =
  (Spec.mean (map Point2D.x (Spec.mostRecent SMOOTHING_WINDOW_X buf)),
   Spec.mean (map Point2D.y (Spec.mostRecent SMOOTHING_WINDOW_Y buf))).
Proof.
  cbv zeta. unfold smooth. cbn [fst snd].
  rewrite !reduce_sum_spec, !slice_last_mostRecent.
  unfold Spec.mean, JS.length. rewrite !length_map. reflexivity.
Qed.

Lemma smooth_buffer_nonempty (hist : list Point2D.t) (p : Point2D.t) :
  fst (smooth hist p) <> [].
Proof.
  rewrite smooth_buffer.
  destruct (Nat.ltb_spec 8 (length (hist ++ [p]))) as [Hlt|_].
  - destruct (hist ++ [p]) as [|a [|b l]]; simpl in *; try lia. discriminate.
  - destruct hist; discriminate.
Qed.

Lemma smooth_buffer_Forall (P : Point2D.t -> Prop) (hist : list Point2D.t)
    (p : Point2D.t) :
  Forall P hist -> P p -> Forall P (fst (smooth hist p)).
Proof.
  intros Hh Hp. rewrite smooth_buffer.
  assert (H1 : Forall P (hist ++ [p])).
  { apply Forall_app; split; [exact Hh | constructor; [exact Hp | constructor]]. }
  destruct (8 <? length (hist ++ [p]))%nat; [|exact H1].
  destruct (hist ++ [p]); [constructor|]. inversion H1; assumption.
Qed.

Lemma endsWith_le (j k : nat) (p : Point2D.t) (hist : list Point2D.t) :
  (j <= k)%nat -> Spec.endsWith k p hist -> Spec.endsWith j p hist.
Proof.
  intros Hjk [pre ->]. exists (pre ++ repeat p (k - j)).
  rewrite <- app_assoc, <- repeat_app. do 2 f_equal. lia.
Qed.

Lemma smooth_endsWith (k : nat) (p : Point2D.t) (hist : list Point2D.t) :
  Spec.endsWith k p hist ->
  Spec.endsWith (Nat.min (S k) 8) p (fst (smooth hist p)).
Proof.
  intros [pre ->]. rewrite smooth_buffer.
  assert (E : (pre ++ repeat p k) ++ [p] = pre ++ repeat p (S k)).
  { rewrite <- app_assoc. f_equal. symmetry. apply repeat_cons. }
  rewrite E.
  destruct (Nat.ltb_spec 8 (length (pre ++ repeat p (S k)))) as [Hlt|_].
  - destruct pre as [|a pre].
    + cbn [app] in *. rewrite repeat_length in Hlt.
      cbn [repeat tl]. apply endsWith_le with k; [lia|]. exists []. reflexivity.
    + cbn [app tl]. apply endsWith_le with (S k); [lia|].
      exists pre. reflexivity.
  - apply endsWith_le with (S k); [lia|]. exists pre. reflexivity.
Qed.

Lemma mostRecent_endsWith (k : nat) (p : Point2D.t) (hist : list Point2D.t) :
  Spec.endsWith k p hist -> Spec.mostRecent k hist = repeat p k.
Proof.
  intros [pre ->]. rewrite <- slice_last_mostRecent.
  rewrite <- (repeat_length p k) at 1. apply slice_last_app_exact.
Qed.

Lemma mean_map_repeat {A} (f : A -> R) (v : A) (k : nat) :
  (0 < k)%nat -> Spec.mean (map f (repeat v k)) = f v.
Proof.
  intros Hk. apply mean_constant.
  - destruct k; [lia | discriminate].
  - rewrite Forall_map, Forall_forall. intros u Hu.
    apply repeat_spec in Hu. subst u. reflexivity.
Qed.

(** After at least one push of [p], the buffer ends with as many
    copies of [p] as were pushed, up to the window, and the output is
    the pair of means over that buffer. *)
Lemma smoothAll_repeat (p : Point2D.t) (n : nat) :
  forall (start : list Point2D.t * (R * R)) (k : nat),
    Spec.endsWith k p (fst start) ->
    let r := Spec.smoothAll start (repeat p (S n)) in
    Spec.endsWith (Nat.min (k + S n) 8) p (fst r)
    /\ snd r =
       (Spec.mean (map Point2D.x (Spec.mostRecent SMOOTHING_WINDOW_X (fst r))),
        Spec.mean (map Point2D.y (Spec.mostRecent SMOOTHING_WINDOW_Y (fst r)))).
Proof.
  induction n as [|n IH]; intros start k Hk.
  - cbn [repeat Spec.smoothAll fold_left]. split.
    + replace (k + 1)%nat with (S k) by lia. apply smooth_endsWith; exact Hk.
    + apply smooth_output.
  - change (Spec.smoothAll start (repeat p (S (S n))))
      with (Spec.smoothAll (smooth (fst start) p) (repeat p (S n))).
    cbv zeta.
    destruct (IH (smooth (fst start) p) (Nat.min (S k) 8)
                (smooth_endsWith k p _ Hk)) as [H1 H2].
    split; [|exact H2].
    apply endsWith_le with (Nat.min (Nat.min (S k) 8 + S n) 8); [lia|exact H1].
Qed.

Lemma smoothAll_constant (p : Point2D.t) (n : nat)
    (start : list Point2D.t * (R * R)) :
  let r := Spec.smoothAll start (repeat p n) in
  ((SMOOTHING_WINDOW_X <= n)%nat -> fst (snd r) = Point2D.x p)
  /\ ((SMOOTHING_WINDOW_Y <= n)%nat -> snd (snd r) = Point2D.y p).
Proof.
  cbv zeta. unfold SMOOTHING_WINDOW_X, SMOOTHING_WINDOW_Y.
  destruct n as [|n]; [split; intros; lia|].
  assert (H0 : Spec.endsWith 0 p (fst start)).
  { exists (fst start). cbn [repeat]. rewrite app_nil_r. reflexivity. }
  destruct (smoothAll_repeat p n start 0%nat H0) as [He Ho].
  cbv zeta in He, Ho. rewrite Ho. cbn [fst snd].
  unfold SMOOTHING_WINDOW_X, SMOOTHING_WINDOW_Y. split; intros Hn.
  - assert (H8 : Spec.endsWith 8 p (fst (Spec.smoothAll start (repeat p (S n))))).
    { apply endsWith_le with (Nat.min (0 + S n) 8); [lia|exact He]. }
    rewrite (mostRecent_endsWith 8 p _ H8). apply mean_map_repeat. lia.
  - assert (H4 : Spec.endsWith 4 p (fst (Spec.smoothAll start (repeat p (S n))))).
    { apply endsWith_le with (Nat.min (0 + S n) 8); [lia|exact He]. }
    rewrite (mostRecent_endsWith 4 p _ H4). apply mean_map_repeat. lia.
Qed.
End Smoothing.

(* ================================================================== *)
(** ** Sessions *)
(* ================================================================== *)

Section SessionFacts.
Import Linear.
Variable w : Window.t.

Lemma step_feeds (t : MediaPipeTracker) (p : Point2D.t) (e : Session.Event) :
  isRunning t = true ->
  onGazeUpdate (config t) = true ->
  Spec.feeds w (calibrationMatrix t) p e ->
  exists t1 g,
    Session.step w t e = (t1, [g])
    /\ isRunning t1 = true
    /\ config t1 = config t
    /\ calibrationMatrix t1 = calibrationMatrix t
    /\ gazeHistory t1 = fst (smooth (gazeHistory t) p)
    /\ (GazePoint.x g, GazePoint.y g) = snd (smooth (gazeHistory t) p).
Proof.
  intros Hrun Hcb (now & data & lm & li & ri & -> & Hwf & _ & Hr & Hp).
  assert (Hb : isBlinking lm = false).
  { unfold isBlinking. apply lt_false. lra. }
  cbn [Session.step].
  rewrite (handleGazeData_open w now t data lm li ri Hrun Hwf Hb).
  rewrite Hcb, Hp. do 2 eexists. split; [reflexivity|].
  cbn [isRunning config calibrationMatrix gazeHistory
       GazePoint.x GazePoint.y].
  repeat (split; [reflexivity|]).
  destruct (smooth (gazeHistory t) p) as [h [sx sy]]. reflexivity.
Qed.

Lemma run_feeds (p : Point2D.t) (es : list Session.Event) :
  forall (t : MediaPipeTracker) (start : list Point2D.t * (R * R)),
    isRunning t = true ->
    onGazeUpdate (config t) = true ->
    Forall (Spec.feeds w (calibrationMatrix t) p) es ->
    fst start = gazeHistory t ->
    let r := Spec.smoothAll start (repeat p (length es)) in
    gazeHistory (fst (Session.run w t es)) = fst r
    /\ (es <> [] ->
        exists out g,
          snd (Session.run w t es) = out ++ [g]
          /\ (GazePoint.x g, GazePoint.y g) = snd r).
Proof.
  induction es as [|e es IH]; intros t start Hrun Hcb Hall Hst r.
  - subst r. cbn. split; [symmetry; exact Hst | congruence].
  - inversion Hall as [|? ? He Hes]; subst.
    destruct (step_feeds t p e Hrun Hcb He)
      as (t1 & g1 & Hstep & Hrun1 & Hcfg1 & Hm1 & Hh1 & Hg1).
    assert (Hcb1 : onGazeUpdate (config t1) = true) by (rewrite Hcfg1; exact Hcb).
    rewrite <- Hm1 in Hes.
    assert (Er : r = Spec.smoothAll (smooth (gazeHistory t) p)
                       (repeat p (length es))).
    { subst r. cbn [length repeat Spec.smoothAll fold_left].
      rewrite Hst. reflexivity. }
    destruct (IH t1 (smooth (gazeHistory t) p) Hrun1 Hcb1 Hes (eq_sym Hh1))
      as [IHh IHo].
    cbv zeta in IHh, IHo. rewrite <- Er in IHh, IHo.
    cbn [Session.run]. rewrite Hstep.
    destruct (Session.run w t1 es) as [t2 out2] eqn:Hrun2.
    cbn [fst snd] in *. split; [exact IHh|].
    intros _. destruct es as [|e' es'].
    + cbn in Hrun2. inversion Hrun2; subst. exists [], g1. split; [reflexivity|].
      rewrite Er. cbn. exact Hg1.
    + destruct IHo as (out & g & Eo & Eg); [discriminate|].
      exists (g1 :: out), g. split; [rewrite Eo; reflexivity | exact Eg].
Qed.

(** The clamp. *)
Lemma screenPoint_onScreen (m : CalibrationMatrix) (nx ny : R) :
  0 <= Window.innerWidth w -> 0 <= Window.innerHeight w ->
  Spec.onScreen w (Point2D.x (screenPoint w m nx ny))
                  (Point2D.y (screenPoint w m nx ny)).
Proof.
  intros Hw Hh. unfold Spec.onScreen, screenPoint, JS.max, JS.min.
  cbn [Point2D.x Point2D.y].
  repeat split;
    try apply Rmax_l;
    apply Rmax_lub; try assumption; apply Rmin_l.
Qed.

Lemma mostRecent_Forall {A} (P : A -> Prop) (k : nat) (l : list A) :
  Forall P l -> Forall P (Spec.mostRecent k l).
Proof.
  intros H. rewrite <- slice_last_mostRecent. unfold JS.slice_last.
  rewrite <- (firstn_skipn (length l - k) l) in H.
  apply Forall_app in H. tauto.
Qed.

Lemma mostRecent_nonempty {A} (k : nat) (l : list A) :
  (0 < k)%nat -> l <> [] -> Spec.mostRecent k l <> [].
Proof.
  intros Hk Hl E. rewrite <- slice_last_mostRecent in E.
  unfold JS.slice_last in E. apply (f_equal (@length A)) in E.
  rewrite length_skipn in E. destruct l as [|a l]; [congruence|].
  change (length (a :: l)) with (S (length l)) in E.
  change (length (@nil A)) with 0%nat in E. lia.
Qed.

(** Smoothing points that are on screen gives a pair on screen. *)
Lemma smooth_onScreen (hist : list Point2D.t) (p : Point2D.t) :
  Forall (fun q => Spec.onScreen w (Point2D.x q) (Point2D.y q)) hist ->
  Spec.onScreen w (Point2D.x p) (Point2D.y p) ->
  Forall (fun q => Spec.onScreen w (Point2D.x q) (Point2D.y q))
         (fst (smooth hist p))
  /\ Spec.onScreen w (fst (snd (smooth hist p))) (snd (snd (smooth hist p))).
Proof.
  intros Hh Hp.
  pose proof (smooth_buffer_Forall _ hist p Hh Hp) as Hbuf.
  split; [exact Hbuf|].
  rewrite smooth_output. cbn [fst snd]. unfold Spec.onScreen. split.
  - apply mean_bounds.
    + intros E. apply map_eq_nil in E. revert E.
      apply mostRecent_nonempty; [unfold SMOOTHING_WINDOW_X; lia|].
      apply smooth_buffer_nonempty.
    + rewrite Forall_map. eapply Forall_impl;
        [|apply mostRecent_Forall; exact Hbuf].
      intros q Hq. exact (proj1 Hq).
  - apply mean_bounds.
    + intros E. apply map_eq_nil in E. revert E.
      apply mostRecent_nonempty; [unfold SMOOTHING_WINDOW_Y; lia|].
      apply smooth_buffer_nonempty.
    + rewrite Forall_map. eapply Forall_impl;
        [|apply mostRecent_Forall; exact Hbuf].
      intros q Hq. exact (proj2 Hq).
Qed.

(** One call keeps the buffer on screen and hands out points on
    screen only. *)
Lemma step_onScreen (t : MediaPipeTracker) (e : Session.Event) :
  0 <= Window.innerWidth w -> 0 <= Window.innerHeight w ->
  Forall (fun q => Spec.onScreen w (Point2D.x q) (Point2D.y q))
         (gazeHistory t) ->
  Forall (fun q => Spec.onScreen w (Point2D.x q) (Point2D.y q))
         (gazeHistory (fst (Session.step w t e)))
  /\ Forall (fun g => Spec.onScreen w (GazePoint.x g) (GazePoint.y g))
            (snd (Session.step w t e)).
Proof.
  intros Hw Hh Hinv. destruct e as [now data | points | | ].
  - cbn [Session.step].
    destruct (isRunning t) eqn:Hrun;
      [|rewrite handleGazeData_dropped by (left; exact Hrun);
        split; [exact Hinv | constructor]].
    destruct (SandboxGazeData.landmarks data) as [lm|] eqn:Hlm;
      [|rewrite handleGazeData_dropped
          by (right; left; left; rewrite Hlm; exact I);
        split; [exact Hinv | constructor]].
    destruct (Nat.ltb_spec (length lm) 478) as [Hlt|Hge];
      [rewrite handleGazeData_dropped
          by (right; left; left; rewrite Hlm; exact Hlt);
        split; [exact Hinv | constructor]|].
    destruct (SandboxGazeData.leftIris data) as [li|] eqn:Hli;
      [|rewrite handleGazeData_dropped
          by (right; left; right; left; exact Hli);
        split; [exact Hinv | constructor]].
    destruct (SandboxGazeData.rightIris data) as [ri|] eqn:Hri;
      [|rewrite handleGazeData_dropped
          by (right; left; right; right; exact Hri);
        split; [exact Hinv | constructor]].
    destruct (isBlinking lm) eqn:Hb.
    + rewrite handleGazeData_dropped.
      * split; [exact Hinv | constructor].
      * right; right. exists lm. split; [exact Hlm | exact Hb].
    + rewrite (handleGazeData_open w now t data lm li ri Hrun
                 (conj Hlm (conj Hge (conj Hli Hri))) Hb).
      cbn [fst snd gazeHistory].
      set (nxy := normalized lm li ri).
      pose proof (screenPoint_onScreen (calibrationMatrix t)
                    (fst nxy) (snd nxy) Hw Hh) as Hp.
      destruct (smooth_onScreen (gazeHistory t) _ Hinv Hp) as [H1 H2].
      split; [exact H1|].
      destruct (onGazeUpdate (config t)); [|constructor].
      constructor; [exact H2 | constructor].
  - cbn [Session.step fst snd]. split; [|constructor].
    destruct points; [exact Hinv | exact Hinv].
  - split; [exact Hinv | constructor].
  - split; [exact Hinv | constructor].
Qed.

Lemma run_onScreen (es : list Session.Event) :
  forall t : MediaPipeTracker,
    0 <= Window.innerWidth w -> 0 <= Window.innerHeight w ->
    Forall (fun q => Spec.onScreen w (Point2D.x q) (Point2D.y q))
           (gazeHistory t) ->
    Forall (fun q => Spec.onScreen w (Point2D.x q) (Point2D.y q))
           (gazeHistory (fst (Session.run w t es)))
    /\ Forall (fun g => Spec.onScreen w (GazePoint.x g) (GazePoint.y g))
              (snd (Session.run w t es)).
Proof.
  induction es as [|e es IH]; intros t Hw Hh Hinv.
  - split; [exact Hinv | constructor].
  - cbn [Session.run].
    destruct (step_onScreen t e Hw Hh Hinv) as [H1 H2].
    destruct (Session.step w t e) as [t1 out1].
    destruct (IH t1 Hw Hh H1) as [H3 H4].
    destruct (Session.run w t1 es) as [t2 out2].
    cbn [fst snd] in *. split; [exact H3|].
    apply Forall_app; split; assumption.
Qed.
End SessionFacts.

(** C5.  The smoothing windows are K_x = 8 and K_y = 4, so K_x > K_y;
    the smoothed X is the mean of the x of the 8 most recent buffered
    points and the smoothed Y the mean of the y of the 4 most recent ones
    (a buffer of at most 8 points keeping the 8 most recent);
    hence, from any buffer, once the same point has been fed in for at
    least 8 (respectively 4) steps in a row the smoothed X (respectively
    Y) is exactly that point's x (respectively y).  The same holds for a
    running tracker that is handed frames which all pass both checks, show
    eyes of non-zero width and height and give that clamped screen point: the last GazePoint handed out carries
    the point's coordinate. *)
Theorem C5_temporal_smoothing :
  (Linear.SMOOTHING_WINDOW_X = 8%nat
   /\ Linear.SMOOTHING_WINDOW_Y = 4%nat
   /\ (Linear.SMOOTHING_WINDOW_Y < Linear.SMOOTHING_WINDOW_X)%nat)
  /\ (forall (hist : list Point2D.t) (p : Point2D.t),
         let buf := fst (Linear.smooth hist p) in
         snd (Linear.smooth hist p) =
         (Spec.mean (map Point2D.x
                         (Spec.mostRecent Linear.SMOOTHING_WINDOW_X buf)),
          Spec.mean (map Point2D.y
                         (Spec.mostRecent Linear.SMOOTHING_WINDOW_Y buf))))
  /\ (forall (hist : list Point2D.t) (p : Point2D.t),
         (length hist <= Linear.SMOOTHING_WINDOW_X)%nat ->
         fst (Linear.smooth hist p)
         = Spec.mostRecent Linear.SMOOTHING_WINDOW_X (hist ++ [p]))
  /\ (forall (start : list Point2D.t * (R * R)) (p : Point2D.t) (n : nat),
         let r := Spec.smoothAll start (repeat p n) in
         ((Linear.SMOOTHING_WINDOW_X <= n)%nat -> fst (snd r) = Point2D.x p)
         /\ ((Linear.SMOOTHING_WINDOW_Y <= n)%nat
             -> snd (snd r) = Point2D.y p))
  /\ (forall (w : Window.t) (t : Linear.MediaPipeTracker) (p : Point2D.t)
             (es : list Session.Event),
         Linear.isRunning t = true ->
         Linear.onGazeUpdate (Linear.config t) = true ->
         Forall (Spec.feeds w (Linear.calibrationMatrix t) p) es ->
         ((Linear.SMOOTHING_WINDOW_X <= length es)%nat ->
          exists out g, snd (Session.run w t es) = out ++ [g]
                        /\ GazePoint.x g = Point2D.x p)
         /\ ((Linear.SMOOTHING_WINDOW_Y <= length es)%nat ->
             exists out g, snd (Session.run w t es) = out ++ [g]
                           /\ GazePoint.y g = Point2D.y p)).
Proof.
  split; [repeat split; unfold Linear.SMOOTHING_WINDOW_X,
            Linear.SMOOTHING_WINDOW_Y; lia|].
  split; [intros hist p; apply smooth_output|].
  split; [intros hist p; apply smooth_buffer_recent|].
  split; [intros start p n; apply smoothAll_constant|].
  intros w t p es Hrun Hcb Hall.
  destruct (run_feeds w p es t (Linear.gazeHistory t, (0, 0)) Hrun Hcb Hall
              eq_refl) as [_ Hout].
  cbv zeta in Hout.
  destruct (smoothAll_constant p (length es) (Linear.gazeHistory t, (0, 0)))
    as [Hx Hy].
  split; intros Hn.
  - destruct Hout as (out & g & Eo & Eg).
    { intros ->. unfold Linear.SMOOTHING_WINDOW_X in Hn. simpl in Hn. lia. }
    exists out, g. split; [exact Eo|].
    rewrite <- (Hx Hn), <- Eg. reflexivity.
  - destruct Hout as (out & g & Eo & Eg).
    { intros ->. unfold Linear.SMOOTHING_WINDOW_Y in Hn. simpl in Hn. lia. }
    exists out, g. split; [exact Eo|].
    rewrite <- (Hy Hn), <- Eg. reflexivity.
Qed.

Lemma C5_witness_eight_frames :
  let w := Examples.viewport in
  let t := Linear.start (Linear.create Examples.listening) in
  let nxy := Linear.normalized Examples.openEyes
               Examples.leftIris Examples.rightIris in
  let p := Linear.screenPoint w (Linear.calibrationMatrix t)
             (fst nxy) (snd nxy) in
  let es := repeat (Session.Frame 0 Examples.openFrame) 8 in
  (Linear.isRunning t = true
   /\ Linear.onGazeUpdate (Linear.config t) = true
   /\ Forall (Spec.feeds w (Linear.calibrationMatrix t) p) es
   /\ (Linear.SMOOTHING_WINDOW_X <= length es)%nat
   /\ (Linear.SMOOTHING_WINDOW_Y <= length es)%nat)
  /\ (exists out g, snd (Session.run w t es) = out ++ [g]
                    /\ GazePoint.x g = Point2D.x p)
  /\ (exists out g, snd (Session.run w t es) = out ++ [g]
                    /\ GazePoint.y g = Point2D.y p)
  /\ fst (snd (Spec.smoothAll ([], (0, 0)) (repeat p 8))) = Point2D.x p
  /\ snd (snd (Spec.smoothAll ([], (0, 0)) (repeat p 8))) = Point2D.y p
  /\ fst (Linear.smooth [] p)
     = Spec.mostRecent Linear.SMOOTHING_WINDOW_X ([] ++ [p]).
Proof.
  intros w t nxy p es.
  assert (Hall : Forall (Spec.feeds w (Linear.calibrationMatrix t) p) es).
  { apply Forall_forall. intros e He. apply repeat_spec in He. subst e.
    exists 0, Examples.openFrame, Examples.openEyes,
      Examples.leftIris, Examples.rightIris.
    split; [reflexivity|]. split; [apply frameOf_wellFormed|].
    split; [apply face_measurable; lra|].
    split; [|reflexivity].
    unfold Examples.openEyes. rewrite face_aspectRatio by lra. lra. }
  assert (H8 : (Linear.SMOOTHING_WINDOW_X <= length es)%nat).
  { subst es. rewrite repeat_length. unfold Linear.SMOOTHING_WINDOW_X. lia. }
  assert (H4 : (Linear.SMOOTHING_WINDOW_Y <= length es)%nat).
  { subst es. rewrite repeat_length. unfold Linear.SMOOTHING_WINDOW_Y. lia. }
  destruct C5_temporal_smoothing as (_ & _ & Hbuf & Hsm & Hrun).
  destruct (Hrun w t p es eq_refl eq_refl Hall) as [Hx Hy].
  destruct (Hsm ([], (0, 0)) p 8%nat) as [Sx Sy].
  split; [repeat split; assumption|].
  split; [apply Hx; exact H8|].
  split; [apply Hy; exact H4|].
  split; [apply Sx; unfold Linear.SMOOTHING_WINDOW_X; lia|].
  split; [apply Sy; unfold Linear.SMOOTHING_WINDOW_Y; lia|].
  apply Hbuf. unfold Linear.SMOOTHING_WINDOW_X. simpl. lia.
Defined.

Section ResizableSessions.
Import Linear.

(** A frame is either dropped, with the frame counter as its only
    effect, or it is complete, not a blink and the tracker is running. *)
Lemma handleGazeData_cases (w : Window.t) (now : R) (t : MediaPipeTracker)
    (data : SandboxGazeData.t) :
  handleGazeData w now t data = (countFrame t, [])
  \/ exists lm li ri,
       isRunning t = true /\ Spec.wellFormed data lm li ri
       /\ isBlinking lm = false.
Proof.
  destruct (isRunning t) eqn:Hrun;
    [|left; apply handleGazeData_dropped; left; exact Hrun].
  destruct (SandboxGazeData.landmarks data) as [lm|] eqn:Hlm.
  2:{ left. apply handleGazeData_dropped. right; left.
      unfold Spec.malformed. rewrite Hlm. tauto. }
  destruct (Nat.ltb_spec (length lm) 478) as [Hlt|Hge].
  { left. apply handleGazeData_dropped. right; left.
    unfold Spec.malformed. rewrite Hlm. left. exact Hlt. }
  destruct (SandboxGazeData.leftIris data) as [li|] eqn:Hli.
  2:{ left. apply handleGazeData_dropped. right; left.
      unfold Spec.malformed. rewrite Hlm. right; left. exact Hli. }
  destruct (SandboxGazeData.rightIris data) as [ri|] eqn:Hri.
  2:{ left. apply handleGazeData_dropped. right; left.
      unfold Spec.malformed. rewrite Hlm. right; right. exact Hri. }
  destruct (isBlinking lm) eqn:Hb.
  { left. apply handleGazeData_dropped. right; right.
    exists lm. split; [exact Hlm | exact Hb]. }
  right. exists lm, li, ri. repeat split; assumption.
Qed.

Lemma onScreen_within (w bound : Window.t) (x y : R) :
  Window.innerWidth w <= Window.innerWidth bound ->
  Window.innerHeight w <= Window.innerHeight bound ->
  Spec.onScreen w x y -> Spec.onScreen bound x y.
Proof. unfold Spec.onScreen. intros Hw Hh [Hx Hy]. split; lra. Qed.

(** One call, reading a viewport within [bound], keeps the buffer
    within [bound] and hands out points within [bound] only. *)
Lemma step_within (bound w : Window.t) (t : MediaPipeTracker)
    (e : Session.Event) :
  Spec.viewportWithin bound (w, e) ->
  Forall (fun q => Spec.onScreen bound (Point2D.x q) (Point2D.y q))
         (gazeHistory t) ->
  Forall (fun q => Spec.onScreen bound (Point2D.x q) (Point2D.y q))
         (gazeHistory (fst (Session.step w t e)))
  /\ Forall (fun g => Spec.onScreen bound (GazePoint.x g) (GazePoint.y g))
            (snd (Session.step w t e)).
Proof.
  intros [[Hw0 Hw1] [Hh0 Hh1]] Hinv. cbn [fst] in *.
  destruct e as [now data | points | | ].
  - cbn [Session.step].
    destruct (handleGazeData_cases w now t data)
      as [-> | (lm & li & ri & Hrun & Hwf & Hb)].
    + split; [exact Hinv | constructor].
    + rewrite (handleGazeData_open w now t data lm li ri Hrun Hwf Hb).
      cbn [fst snd gazeHistory].
      set (nxy := normalized lm li ri).
      pose proof (screenPoint_onScreen w (calibrationMatrix t)
                    (fst nxy) (snd nxy) Hw0 Hh0) as Hp.
      apply (onScreen_within w bound _ _ Hw1 Hh1) in Hp.
      destruct (smooth_onScreen bound (gazeHistory t) _ Hinv Hp) as [H1 H2].
      split; [exact H1|].
      destruct (onGazeUpdate (config t)); [|constructor].
      constructor; [exact H2 | constructor].
  - cbn [Session.step fst snd]. split; [|constructor].
    destruct points; [exact Hinv | exact Hinv].
  - split; [exact Hinv | constructor].
  - split; [exact Hinv | constructor].
Qed.

Lemma play_within (bound : Window.t) (calls : list (Window.t * Session.Event)) :
  forall t : MediaPipeTracker,
    Forall (Spec.viewportWithin bound) calls ->
    Forall (fun q => Spec.onScreen bound (Point2D.x q) (Point2D.y q))
           (gazeHistory t) ->
    Forall (fun q => Spec.onScreen bound (Point2D.x q) (Point2D.y q))
           (gazeHistory (fst (Session.play t calls)))
    /\ Forall (fun g => Spec.onScreen bound (GazePoint.x g) (GazePoint.y g))
              (snd (Session.play t calls)).
Proof.
  induction calls as [|[w e] calls IH]; intros t Hall Hinv.
  - split; [exact Hinv | constructor].
  - inversion Hall as [|? ? Hc Hrest]; subst.
    cbn [Session.play].
    destruct (step_within bound w t e Hc Hinv) as [H1 H2].
    destruct (Session.step w t e) as [t1 out1].
    destruct (IH t1 Hrest H1) as [H3 H4].
    destruct (Session.play t1 calls) as [t2 out2].
    cbn [fst snd] in *. split; [exact H3|].
    apply Forall_app; split; assumption.
Qed.

(** When every call reads the same viewport, [play] is [run]. *)
Lemma play_steady (w : Window.t) (es : list Session.Event) :
  forall t : MediaPipeTracker,
    Session.play t (map (pair w) es) = Session.run w t es.
Proof.
  induction es as [|e es IH]; intros t; [reflexivity|].
  cbn [map Session.play Session.run].
  destruct (Session.step w t e) as [t1 out1]. rewrite IH. reflexivity.
Qed.

(** The example frames have no zero divisor. *)
Lemma frameOf_defined (lid : R) :
  0 < lid -> Spec.frameDefined (Examples.frameOf (Examples.face lid)).
Proof.
  intros Hlid lm li ri (Hlm & _).
  unfold Examples.frameOf in Hlm. cbn [SandboxGazeData.landmarks] in Hlm.
  injection Hlm as <-.
  split.
  - rewrite face_avgEyeWidth. lra.
  - intros _. apply face_measurable. exact Hlid.
Qed.

(** With the identity transform, a centred gaze is clamped to the centre
    of the viewport of its frame. *)
Lemma screenPoint_centre (w : Window.t) :
  0 <= Window.innerWidth w -> 0 <= Window.innerHeight w ->
  screenPoint w {| scaleX := 1; scaleY := 1; offsetX := 0; offsetY := 0 |} 0 0
  = Point2D.mk (Window.innerWidth w / 2) (Window.innerHeight w / 2).
Proof.
  intros Hw Hh. unfold screenPoint, JS.max, JS.min.
  cbn [scaleX scaleY offsetX offsetY].
  rewrite (Rmin_right (Window.innerWidth w)) by lra.
  rewrite (Rmin_right (Window.innerHeight w)) by lra.
  rewrite !Rmax_right by lra. f_equal; lra.
Qed.

Lemma openEyes_normalized :
  normalized Examples.openEyes Examples.leftIris Examples.rightIris = (0, 0).
Proof.
  unfold normalized, Examples.openEyes.
  destruct (face_widths 0.02) as [-> ->].
  destruct (face_heights 0.02) as [-> ->]; [lra|].
  rewrite !face_landmark by lia.
  cbn [Examples.facePoint Nat.eqb Point2D.x Point2D.y
       Examples.leftIris Examples.rightIris].
  f_equal; lra.
Qed.

Lemma openEyes_open : isBlinking Examples.openEyes = false.
Proof.
  unfold isBlinking, Examples.openEyes. apply lt_false.
  rewrite face_aspectRatio by lra. lra.
Qed.
End ResizableSessions.

(** The original wording of C9 fails in two ways.  The estimator reads
    the viewport on every frame, and the buffer keeps the points clamped
    to the viewports of earlier frames: after the window has been made
    smaller, from 1920 x 1080 to 600 x 400 between two frames with a
    centred gaze, the GazePoint of the second frame has x = 630, the mean
    of 960 and 300, on a screen that is 600 wide.  And on doubles a
    frame whose eyes have width 0 and height 0 is no blink (0 / 0 is NaN,
    and NaN < 0.15 is false), its iris offsets are NaN, and [Math.max]
    and [Math.min] hand NaN on: the GazePoint has x = NaN and y = NaN. *)
Lemma C9_counterexample_resize_and_nan :
  (let t := Linear.start (Linear.create Examples.listening) in
   Forall Spec.quotientsDefined ResizeExamples.resized
   /\ exists g1 g2,
        snd (Session.play t ResizeExamples.resized) = [g1; g2]
        /\ GazePoint.x g2 = 630
        /\ Window.innerWidth ResizeExamples.narrow = 600
        /\ ~ Spec.onScreen ResizeExamples.narrow
               (GazePoint.x g2) (GazePoint.y g2))
  /\ (exists g,
        snd (Binary64.handleGazeData Binary64Examples.viewport
               PrimFloat.zero (Binary64.started true)
               Binary64Examples.collapsedFrame) = [g]
        /\ PrimFloat.is_nan (Binary64.GazePoint.x g) = true
        /\ PrimFloat.is_nan (Binary64.GazePoint.y g) = true).
Proof.
  split.
  - cbv zeta. split.
    { unfold ResizeExamples.resized.
      apply Forall_cons; [exact (frameOf_defined 0.02 ltac:(lra))|].
      apply Forall_cons; [exact (frameOf_defined 0.02 ltac:(lra))|].
      apply Forall_nil. }
    unfold ResizeExamples.resized. cbn [Session.play Session.step].
    rewrite (handleGazeData_open Examples.viewport 0 _ Examples.openFrame
               Examples.openEyes Examples.leftIris Examples.rightIris);
      [ | reflexivity | apply frameOf_wellFormed | apply openEyes_open ].
    rewrite openEyes_normalized. cbn [fst snd].
    cbn [Linear.calibrationMatrix Linear.start Linear.create
         Linear.gazeHistory Linear.eyeHeightHistory Linear.config
         Linear.frameCounter Linear.onGazeUpdate Examples.listening].
    rewrite (screenPoint_centre Examples.viewport) by (cbn; lra).
    rewrite (handleGazeData_open ResizeExamples.narrow 1 _ Examples.openFrame
               Examples.openEyes Examples.leftIris Examples.rightIris);
      [ | reflexivity | apply frameOf_wellFormed | apply openEyes_open ].
    rewrite openEyes_normalized. cbn [fst snd].
    cbn [Linear.calibrationMatrix Linear.gazeHistory Linear.config
         Linear.onGazeUpdate Examples.listening].
    rewrite (screenPoint_centre ResizeExamples.narrow) by (cbn; lra).
    eexists. eexists. split; [reflexivity|].
    cbn [GazePoint.x GazePoint.y].
    assert (Ex : fst (snd (Linear.smooth
                   (fst (Linear.smooth []
                      (Point2D.mk (Window.innerWidth Examples.viewport / 2)
                                  (Window.innerHeight Examples.viewport / 2))))
                   (Point2D.mk (Window.innerWidth ResizeExamples.narrow / 2)
                               (Window.innerHeight ResizeExamples.narrow / 2))))
                 = 630).
    { rewrite smooth_output. cbn [fst]. rewrite !smooth_buffer.
      cbn. unfold Spec.mean, Spec.sum. cbn [fold_right length INR]. lra. }
    split; [exact Ex|]. split; [reflexivity|].
    rewrite Ex. unfold Spec.onScreen. cbn [Window.innerWidth
      ResizeExamples.narrow]. lra.
  - eexists. split; [vm_compute; reflexivity|].
    split; reflexivity.
Qed.

(** C9 (as amended).  As long as no quotient of the estimator has a zero
    divisor (every complete frame shows eyes whose average width is not
    zero and, unless it is dropped as a blink, eyes of non-zero width and
    height; a calibration with samples reads a viewport of non-zero
    width and height), and every call reads a viewport of a width in
    [0, W] and a height in [0, H] (W and H being the viewport's own width
    and height when it keeps its size): each per-frame screen point is
    clamped to the viewport of its frame before it enters the smoothing
    buffer, whatever the transform; and from a tracker whose buffer holds
    points within [0, W] x [0, H] (a new tracker's buffer is empty) every
    sequence of frames, calibrations, starts and stops keeps the buffer
    within these bounds and hands out GazePoints with x in [0, W] and y
    in [0, H] only. *)
Theorem C9_emitted_on_screen (bound : Window.t) (t : Linear.MediaPipeTracker)
    (calls : list (Window.t * Session.Event)) :
  Forall Spec.quotientsDefined calls ->
  Forall (Spec.viewportWithin bound) calls ->
  Forall (fun q => Spec.onScreen bound (Point2D.x q) (Point2D.y q))
         (Linear.gazeHistory t) ->
  (forall (w : Window.t) (m : Linear.CalibrationMatrix) (nx ny : R),
      0 <= Window.innerWidth w -> 0 <= Window.innerHeight w ->
      Spec.onScreen w (Point2D.x (Linear.screenPoint w m nx ny))
                      (Point2D.y (Linear.screenPoint w m nx ny)))
  /\ Forall (fun q => Spec.onScreen bound (Point2D.x q) (Point2D.y q))
            (Linear.gazeHistory (fst (Session.play t calls)))
  /\ Forall (fun g => Spec.onScreen bound (GazePoint.x g) (GazePoint.y g))
            (snd (Session.play t calls))
  /\ (forall (w : Window.t) (es : list Session.Event),
        calls = map (pair w) es ->
        Session.play t calls = Session.run w t es).
Proof.
  intros _ Hin Hinv. split; [|split; [|split]].
  - intros w m nx ny Hw Hh. apply screenPoint_onScreen; assumption.
  - apply play_within; assumption.
  - apply play_within; assumption.
  - intros w es ->. apply play_steady.
Qed.

Lemma C9_witness_session :
  let bound := Examples.viewport in
  let t := Linear.create Examples.listening in
  (Forall Spec.quotientsDefined ResizeExamples.steady
   /\ Forall (Spec.viewportWithin bound) ResizeExamples.steady
   /\ Forall (fun q => Spec.onScreen bound (Point2D.x q) (Point2D.y q))
             (Linear.gazeHistory t))
  /\ Forall (fun g => Spec.onScreen bound (GazePoint.x g) (GazePoint.y g))
            (snd (Session.play t ResizeExamples.steady)).
Proof.
  intros bound t.
  assert (H1 : Forall Spec.quotientsDefined ResizeExamples.steady).
  { unfold ResizeExamples.steady.
    apply Forall_cons; [exact I|].
    apply Forall_cons; [exact (frameOf_defined 0.02 ltac:(lra))|].
    apply Forall_cons;
      [intros _; unfold Examples.viewport;
       cbn [fst Window.innerWidth Window.innerHeight]; split; lra|].
    apply Forall_cons; [exact (frameOf_defined 0.001 ltac:(lra))|].
    apply Forall_cons; [exact (frameOf_defined 0.02 ltac:(lra))|].
    apply Forall_nil. }
  assert (H2 : Forall (Spec.viewportWithin bound) ResizeExamples.steady).
  { assert (Hv : forall e, Spec.viewportWithin bound (bound, e)).
    { intros e. unfold Spec.viewportWithin. cbn [fst]. subst bound.
      unfold Examples.viewport.
      cbn [Window.innerWidth Window.innerHeight]. lra. }
    unfold ResizeExamples.steady.
    repeat (apply Forall_cons; [apply Hv|]). apply Forall_nil. }
  assert (H3 : Forall (fun q => Spec.onScreen bound (Point2D.x q)
                                               (Point2D.y q))
                      (Linear.gazeHistory t)) by constructor.
  split; [exact (conj H1 (conj H2 H3))|].
  exact (proj1 (proj2 (proj2 (C9_emitted_on_screen bound t
                                ResizeExamples.steady H1 H2 H3)))).
Defined.

(* ================================================================== *)
(** ** The affine fit and the default transform *)
(* ================================================================== *)

Lemma outOfRange_true (w : Window.t) (scale : R) :
  scale > Affine.MAX_SCALE w \/ scale < Affine.MIN_SCALE w ->
  Affine.outOfRange w scale = true.
Proof.
  intros [H | H]; unfold Affine.outOfRange, JS.gt.
  - rewrite (proj2 (lt_true _ _)) by lra. reflexivity.
  - rewrite (proj2 (lt_true (scale) _)) by lra. apply orb_true_r.
Qed.

Lemma isGood_spec (p : CalibrationPoint.t) :
  Affine.isGood p = true <->
  match CalibrationPoint.stdDev p with
  | None => True
  | Some s => s = 0 \/ s < 50
  end.
Proof.
  unfold Affine.isGood, Affine.MAX_STDDEV.
  destruct (CalibrationPoint.stdDev p) as [s|]; [|tauto].
  rewrite orb_true_iff, negb_true_iff, lt_true.
  unfold JS.strict_neq. destruct (Req_dec_T s 0); split; intros [H|H];
    auto; try congruence; try discriminate.
Qed.

(** C3.  On a non-empty input of the affine [applyCalibration], the
    samples that survive the filter are those without a [stdDev], with
    [stdDev] 0 or with [stdDev] below 50; and if fewer than 4 survive, or
    the determinant of the normal equations is below 1e-10 in absolute
    value, or the fitted effective scale (sqrt(a^2+c^2) for X, |d| for Y)
    is above 3 times or below 0.2 times screenWidth / 0.6, the call
    returns with the default transform installed (and the tracker marked
    calibrated) in place of the fitted matrix. *)
Theorem C3_affine_fallback (w : Window.t) (t : Affine.MediaPipeTracker)
    (points : list CalibrationPoint.t) :
  points <> [] ->
  let good := Affine.goodPoints points in
  let data := map Affine.datum good in
  let s := Affine.sums data in
  let n := JS.length data in
  let m := Affine.solve s n in
  (forall p, In p good <->
             In p points /\
             match CalibrationPoint.stdDev p with
             | None => True
             | Some sd => sd = 0 \/ sd < 50
             end)
  /\ Affine.effectiveScaleX m = sqrt (Affine.a m * Affine.a m
                                     + Affine.c m * Affine.c m)
  /\ Affine.primaryScaleY m = Rabs (Affine.d m)
  /\ Affine.MAX_SCALE w = 3 * (Window.innerWidth w / 0.6)
  /\ Affine.MIN_SCALE w = 0.2 * (Window.innerWidth w / 0.6)
  /\ ((length good < 4)%nat
      \/ Rabs (Affine.detA s n) < 1e-10
      \/ Affine.effectiveScaleX m > Affine.MAX_SCALE w
      \/ Affine.effectiveScaleX m < Affine.MIN_SCALE w
      \/ Affine.primaryScaleY m > Affine.MAX_SCALE w
      \/ Affine.primaryScaleY m < Affine.MIN_SCALE w ->
      Affine.applyCalibration w t points = Affine.useDefaultCalibration w t
      /\ Affine.calibrationMatrix (Affine.applyCalibration w t points)
         = Affine.defaultMatrix w
      /\ Affine.isCalibrated (Affine.applyCalibration w t points) = true).
Proof.
  intros Hne good data s n m.
  split.
  { intros p. subst good. unfold Affine.goodPoints.
    rewrite filter_In, isGood_spec. tauto. }
  split; [reflexivity|]. split; [reflexivity|].
  split; [unfold Affine.MAX_SCALE, Affine.expectedScale; lra|].
  split; [unfold Affine.MIN_SCALE, Affine.expectedScale; lra|].
  intros H.
  assert (E : Affine.applyCalibration w t points
              = Affine.useDefaultCalibration w t).
  { destruct points as [|p0 ps]; [congruence|].
    unfold Affine.applyCalibration.
    fold good. fold data. fold n. fold s. fold m.
    destruct (Nat.ltb_spec (length good) 4) as [_|Hlen]; [reflexivity|].
    destruct (JS.lt (JS.abs (Affine.detA s n)) 1e-10) eqn:Hdet; [reflexivity|].
    apply lt_false in Hdet. unfold JS.abs in Hdet.
    destruct (Affine.outOfRange w (Affine.effectiveScaleX m)) eqn:Hx;
      [reflexivity|].
    destruct (Affine.outOfRange w (Affine.primaryScaleY m)) eqn:Hy;
      [reflexivity|].
    exfalso.
    destruct H as [H | [H | [H | [H | [H | H]]]]].
    - lia.
    - lra.
    - rewrite outOfRange_true in Hx by (left; exact H). discriminate.
    - rewrite outOfRange_true in Hx by (right; exact H). discriminate.
    - rewrite outOfRange_true in Hy by (left; exact H). discriminate.
    - rewrite outOfRange_true in Hy by (right; exact H). discriminate. }
  rewrite E. repeat split.
Qed.

Lemma C3_witness_too_few_and_singular :
  let w := Examples.viewport in
  let degenerate := map Affine.datum
                        (Affine.goodPoints AffineExamples.degenerate) in
  (Examples.oneSample <> []
   /\ (length (Affine.goodPoints Examples.oneSample) < 4)%nat
   /\ AffineExamples.degenerate <> []
   /\ Rabs (Affine.detA (Affine.sums degenerate) (JS.length degenerate))
      < 1e-10)
  /\ Affine.applyCalibration w Affine.create Examples.oneSample
     = Affine.useDefaultCalibration w Affine.create
  /\ Affine.applyCalibration w Affine.create AffineExamples.degenerate
     = Affine.useDefaultCalibration w Affine.create.
Proof.
  intros w degenerate.
  assert (H1 : Examples.oneSample <> []) by discriminate.
  assert (H2 : (length (Affine.goodPoints Examples.oneSample) < 4)%nat).
  { unfold Affine.goodPoints, Examples.oneSample. cbn. lia. }
  assert (H3 : AffineExamples.degenerate <> []) by discriminate.
  assert (H4 : Rabs (Affine.detA (Affine.sums degenerate)
                                 (JS.length degenerate)) < 1e-10).
  { subst degenerate. unfold Affine.detA. cbn.
    match goal with |- Rabs ?e < _ => replace e with 0 by lra end.
    rewrite Rabs_R0. lra. }
  split; [repeat split; assumption|].
  split.
  - apply (C3_affine_fallback w Affine.create Examples.oneSample H1).
    left. exact H2.
  - apply (C3_affine_fallback w Affine.create AffineExamples.degenerate H3).
    right; left. exact H4.
Defined.

(** The original wording of C4 fails: under the default transform of a
    1920 x 1080 viewport the normalized x = -0.6 lands on -960, not on
    0, and x = +0.6 on 2880, not on 1920. *)
Lemma C4_counterexample_range :
  let m := Affine.defaultMatrix Examples.viewport in
  Point2D.x (Affine.transform m (-0.6) 0) = -960
  /\ Point2D.x (Affine.transform m 0.6 0) = 2880
  /\ Point2D.x (Affine.transform m (-0.6) 0) <> 0
  /\ Point2D.x (Affine.transform m 0.6 0)
     <> Window.innerWidth Examples.viewport.
Proof.
  cbv zeta. unfold Affine.transform, Affine.defaultMatrix. cbn.
  repeat split; lra.
Qed.

(** C4 (as amended).  [useDefaultCalibration] installs a fixed linear
    mapping without cross terms and marks the tracker calibrated; the
    mapping sends the normalized range of width 0.6, from -0.3 to +0.3,
    linearly onto the screen, and the estimator clamps its result: the
    normalized gaze (0, 0) maps to the screen centre, x = -0.3 and
    x = +0.3 give screen x = 0 and x = screenWidth, and likewise y with
    screenHeight. *)
Theorem C4_default_transform (w : Window.t) (t : Affine.MediaPipeTracker) :
  let t' := Affine.useDefaultCalibration w t in
  let m := Affine.calibrationMatrix t' in
  let sw := Window.innerWidth w in
  let sh := Window.innerHeight w in
  Affine.isCalibrated t' = true
  /\ (Affine.b m = 0 /\ Affine.c m = 0)
  /\ (forall nx ny,
         Affine.transform m nx ny
         = Point2D.mk (sw * ((nx + 0.3) / 0.6)) (sh * ((ny + 0.3) / 0.6)))
  /\ (forall nx ny,
         Affine.gazePoint w t' nx ny
         = Point2D.mk
             (Rmax 0 (Rmin sw (Point2D.x (Affine.transform m nx ny))))
             (Rmax 0 (Rmin sh (Point2D.y (Affine.transform m nx ny)))))
  /\ Affine.transform m 0 0 = Point2D.mk (sw / 2) (sh / 2)
  /\ (forall ny, Point2D.x (Affine.transform m (-0.3) ny) = 0
                 /\ Point2D.x (Affine.transform m 0.3 ny) = sw)
  /\ (forall nx, Point2D.y (Affine.transform m nx (-0.3)) = 0
                 /\ Point2D.y (Affine.transform m nx 0.3) = sh).
Proof.
  cbv zeta. unfold Affine.transform, Affine.useDefaultCalibration,
    Affine.defaultMatrix. cbn.
  split; [reflexivity|]. split; [split; reflexivity|].
  split; [intros nx ny; f_equal; lra|].
  split; [intros nx ny; reflexivity|].
  split; [f_equal; lra|].
  split; intros v; split; lra.
Qed.

(* ================================================================== *)
(** ** Sorting, ranks and the capture callback *)
(* ================================================================== *)

Section SortFacts.
Context {A : Type} (key : A -> R).

Lemma insert_perm (v : A) (a : list A) :
  Permutation (JS.insert key v a) (v :: a).
Proof.
  induction a as [|u a IH]; cbn [JS.insert]; [reflexivity|].
  destruct (Rle_dec (key v) (key u)); [reflexivity|].
  rewrite IH. apply perm_swap.
Qed.

Lemma sort_by_perm (a : list A) : Permutation (JS.sort_by key a) a.
Proof.
  induction a as [|v a IH]; cbn [JS.sort_by]; [reflexivity|].
  rewrite insert_perm. constructor. exact IH.
Qed.

Lemma insert_sorted (v : A) (a : list A) :
  StronglySorted (fun p q => key p <= key q) a ->
  StronglySorted (fun p q => key p <= key q) (JS.insert key v a).
Proof.
  induction 1 as [|u a Hs IH Hu]; cbn [JS.insert].
  - repeat constructor.
  - destruct (Rle_dec (key v) (key u)) as [Hle|Hgt].
    + constructor; [constructor; assumption|].
      constructor; [exact Hle|].
      eapply Forall_impl; [|exact Hu]. simpl. intros q Hq. lra.
    + constructor; [exact IH|].
      rewrite insert_perm. constructor; [lra | exact Hu].
Qed.

Lemma sort_by_sorted (a : list A) :
  StronglySorted (fun p q => key p <= key q) (JS.sort_by key a).
Proof.
  induction a as [|v a IH]; cbn [JS.sort_by]; [constructor|].
  apply insert_sorted. exact IH.
Qed.
End SortFacts.

Section IndexOfFacts.

Lemma indexOf_from_absent (i : Z) (a : list nat) (v : nat) :
  ~ In v a -> JS.indexOf_from i a v = (-1)%Z.
Proof.
  revert i; induction a as [|r a IH]; intros i Hn; cbn [JS.indexOf_from].
  - reflexivity.
  - destruct (Nat.eqb_spec r v) as [->|Hne].
    + exfalso. apply Hn. left. reflexivity.
    + apply IH. intros H. apply Hn. right. exact H.
Qed.

(** The index found is the first position holding the reference. *)
Lemma indexOf_from_found (i : Z) (a : list nat) (v : nat) :
  In v a ->
  exists k : nat,
    JS.indexOf_from i a v = (i + Z.of_nat k)%Z
    /\ (k < length a)%nat
    /\ nth k a 0%nat = v
    /\ forall j, (j < k)%nat -> nth j a 0%nat <> v.
Proof.
  revert i; induction a as [|r a IH]; intros i Hin; [contradiction|].
  cbn [JS.indexOf_from].
  destruct (Nat.eqb_spec r v) as [->|Hne].
  - exists 0%nat. repeat split.
    + lia.
    + simpl; lia.
    + intros j Hj. lia.
  - destruct Hin as [E|Hin]; [congruence|].
    destruct (IH (i + 1)%Z Hin) as (k & E & Hk & Hnth & Hfirst).
    exists (S k). repeat split.
    + rewrite E. lia.
    + simpl; lia.
    + exact Hnth.
    + intros [|j] Hj; [exact Hne | apply Hfirst; lia].
Qed.

Lemma indexOf_found (a : list nat) (v : nat) :
  In v a ->
  exists k : nat,
    JS.indexOf a v = Z.of_nat k
    /\ (k < length a)%nat
    /\ nth k a 0%nat = v
    /\ forall j, (j < k)%nat -> nth j a 0%nat <> v.
Proof.
  intros Hin. destruct (indexOf_from_found 0 a v Hin) as (k & E & H).
  exists k. split; [exact E | exact H].
Qed.
End IndexOfFacts.

Lemma trimCount_value : Capture.trimCount = 5%Z.
Proof.
  unfold Capture.trimCount, Capture.sampleCount.
  replace (INR 50 * 0.1) with (INR 5).
  - apply Int_part_INR.
  - rewrite !INR_IZR_INZ. simpl. lra.
Qed.

Lemma variance_as_computed {A} (f : A -> R) (l : list A) :
  let avg := JS.reduce_sum f l / JS.length l in
  JS.reduce_sum (fun g => JS.pow2 (f g - avg)) l / JS.length l
  = Spec.variance (map f l).
Proof.
  cbv zeta. unfold Spec.variance, Spec.mean, JS.length.
  rewrite !reduce_sum_spec, !length_map, map_map.
  f_equal. f_equal. apply map_ext. intros g. unfold JS.pow2. simpl. ring.
Qed.

Lemma mean_as_computed {A} (f : A -> R) (l : list A) :
  JS.reduce_sum f l / JS.length l = Spec.mean (map f l).
Proof.
  unfold Spec.mean, JS.length. rewrite reduce_sum_spec, length_map.
  reflexivity.
Qed.

Section CaptureFacts.
Variable store : Capture.Store.

Lemma kept_spec (samples : list nat) (g : nat) :
  Capture.kept store samples g = true <->
  (5 <= Capture.xRank store samples g < 45)%Z
  /\ (5 <= Capture.yRank store samples g < 45)%Z.
Proof.
  unfold Capture.kept. rewrite trimCount_value.
  unfold Capture.sampleCount.
  rewrite !andb_true_iff, !Z.leb_le, !Z.ltb_lt. lia.
Qed.

Lemma validSamples_length (samples : list nat) :
  length samples = 50%nat ->
  (10 <= length (Capture.validSamples store samples))%nat.
Proof.
  intros Hlen. unfold Capture.validSamples.
  destruct (Nat.leb_spec 10 (length (Capture.trimmedSamples store samples)));
    lia.
Qed.

Lemma rank_first_position (key : nat -> R) (samples : list nat) (g : nat) :
  In g samples ->
  exists k : nat,
    JS.indexOf (JS.sort_by key samples) g = Z.of_nat k
    /\ (k < length samples)%nat
    /\ nth k (JS.sort_by key samples) 0%nat = g
    /\ forall j, (j < k)%nat -> nth j (JS.sort_by key samples) 0%nat <> g.
Proof.
  intros Hin.
  assert (Hp : Permutation (JS.sort_by key samples) samples)
    by apply sort_by_perm.
  destruct (indexOf_found (JS.sort_by key samples) g) as (k & E & Hk & H).
  { apply (Permutation_in g (Permutation_sym Hp)). exact Hin. }
  exists k. split; [exact E|]. split; [|exact H].
  rewrite <- (Permutation_length Hp). exact Hk.
Qed.

End CaptureFacts.


Section CaptureRuns.

Lemma sort_by_sorted_id {A} (key : A -> R) (l : list A) :
  StronglySorted (fun p q => key p <= key q) l -> JS.sort_by key l = l.
Proof.
  induction 1 as [|v l Hs IH Hv]; [reflexivity|].
  cbn [JS.sort_by]. rewrite IH. destruct l as [|u l]; [reflexivity|].
  cbn [JS.insert]. inversion Hv; subst.
  destruct (Rle_dec (key v) (key u)); [reflexivity | contradiction].
Qed.

Lemma seq_sorted (key : nat -> R) (n a : nat) :
  (forall i j, (i <= j)%nat -> key i <= key j) ->
  StronglySorted (fun p q => key p <= key q) (seq a n).
Proof.
  intros Hmono. revert a. induction n as [|n IH]; intros a; [constructor|].
  cbn [seq]. constructor; [apply IH|].
  apply Forall_forall. intros q Hq. apply in_seq in Hq. apply Hmono. lia.
Qed.

Lemma indexOf_from_seq (i : Z) (n a g : nat) :
  (a <= g < a + n)%nat ->
  JS.indexOf_from i (seq a n) g = (i + Z.of_nat (g - a))%Z.
Proof.
  revert i a. induction n as [|n IH]; intros i a Hg; [lia|].
  cbn [seq JS.indexOf_from]. destruct (Nat.eqb_spec a g) as [->|Hne].
  - replace (g - g)%nat with 0%nat by lia. lia.
  - rewrite IH by lia. lia.
Qed.

(** Fifty distinct objects in ascending order on both axes: the five
    lowest and the five highest are dropped, forty are averaged. *)
Example distinct_samples_trimmed :
  Capture.trimmedSamples CaptureExamples.store CaptureExamples.samples
  = seq 5 40.
Proof.
  assert (Hx : Capture.sortedX CaptureExamples.store CaptureExamples.samples
               = seq 0 50).
  { apply sort_by_sorted_id, seq_sorted. intros i j Hij.
    unfold Capture.xOf; cbn. apply le_INR. exact Hij. }
  assert (Hy : Capture.sortedY CaptureExamples.store CaptureExamples.samples
               = seq 0 50).
  { apply sort_by_sorted_id, seq_sorted. intros i j Hij.
    unfold Capture.yOf; cbn. apply le_INR in Hij. lra. }
  unfold Capture.trimmedSamples.
  rewrite (filter_ext_in _ (fun g => (5 <=? g)%nat && (g <? 45)%nat)).
  - reflexivity.
  - intros g Hg. apply in_seq in Hg.
    unfold Capture.kept, Capture.xRank, Capture.yRank.
    rewrite Hx, Hy, trimCount_value. unfold JS.indexOf.
    rewrite indexOf_from_seq by lia. unfold Capture.sampleCount.
    destruct (Nat.leb_spec 5 g); destruct (Nat.ltb_spec g 45);
      cbn [andb];
      repeat match goal with
      | |- context [(?a <=? ?b)%Z] => destruct (Z.leb_spec a b); try lia
      | |- context [(?a <? ?b)%Z] => destruct (Z.ltb_spec a b); try lia
      end; reflexivity.
Qed.


End CaptureRuns.


(* ================================================================== *)
(** ** The validation pass *)
(* ================================================================== *)

Section ValidationFacts.
Import CalibrationSystem.

Lemma errorOf_magnitude (measured point : Point2D.t) :
  errorOf measured point =
  Spec.magnitude (Point2D.x measured - Point2D.x point)
                 (Point2D.y measured - Point2D.y point).
Proof.
  unfold errorOf, Spec.magnitude, JS.sqrt, JS.pow2. f_equal. simpl. ring.
Qed.

(** The loop pushes one error per remaining target and averages at the
    end. *)
Lemma showNextPoint_spec (capture : CaptureFn) (remaining : list Point2D.t) :
  forall (currentIndex : nat) (errors : list R),
    let all := errors
               ++ Spec.validationErrors capture currentIndex remaining in
    showNextPoint capture remaining currentIndex errors =
    {| success := JS.lt (Spec.mean all) 100; avgError := Spec.mean all |}.
Proof.
  induction remaining as [|point rest IH]; intros i errors all.
  - subst all. unfold Spec.validationErrors. cbn [length seq combine map].
    rewrite app_nil_r. cbn [showNextPoint].
    rewrite (mean_as_computed (fun e => e)), map_id. reflexivity.
  - cbn [showNextPoint]. rewrite IH. subst all. unfold JS.push.
    unfold Spec.validationErrors.
    cbn [length seq combine map fst snd].
    rewrite <- app_assoc, errorOf_magnitude. reflexivity.
Qed.

Lemma validationErrors_offBy (dx dy : R) (capture : CaptureFn)
    (targets : list Point2D.t) (first : nat) :
  Spec.offBy dx dy capture ->
  Spec.validationErrors capture first targets
  = repeat (Spec.magnitude dx dy) (length targets).
Proof.
  intros Hoff. revert first.
  induction targets as [|pt targets IH]; intros first; [reflexivity|].
  unfold Spec.validationErrors in *.
  cbn [length seq combine map fst snd repeat]. rewrite IH, Hoff.
  cbn [Point2D.x Point2D.y]. f_equal. f_equal; lra.
Qed.
End ValidationFacts.

(** What [runValidation] computes, on every viewport and with every
    capture routine: the k-th call of the capture routine is made with
    the k-th of 5 targets, each error is the Euclidean pixel distance
    between the measured point and its target, avgError is the
    arithmetic mean of the 5 errors, and success holds exactly when
    avgError < 100; if every measured point is its target moved by one
    fixed vector, avgError is that vector's magnitude.  Four of the
    targets are no points of the calibration grid, as long as the
    viewport's width or height is not zero. *)
Lemma runValidation_errors (w : Window.t)
    (onGazeCapture : CalibrationSystem.CaptureFn) :
  let targets := CalibrationSystem.validationPoints w in
  let grid := CalibrationSystem.generateCalibrationGrid w in
  let result := CalibrationSystem.runValidation w onGazeCapture in
  let errors := Spec.validationErrors onGazeCapture 0 targets in
  let origin := Point2D.mk 0 0 in
  (length targets = 5%nat /\ length errors = 5%nat)
  /\ (Window.innerWidth w <> 0 \/ Window.innerHeight w <> 0 ->
      forall i, (i < 5)%nat -> i <> 2%nat -> ~ In (nth i targets origin) grid)
  /\ CalibrationSystem.avgError result = Spec.mean errors
  /\ (CalibrationSystem.success result = true
      <-> CalibrationSystem.avgError result < 100)
  /\ (forall dx dy, Spec.offBy dx dy onGazeCapture ->
                    CalibrationSystem.avgError result = Spec.magnitude dx dy).
Proof.
  intros targets grid result errors origin.
  assert (Er : result =
               {| CalibrationSystem.success := JS.lt (Spec.mean errors) 100;
                  CalibrationSystem.avgError := Spec.mean errors |}).
  { subst result. unfold CalibrationSystem.runValidation.
    rewrite showNextPoint_spec. reflexivity. }
  split; [split; reflexivity|].
  split.
  { intros Hnz i Hi Hi2 Hin.
    subst targets grid. unfold CalibrationSystem.generateCalibrationGrid,
      CalibrationSystem.positions in Hin.
    cbn [map] in Hin.
    destruct i as [|[|[|[|[|i]]]]]; try lia; cbn in Hin;
      repeat (destruct Hin as [Hin|Hin];
              [injection Hin as E1 E2; destruct Hnz; lra|]);
      exact Hin. }
  split; [rewrite Er; reflexivity|].
  split; [rewrite Er; cbn; apply lt_true|].
  intros dx dy Hoff. rewrite Er. cbn [CalibrationSystem.avgError].
  subst errors. rewrite (validationErrors_offBy dx dy) by exact Hoff.
  apply mean_constant; [discriminate|].
  apply Forall_forall. intros e He. apply repeat_spec in He. exact He.
Qed.

(** A capture routine that is off by (3, 4) everywhere is reported with
    avgError 5. *)
Example runValidation_shifted :
  CalibrationSystem.avgError
    (CalibrationSystem.runValidation Examples.viewport
       ValidationExamples.shifted) = Spec.magnitude 3 4.
Proof.
  destruct (runValidation_errors Examples.viewport ValidationExamples.shifted)
    as (_ & _ & _ & _ & Hmag).
  apply Hmag. intros k point. reflexivity.
Qed.

(** C7.  [runValidation] does not keep its targets apart from the
    calibration grid, against the comment on them in the code
    (Validation points, different from calibration) and against the
    claim's 5 targets distinct from the calibration grid: on every
    viewport the third validation target is the screen centre
    (0.5 * width, 0.5 * height), which is the fifth point of the grid
    that [generateCalibrationGrid] returns; on a 1920 x 1080 viewport
    both are (960, 540). *)
Theorem C7_validation_reuses_grid_centre :
  (forall w : Window.t,
      let targets := CalibrationSystem.validationPoints w in
      let grid := CalibrationSystem.generateCalibrationGrid w in
      let centre := Point2D.mk (Window.innerWidth w * 0.5)
                               (Window.innerHeight w * 0.5) in
      nth 2 targets (Point2D.mk 0 0) = centre
      /\ nth 4 grid (Point2D.mk 0 0) = centre
      /\ In (nth 2 targets (Point2D.mk 0 0)) grid)
  /\ nth 2 (CalibrationSystem.validationPoints Examples.viewport)
           (Point2D.mk 0 0) = Point2D.mk 960 540
  /\ nth 4 (CalibrationSystem.generateCalibrationGrid Examples.viewport)
           (Point2D.mk 0 0) = Point2D.mk 960 540
  /\ In (Point2D.mk 960 540)
        (CalibrationSystem.generateCalibrationGrid Examples.viewport).
Proof.
  assert (G : forall w : Window.t,
            nth 2 (CalibrationSystem.validationPoints w) (Point2D.mk 0 0)
            = Point2D.mk (Window.innerWidth w * 0.5)
                         (Window.innerHeight w * 0.5)
            /\ nth 4 (CalibrationSystem.generateCalibrationGrid w)
                     (Point2D.mk 0 0)
               = Point2D.mk (Window.innerWidth w * 0.5)
                            (Window.innerHeight w * 0.5)).
  { intros w. split; reflexivity. }
  assert (E1 : nth 2 (CalibrationSystem.validationPoints Examples.viewport)
                     (Point2D.mk 0 0) = Point2D.mk 960 540).
  { rewrite (proj1 (G Examples.viewport)).
    unfold Examples.viewport. cbn [Window.innerWidth Window.innerHeight].
    f_equal; lra. }
  assert (E2 : nth 4 (CalibrationSystem.generateCalibrationGrid
                        Examples.viewport) (Point2D.mk 0 0)
               = Point2D.mk 960 540).
  { rewrite (proj2 (G Examples.viewport)).
    unfold Examples.viewport. cbn [Window.innerWidth Window.innerHeight].
    f_equal; lra. }
  split.
  - intros w targets grid centre. destruct (G w) as [Ht Hg].
    split; [exact Ht|]. split; [exact Hg|].
    subst targets grid. rewrite Ht, <- Hg. apply nth_In.
    unfold CalibrationSystem.generateCalibrationGrid,
      CalibrationSystem.positions. rewrite length_map. simpl. lia.
  - split; [exact E1|]. split; [exact E2|].
    rewrite <- E2. apply nth_In.
    unfold CalibrationSystem.generateCalibrationGrid,
      CalibrationSystem.positions. rewrite length_map. simpl. lia.
Qed.

(* ================================================================== *)
(** ** The embedding on concrete inputs *)
(* ================================================================== *)

(** An open-eyed frame with the irises at the eye centres, seen by a new
    running tracker on a 1920 x 1080 viewport: one point, at the centre
    of the screen. *)
Example open_frame_centre :
  exists g,
    snd (Linear.handleGazeData Examples.viewport 0
           (Linear.start (Linear.create Examples.listening))
           Examples.openFrame) = [g]
    /\ GazePoint.x g = 960 /\ GazePoint.y g = 540
    /\ GazePoint.normalizedX g = Some 0 /\ GazePoint.normalizedY g = Some 0.
Proof.
  assert (Hn : Linear.normalized Examples.openEyes Examples.leftIris
                 Examples.rightIris = (0, 0)).
  { unfold Linear.normalized, Examples.openEyes.
    destruct (face_widths 0.02) as [-> ->].
    destruct (face_heights 0.02) as [-> ->]; [lra|].
    rewrite !face_landmark by lia.
    cbn [Examples.facePoint Nat.eqb Point2D.x Point2D.y
         Examples.leftIris Examples.rightIris].
    f_equal; lra. }
  assert (Hp : Linear.screenPoint Examples.viewport
                 (Linear.calibrationMatrix
                    (Linear.start (Linear.create Examples.listening))) 0 0
               = Point2D.mk 960 540).
  { unfold Linear.screenPoint, JS.max, JS.min. cbn.
    f_equal.
    - replace ((0 * 1 + 0 + 1) * 0.5 * 1920) with 960 by lra.
      rewrite Rmin_right by lra. rewrite Rmax_right by lra. reflexivity.
    - replace ((0 * 1 + 0 + 1) * 0.5 * 1080) with 540 by lra.
      rewrite Rmin_right by lra. rewrite Rmax_right by lra. reflexivity. }
  rewrite (handleGazeData_open _ _ _ _ Examples.openEyes
             Examples.leftIris Examples.rightIris);
    [ | reflexivity | apply frameOf_wellFormed
      | unfold Linear.isBlinking, Examples.openEyes; apply lt_false;
        rewrite face_aspectRatio by lra; lra ].
  rewrite Hn. cbn [fst snd]. rewrite Hp.
  eexists. split; [reflexivity|].
  cbn. repeat split; lra.
Qed.

(** The affine fit is kept when it passes the checks: the four corner
    samples give the matrix that maps +-0.3 to the screen edges. *)
Example corners_fit_accepted :
  Affine.applyCalibration Examples.viewport Affine.create MoreExamples.corners
  = {| Affine.calibrationMatrix :=
         {| Affine.a := 3200; Affine.b := 0; Affine.c := 0;
            Affine.d := 1800; Affine.tx := 960; Affine.ty := 540 |};
       Affine.isCalibrated := true |}.
Proof.
  set (data := map Affine.datum (Affine.goodPoints MoreExamples.corners)).
  assert (Hs : Affine.sums data =
               {| Affine.sumX := 0; Affine.sumY := 0;
                  Affine.sumXX := 0.36; Affine.sumYY := 0.36;
                  Affine.sumXY := 0;
                  Affine.sumDstX := 3840; Affine.sumDstY := 2160;
                  Affine.sumXDstX := 1152; Affine.sumYDstX := 0;
                  Affine.sumXDstY := 0; Affine.sumYDstY := 648 |}).
  { subst data. unfold Affine.sums. cbn.
    unfold Affine.addSums, Affine.datum, Examples.sample. cbn.
    f_equal; lra. }
  assert (Hn : JS.length data = 4) by (subst data; cbn; lra).
  assert (Hd : Affine.detA (Affine.sums data) (JS.length data) = 0.5184).
  { rewrite Hs, Hn. unfold Affine.detA. cbn. lra. }
  assert (Hm : Affine.solve (Affine.sums data) (JS.length data) =
               {| Affine.a := 3200; Affine.b := 0; Affine.c := 0;
                  Affine.d := 1800; Affine.tx := 960; Affine.ty := 540 |}).
  { unfold Affine.solve. rewrite Hd. rewrite Hs, Hn. cbn. f_equal; lra. }
  unfold Affine.applyCalibration, MoreExamples.corners.
  fold MoreExamples.corners. fold data.
  replace (length (Affine.goodPoints MoreExamples.corners) <? 4)%nat
    with false by reflexivity.
  rewrite Hd, Hm.
  replace (JS.lt (JS.abs 0.5184) 1e-10) with false.
  2:{ symmetry. apply lt_false. unfold JS.abs.
      rewrite Rabs_pos_eq by lra. lra. }
  unfold Affine.outOfRange, Affine.effectiveScaleX, Affine.primaryScaleY,
    Affine.MAX_SCALE, Affine.MIN_SCALE, Affine.expectedScale, JS.gt,
    JS.sqrt, JS.abs.
  cbn [Affine.a Affine.c Affine.d Window.innerWidth Examples.viewport].
  replace (3200 * 3200 + 0 * 0) with (3200 * 3200) by lra.
  rewrite sqrt_square by lra. rewrite Rabs_pos_eq by lra.
  rewrite !(proj2 (lt_false _ _)) by lra. reflexivity.
Qed.

(* ================================================================== *)
(** ** The linear fit on doubles *)
(* ================================================================== *)

Section FitOnDoubles.
Import PrimFloat.
Local Open Scope float_scope.

(** C10.  The guard of the linear fit does not catch equal measured
    values.  On a 1920 x 1080 viewport, with the nine targets of the
    calibration grid each measured at the normalized pair (0.1, 0.2), all
    measured values of an axis are equal; but on doubles the mean of nine
    times 0.1 is 0.09999999999999999 and that of nine times 0.2 is
    0.19999999999999998, every deviation from the mean is non-zero, both
    denominators pass the test [!== 0], and [applyCalibration] divides:
    it installs scaleX = 0, scaleY = 0.8888888888888888, offsetX = 0 and
    offsetY = -0.17777777777777773, where the specification has both scales
    1.0 and the offsets mean(actual) - mean(measured).  With the first of the
    nine samples alone the mean is the value itself, both denominators
    are 0, and both scales are 1. *)
Theorem C10_rounding_defeats_zero_guard :
  let w := Binary64Examples.viewport in
  let nps := map (Binary64.normalizePoint w) Binary64Examples.stuckGrid in
  let mo := Binary64.fitMoments nps in
  let m := Binary64.calibrationMatrix
             (Binary64.applyCalibration w (Binary64.started true)
                Binary64Examples.stuckGrid) in
  let one := firstn 1 Binary64Examples.stuckGrid in
  let mo1 := Binary64.fitMoments (map (Binary64.normalizePoint w) one) in
  let m1 := Binary64.calibrationMatrix
              (Binary64.applyCalibration w (Binary64.started true) one) in
  Forall (fun p => Binary64.measured p = Binary64.Point2D.mk 0.1 0.2) nps
  /\ (Binary64.meanMeasuredX mo = 0.09999999999999999
      /\ Binary64.meanMeasuredY mo = 0.19999999999999998)
  /\ (Binary64.strict_neq (Binary64.denominatorX mo) 0 = true
      /\ Binary64.strict_neq (Binary64.denominatorY mo) 0 = true)
  /\ m = {| Binary64.scaleX := 0;
            Binary64.scaleY := 0.8888888888888888;
            Binary64.offsetX := 0;
            Binary64.offsetY := -0.17777777777777773 |}
  /\ (Binary64.scaleX m =? 1) = false
  /\ (Binary64.scaleY m =? 1) = false
  /\ (Binary64.strict_neq (Binary64.denominatorX mo1) 0 = false
      /\ Binary64.strict_neq (Binary64.denominatorY mo1) 0 = false
      /\ Binary64.scaleX m1 = 1 /\ Binary64.scaleY m1 = 1).
Proof.
  cbv zeta. split.
  - unfold Binary64Examples.stuckGrid. cbn [map].
    repeat constructor.
  - repeat split; vm_compute; reflexivity.
Qed.
End FitOnDoubles.

(* ================================================================== *)
(** ** Both fits are least-squares fits *)
(* ================================================================== *)

Lemma sum_squares_nonneg {A} (f : A -> R) (l : list A) :
  0 <= Spec.sum (map (fun v => f v * f v) l).
Proof. induction l as [|v l IH]; simpl; [lra | nra]. Qed.

Section RawSums.
Import LeastSquares.

Ltac by_list_induction pairs :=
  induction pairs as [|p l IH];
  [ simpl; lra
  | cbn [map Spec.sum fold_right length];
    change (fold_right Rplus 0) with Spec.sum in *;
    first [rewrite IH | rewrite <- IH]; rewrite S_INR; ring ].

Lemma centered_products (pairs : list (R * R)) (mu nu : R) :
  Spec.sum (map (fun p => (fst p - mu) * (snd p - nu)) pairs)
  = Sma pairs - mu * Sa pairs - nu * Sm pairs + count pairs * mu * nu.
Proof. unfold Sma, Sa, Sm, count. by_list_induction pairs. Qed.

Lemma centered_squares (pairs : list (R * R)) (mu : R) :
  Spec.sum (map (fun p => (fst p - mu) * (fst p - mu)) pairs)
  = Smm pairs - 2 * mu * Sm pairs + count pairs * mu * mu.
Proof. unfold Smm, Sm, count. by_list_induction pairs. Qed.

Lemma squaredError_expand (pairs : list (R * R)) (s o : R) :
  squaredError s o pairs
  = Saa pairs - 2 * s * Sma pairs - 2 * o * Sa pairs + s * s * Smm pairs
    + 2 * s * o * Sm pairs + count pairs * o * o.
Proof.
  unfold squaredError, Saa, Sma, Sa, Smm, Sm, count. by_list_induction pairs.
Qed.

Lemma shift_squares (pairs : list (R * R)) (ds do : R) :
  0 <= ds * ds * Smm pairs + 2 * ds * do * Sm pairs + count pairs * do * do.
Proof.
  assert (E : ds * ds * Smm pairs + 2 * ds * do * Sm pairs
              + count pairs * do * do
              = Spec.sum (map (fun p => (ds * fst p + do) * (ds * fst p + do))
                              pairs)).
  { unfold Smm, Sm, count. by_list_induction pairs. }
  rewrite E. apply (sum_squares_nonneg (fun p => ds * fst p + do)).
Qed.

Lemma count_nonzero (pairs : list (R * R)) : pairs <> [] -> count pairs <> 0.
Proof.
  intros Hne. unfold count. apply not_0_INR.
  destruct pairs; [congruence | discriminate].
Qed.

(** The normal equations of a scale with sum(dm*da) = scale * sum(dm^2)
    and of the offset the code computes from it. *)
Lemma linear_normal_equations (pairs : list (R * R)) (s : R) :
  pairs <> [] ->
  Spec.sum_dm_da pairs = s * Spec.sum_dm2 pairs ->
  let o := Spec.offset s pairs in
  Sa pairs = s * Sm pairs + count pairs * o
  /\ Sma pairs = s * Smm pairs + o * Sm pairs.
Proof.
  intros Hne Hs o.
  pose proof (count_nonzero pairs Hne) as Hn.
  unfold Spec.sum_dm_da, Spec.sum_dm2 in Hs.
  rewrite centered_products, centered_squares in Hs.
  subst o. unfold Spec.offset, Spec.mean in *. rewrite !length_map in *.
  fold (count pairs) (Sm pairs) (Sa pairs) in *.
  set (n := count pairs) in *. set (sm := Sm pairs) in *.
  set (sa := Sa pairs) in *. split.
  - field. exact Hn.
  - assert (E : Sma pairs - sm / n * sa - sa / n * sm + n * (sm / n) * (sa / n)
                = Sma pairs - sm * sa / n) by (field; exact Hn).
    assert (E2 : Smm pairs - 2 * (sm / n) * sm + n * (sm / n) * (sm / n)
                 = Smm pairs - sm * sm / n) by (field; exact Hn).
    rewrite E, E2 in Hs.
    replace ((sa / n - s * (sm / n)) * sm)
      with (sm * sa / n - s * (sm * sm / n)) by (field; exact Hn).
    lra.
Qed.

Lemma linear_fit_minimal (pairs : list (R * R)) (s : R) :
  pairs <> [] ->
  Spec.sum_dm_da pairs = s * Spec.sum_dm2 pairs ->
  forall s' o',
    squaredError s (Spec.offset s pairs) pairs <= squaredError s' o' pairs.
Proof.
  intros Hne Hs s' o'.
  destruct (linear_normal_equations pairs s Hne Hs) as [N1 N2].
  cbv zeta in N1, N2. set (o := Spec.offset s pairs) in *.
  rewrite !squaredError_expand.
  pose proof (shift_squares pairs (s' - s) (o' - o)) as Hq.
  rewrite N2, N1. nra.
Qed.
End RawSums.

(** Whatever branch of the conditional is taken, the scale satisfies
    sum(dm*da) = scale * sum(dm^2). *)
Lemma guarded_scale_equation (pairs : list (R * R)) :
  pairs <> [] ->
  let s := if JS.strict_neq (Spec.sum_dm2 pairs) 0
           then Spec.scale pairs else 1 in
  Spec.sum_dm_da pairs = s * Spec.sum_dm2 pairs.
Proof.
  intros Hne s. subst s. unfold JS.strict_neq.
  destruct (Req_dec_T (Spec.sum_dm2 pairs) 0) as [Hz|Hnz].
  - rewrite Hz, Rmult_0_r.
    apply (proj1 (sum_dm2_zero pairs Hne)) in Hz.
    unfold Spec.sum_dm_da.
    assert (E : map (fun p => (fst p - Spec.mean (map fst pairs))
                              * (snd p - Spec.mean (map snd pairs))) pairs
                = map (fun _ => 0) pairs).
    { apply map_ext_in. intros p Hp.
      assert (Hm : Spec.mean (map fst pairs) = fst p).
      { apply mean_constant.
        - destruct pairs; [contradiction | discriminate].
        - rewrite Forall_map, Forall_forall. intros q Hq. apply Hz; assumption. }
      rewrite Hm. lra. }
    rewrite E. clear. induction pairs as [|p l IH]; simpl; [reflexivity|].
    change (fold_right Rplus 0) with Spec.sum. rewrite IH. lra.
  - unfold Spec.scale. field. exact Hnz.
Qed.

Lemma onLine_sums (alpha beta : R) (pairs : list (R * R)) :
  LeastSquares.onLine alpha beta pairs ->
  LeastSquares.Sa pairs
  = alpha * LeastSquares.Sm pairs + LeastSquares.count pairs * beta
  /\ LeastSquares.Sma pairs
     = alpha * LeastSquares.Smm pairs + beta * LeastSquares.Sm pairs.
Proof.
  unfold LeastSquares.onLine, LeastSquares.Sa, LeastSquares.Sm,
    LeastSquares.Sma, LeastSquares.Smm, LeastSquares.count.
  induction pairs as [|p l IH]; intros H.
  - simpl. split; lra.
  - destruct IH as [I1 I2]; [intros q Hq; apply H; right; exact Hq|].
    pose proof (H p (or_introl eq_refl)) as Hp.
    cbn [map Spec.sum fold_right length].
    change (fold_right Rplus 0) with Spec.sum in *.
    rewrite I1, I2, S_INR, Hp. split; ring.
Qed.

(** On pairs that lie on a line and whose measured values are not all
    equal, the guarded scale and its offset are the line's. *)
Lemma onLine_recovered (alpha beta : R) (pairs : list (R * R)) :
  pairs <> [] ->
  LeastSquares.onLine alpha beta pairs ->
  ~ Spec.allMeasuredEqual pairs ->
  let s := if JS.strict_neq (Spec.sum_dm2 pairs) 0
           then Spec.scale pairs else 1 in
  s = alpha /\ Spec.offset s pairs = beta.
Proof.
  intros Hne Hline Hneq s.
  assert (Hd : Spec.sum_dm2 pairs <> 0).
  { intros Hz. apply Hneq. apply sum_dm2_zero; assumption. }
  pose proof (count_nonzero pairs Hne) as Hn.
  destruct (onLine_sums alpha beta pairs Hline) as [E1 E2].
  pose proof (guarded_scale_equation pairs Hne) as Hs. cbv zeta in Hs.
  fold s in Hs.
  assert (Hda : Spec.sum_dm_da pairs = alpha * Spec.sum_dm2 pairs).
  { unfold Spec.sum_dm_da, Spec.sum_dm2.
    rewrite centered_products, centered_squares.
    unfold Spec.mean. rewrite !length_map.
    fold (LeastSquares.count pairs) (LeastSquares.Sm pairs)
         (LeastSquares.Sa pairs).
    rewrite E2, E1. field. exact Hn. }
  assert (Es : s = alpha).
  { apply Rmult_eq_reg_r with (Spec.sum_dm2 pairs); [|exact Hd]. lra. }
  split; [exact Es|].
  rewrite Es. unfold Spec.offset, Spec.mean. rewrite !length_map.
  fold (LeastSquares.count pairs) (LeastSquares.Sm pairs)
       (LeastSquares.Sa pairs).
  rewrite E1. field. exact Hn.
Qed.

(** X1.  On a viewport whose width and height are not zero, the scale
    and offset that the linear [applyCalibration] installs for an axis
    minimise the sum of squared differences between the normalized
    targets and [scale * measured + offset] over all lines, for every
    non-empty list of samples (in the real-number model also when the
    guard replaced the scale by 1). *)
Theorem linear_calibration_least_squares (w : Window.t)
    (t : Linear.MediaPipeTracker) (points : list CalibrationPoint.t) :
  points <> [] ->
  Window.innerWidth w <> 0 ->
  Window.innerHeight w <> 0 ->
  let xs := map (Spec.pairX w) points in
  let ys := map (Spec.pairY w) points in
  let m := Linear.calibrationMatrix
             (JS.value (Linear.applyCalibration w t points)) in
  forall scale offset,
    LeastSquares.squaredError (Linear.scaleX m) (Linear.offsetX m) xs
    <= LeastSquares.squaredError scale offset xs
    /\ LeastSquares.squaredError (Linear.scaleY m) (Linear.offsetY m) ys
       <= LeastSquares.squaredError scale offset ys.
Proof.
  intros Hne _ _ xs ys m scale offset.
  pose proof (applyCalibration_spec w t points Hne) as Hm. cbv zeta in Hm.
  fold xs ys in Hm. fold m in Hm. rewrite Hm.
  cbn [Linear.scaleX Linear.scaleY Linear.offsetX Linear.offsetY].
  assert (Hx : xs <> []) by (subst xs; destruct points; [congruence|discriminate]).
  assert (Hy : ys <> []) by (subst ys; destruct points; [congruence|discriminate]).
  split.
  - apply linear_fit_minimal; [exact Hx|].
    apply (guarded_scale_equation xs Hx).
  - apply linear_fit_minimal; [exact Hy|].
    apply (guarded_scale_equation ys Hy).
Qed.

Lemma linear_calibration_least_squares_witness :
  let w := Examples.viewport in
  let points := Examples.twoSamples in
  let m := Linear.calibrationMatrix
             (JS.value (Linear.applyCalibration w
                          (Linear.create Examples.listening) points)) in
  (points <> []
   /\ Window.innerWidth w <> 0 /\ Window.innerHeight w <> 0)
  /\ LeastSquares.squaredError (Linear.scaleX m) (Linear.offsetX m)
       (map (Spec.pairX w) points)
     <= LeastSquares.squaredError 1 0 (map (Spec.pairX w) points).
Proof.
  intros w points m.
  assert (Hne : points <> []) by discriminate.
  assert (Hw : Window.innerWidth w <> 0)
    by (unfold w; cbn; lra).
  assert (Hh : Window.innerHeight w <> 0)
    by (unfold w; cbn; lra).
  split; [exact (conj Hne (conj Hw Hh))|].
  apply (linear_calibration_least_squares w
           (Linear.create Examples.listening) points Hne Hw Hh 1 0).
Defined.

(** X2.  When, on each axis, the normalized targets are an exact linear
    function of the measured values and the measured values are not all
    equal, the linear [applyCalibration] installs that function (exactly
    so in the real-number model); on a viewport of positive size that
    is the one of the calibration, the estimator then maps the measured
    normalized pair of every sample whose target is on screen back to
    that target. *)
Theorem linear_calibration_round_trip (w : Window.t)
    (t : Linear.MediaPipeTracker) (points : list CalibrationPoint.t)
    (alpha beta gamma delta : R) :
  points <> [] ->
  0 < Window.innerWidth w ->
  0 < Window.innerHeight w ->
  let xs := map (Spec.pairX w) points in
  let ys := map (Spec.pairY w) points in
  LeastSquares.onLine alpha beta xs ->
  LeastSquares.onLine gamma delta ys ->
  ~ Spec.allMeasuredEqual xs ->
  ~ Spec.allMeasuredEqual ys ->
  let m := Linear.calibrationMatrix
             (JS.value (Linear.applyCalibration w t points)) in
  m = {| Linear.scaleX := alpha; Linear.scaleY := gamma;
         Linear.offsetX := beta; Linear.offsetY := delta |}
  /\ forall p,
       In p points ->
       Spec.onScreen w (Point2D.x (CalibrationPoint.actual p))
                       (Point2D.y (CalibrationPoint.actual p)) ->
       Linear.screenPoint w m (fst (Spec.pairX w p)) (fst (Spec.pairY w p))
       = CalibrationPoint.actual p.
Proof.
  intros Hne Hw Hh xs ys Lx Ly Nx Ny m.
  assert (Hx : xs <> []) by (subst xs; destruct points; [congruence|discriminate]).
  assert (Hy : ys <> []) by (subst ys; destruct points; [congruence|discriminate]).
  pose proof (applyCalibration_spec w t points Hne) as Hm. cbv zeta in Hm.
  fold xs ys in Hm. fold m in Hm.
  destruct (onLine_recovered alpha beta xs Hx Lx Nx) as [Sx Ox].
  destruct (onLine_recovered gamma delta ys Hy Ly Ny) as [Sy Oy].
  cbv zeta in Sx, Ox, Sy, Oy. rewrite Sx, Sy in Hm.
  rewrite Sx in Ox. rewrite Sy in Oy. rewrite Ox, Oy in Hm.
  split; [exact Hm|].
  intros p Hp [[Hx0 Hx1] [Hy0 Hy1]].
  pose proof (Lx (Spec.pairX w p) (in_map _ _ _ Hp)) as Ex.
  pose proof (Ly (Spec.pairY w p) (in_map _ _ _ Hp)) as Ey.
  rewrite Hm. unfold Linear.screenPoint.
  cbn [Linear.scaleX Linear.scaleY Linear.offsetX Linear.offsetY].
  destruct (CalibrationPoint.actual p) as [ax ay] eqn:Ea.
  cbn [Point2D.x Point2D.y] in *.
  assert (Ex' : snd (Spec.pairX w p) = ax / Window.innerWidth w * 2 - 1).
  { unfold Spec.pairX, Spec.toUnit. rewrite Ea. reflexivity. }
  assert (Ey' : snd (Spec.pairY w p) = ay / Window.innerHeight w * 2 - 1).
  { unfold Spec.pairY, Spec.toUnit. rewrite Ea. reflexivity. }
  rewrite Ex' in Ex. rewrite Ey' in Ey.
  replace (fst (Spec.pairX w p) * alpha + beta)
    with (ax / Window.innerWidth w * 2 - 1) by lra.
  replace (fst (Spec.pairY w p) * gamma + delta)
    with (ay / Window.innerHeight w * 2 - 1) by lra.
  assert (Qx : (ax / Window.innerWidth w * 2 - 1 + 1) * 0.5
               * Window.innerWidth w = ax).
  { assert (Q : ax / Window.innerWidth w * Window.innerWidth w = ax)
      by (unfold Rdiv; rewrite Rmult_assoc, Rinv_l; lra).
    lra. }
  assert (Qy : (ay / Window.innerHeight w * 2 - 1 + 1) * 0.5
               * Window.innerHeight w = ay).
  { assert (Q : ay / Window.innerHeight w * Window.innerHeight w = ay)
      by (unfold Rdiv; rewrite Rmult_assoc, Rinv_l; lra).
    lra. }
  rewrite Qx, Qy.
  unfold JS.max, JS.min.
  rewrite !Rmin_right by lra. rewrite !Rmax_right by lra. reflexivity.
Qed.

Lemma linear_calibration_round_trip_witness :
  let w := Examples.viewport in
  let points := Examples.twoSamples in
  let xs := map (Spec.pairX w) points in
  let ys := map (Spec.pairY w) points in
  let m := Linear.calibrationMatrix
             (JS.value (Linear.applyCalibration w
                          (Linear.create Examples.listening) points)) in
  (points <> [] /\ 0 < Window.innerWidth w /\ 0 < Window.innerHeight w
   /\ LeastSquares.onLine 2.5 (-0.25) xs /\ LeastSquares.onLine 2.5 0 ys
   /\ ~ Spec.allMeasuredEqual xs /\ ~ Spec.allMeasuredEqual ys)
  /\ Linear.screenPoint w m (-0.1) (-0.2) = Point2D.mk 480 270
  /\ Linear.screenPoint w m 0.3 0.2 = Point2D.mk 1440 810.
Proof.
  intros w points xs ys m.
  assert (Hne : points <> []) by discriminate.
  assert (Hw : 0 < Window.innerWidth w) by (simpl; lra).
  assert (Hh : 0 < Window.innerHeight w) by (simpl; lra).
  assert (Lx : LeastSquares.onLine 2.5 (-0.25) xs).
  { intros p [<-|[<-|[]]]; unfold Spec.pairX, Spec.toUnit; simpl; lra. }
  assert (Ly : LeastSquares.onLine 2.5 0 ys).
  { intros p [<-|[<-|[]]]; unfold Spec.pairY, Spec.toUnit; simpl; lra. }
  assert (Nx : ~ Spec.allMeasuredEqual xs).
  { intros H. specialize (H (nth 0 xs (0, 0)) (nth 1 xs (0, 0))).
    simpl in H. assert (-0.1 = 0.3) by (apply H; auto). lra. }
  assert (Ny : ~ Spec.allMeasuredEqual ys).
  { intros H. specialize (H (nth 0 ys (0, 0)) (nth 1 ys (0, 0))).
    simpl in H. assert (-0.2 = 0.2) by (apply H; auto). lra. }
  destruct (linear_calibration_round_trip w (Linear.create Examples.listening)
              points 2.5 (-0.25) 2.5 0 Hne Hw Hh Lx Ly Nx Ny) as [_ Hrt].
  split; [repeat split; assumption|].
  split.
  - apply (Hrt (nth 0 points (Examples.sample 0 0 0 0 0 0))).
    + left. reflexivity.
    + unfold Spec.onScreen. simpl. lra.
  - apply (Hrt (nth 1 points (Examples.sample 0 0 0 0 0 0))).
    + right. left. reflexivity.
    + unfold Spec.onScreen. simpl. lra.
Defined.

Section AffineSums.
Import Affine.

Lemma affine_sums_from (data : list Datum) (s : Sums) :
  fold_left addSums data s =
  {| sumX := sumX s + Spec.sum (map srcX data);
     sumY := sumY s + Spec.sum (map srcY data);
     sumXX := sumXX s + Spec.sum (map (fun p => srcX p * srcX p) data);
     sumYY := sumYY s + Spec.sum (map (fun p => srcY p * srcY p) data);
     sumXY := sumXY s + Spec.sum (map (fun p => srcX p * srcY p) data);
     sumDstX := sumDstX s + Spec.sum (map dstX data);
     sumDstY := sumDstY s + Spec.sum (map dstY data);
     sumXDstX := sumXDstX s + Spec.sum (map (fun p => srcX p * dstX p) data);
     sumYDstX := sumYDstX s + Spec.sum (map (fun p => srcY p * dstX p) data);
     sumXDstY := sumXDstY s + Spec.sum (map (fun p => srcX p * dstY p) data);
     sumYDstY := sumYDstY s + Spec.sum (map (fun p => srcY p * dstY p) data)
  |}.
Proof.
  revert s; induction data as [|p data IH]; intros s.
  - destruct s; simpl. f_equal; lra.
  - cbn [fold_left]. rewrite IH. destruct s; simpl. f_equal; lra.
Qed.

Lemma affine_sums_spec (data : list Datum) :
  sums data =
  {| sumX := Spec.sum (map srcX data);
     sumY := Spec.sum (map srcY data);
     sumXX := Spec.sum (map (fun p => srcX p * srcX p) data);
     sumYY := Spec.sum (map (fun p => srcY p * srcY p) data);
     sumXY := Spec.sum (map (fun p => srcX p * srcY p) data);
     sumDstX := Spec.sum (map dstX data);
     sumDstY := Spec.sum (map dstY data);
     sumXDstX := Spec.sum (map (fun p => srcX p * dstX p) data);
     sumYDstX := Spec.sum (map (fun p => srcY p * dstX p) data);
     sumXDstY := Spec.sum (map (fun p => srcX p * dstY p) data);
     sumYDstY := Spec.sum (map (fun p => srcY p * dstY p) data) |}.
Proof.
  unfold sums. rewrite affine_sums_from. simpl. f_equal; lra.
Qed.

Ltac by_data_induction data :=
  induction data as [|p l IH];
  [ simpl; lra
  | cbn [map Spec.sum fold_right length];
    change (fold_right Rplus 0) with Spec.sum in *;
    first [rewrite IH | rewrite <- IH]; rewrite S_INR; ring ].

(** The squared error as a quadratic form in the matrix row. *)
Lemma squaredErrorX_expand (m : CalibrationMatrix) (data : list Datum) :
  let s := sums data in
  let n := JS.length data in
  LeastSquares.squaredErrorX m data
  = Spec.sum (map (fun p => dstX p * dstX p) data)
    - 2 * (a m * sumXDstX s + b m * sumYDstX s + tx m * sumDstX s)
    + (a m * a m * sumXX s + b m * b m * sumYY s + tx m * tx m * n
       + 2 * a m * b m * sumXY s + 2 * a m * tx m * sumX s
       + 2 * b m * tx m * sumY s).
Proof.
  cbv zeta. rewrite affine_sums_spec.
  cbn [sumX sumY sumXX sumYY sumXY sumDstX sumXDstX sumYDstX].
  unfold LeastSquares.squaredErrorX, LeastSquares.residualX, JS.length.
  by_data_induction data.
Qed.

Lemma squaredErrorY_expand (m : CalibrationMatrix) (data : list Datum) :
  let s := sums data in
  let n := JS.length data in
  LeastSquares.squaredErrorY m data
  = Spec.sum (map (fun p => dstY p * dstY p) data)
    - 2 * (c m * sumXDstY s + d m * sumYDstY s + ty m * sumDstY s)
    + (c m * c m * sumXX s + d m * d m * sumYY s + ty m * ty m * n
       + 2 * c m * d m * sumXY s + 2 * c m * ty m * sumX s
       + 2 * d m * ty m * sumY s).
Proof.
  cbv zeta. rewrite affine_sums_spec.
  cbn [sumX sumY sumXX sumYY sumXY sumDstY sumXDstY sumYDstY].
  unfold LeastSquares.squaredErrorY, LeastSquares.residualY, JS.length.
  by_data_induction data.
Qed.

Lemma affine_shift_nonneg (data : list Datum) (u v k : R) :
  let s := sums data in
  let n := JS.length data in
  0 <= u * u * sumXX s + v * v * sumYY s + k * k * n
       + 2 * u * v * sumXY s + 2 * u * k * sumX s + 2 * v * k * sumY s.
Proof.
  cbv zeta.
  assert (E : u * u * sumXX (sums data) + v * v * sumYY (sums data)
              + k * k * JS.length data
              + 2 * u * v * sumXY (sums data) + 2 * u * k * sumX (sums data)
              + 2 * v * k * sumY (sums data)
              = Spec.sum (map (fun p => (u * srcX p + v * srcY p + k)
                                        * (u * srcX p + v * srcY p + k)) data)).
  { rewrite affine_sums_spec. cbn [sumX sumY sumXX sumYY sumXY].
    unfold JS.length. by_data_induction data. }
  rewrite E. apply (sum_squares_nonneg (fun p => u * srcX p + v * srcY p + k)).
Qed.

(** Cramer's rule gives a solution of the normal equations. *)
Lemma cramer_normal_equations (s : Sums) (n : R) :
  detA s n <> 0 ->
  let m := solve s n in
  (sumXX s * a m + sumXY s * b m + sumX s * tx m = sumXDstX s
   /\ sumXY s * a m + sumYY s * b m + sumY s * tx m = sumYDstX s
   /\ sumX s * a m + sumY s * b m + n * tx m = sumDstX s)
  /\ (sumXX s * c m + sumXY s * d m + sumX s * ty m = sumXDstY s
      /\ sumXY s * c m + sumYY s * d m + sumY s * ty m = sumYDstY s
      /\ sumX s * c m + sumY s * d m + n * ty m = sumDstY s).
Proof.
  intros Hdet m. subst m. unfold solve. cbn [a b c d tx ty].
  unfold detA in *. destruct s; cbn [sumX sumY sumXX sumYY sumXY sumDstX
    sumDstY sumXDstX sumYDstX sumXDstY sumYDstY] in *.
  repeat split; field; exact Hdet.
Qed.

(** The normal equations have one solution only when the determinant
    is not zero. *)
Lemma cramer_unique (s : Sums) (n : R) (m0 : CalibrationMatrix) :
  detA s n <> 0 ->
  sumXX s * a m0 + sumXY s * b m0 + sumX s * tx m0 = sumXDstX s ->
  sumXY s * a m0 + sumYY s * b m0 + sumY s * tx m0 = sumYDstX s ->
  sumX s * a m0 + sumY s * b m0 + n * tx m0 = sumDstX s ->
  sumXX s * c m0 + sumXY s * d m0 + sumX s * ty m0 = sumXDstY s ->
  sumXY s * c m0 + sumYY s * d m0 + sumY s * ty m0 = sumYDstY s ->
  sumX s * c m0 + sumY s * d m0 + n * ty m0 = sumDstY s ->
  solve s n = m0.
Proof.
  intros Hdet E1 E2 E3 E4 E5 E6.
  unfold solve. rewrite <- E1, <- E2, <- E3, <- E4, <- E5, <- E6.
  unfold detA in *. destruct m0 as [a0 b0 c0 d0 tx0 ty0].
  cbn [a b c d tx ty] in *.
  f_equal; field; exact Hdet.
Qed.
End AffineSums.

Lemma outOfRange_false (w : Window.t) (scale : R) :
  Affine.outOfRange w scale = false <->
  Affine.MIN_SCALE w <= scale <= Affine.MAX_SCALE w.
Proof.
  unfold Affine.outOfRange, JS.gt.
  rewrite orb_false_iff, !lt_false. lra.
Qed.

(** The two outcomes of the affine [applyCalibration] on a non-empty
    input. *)
Lemma affine_applyCalibration_accepted (w : Window.t)
    (t : Affine.MediaPipeTracker) (points : list CalibrationPoint.t) :
  points <> [] ->
  AffineFit.accepted w points ->
  Affine.applyCalibration w t points
  = {| Affine.calibrationMatrix := AffineFit.fitted points;
       Affine.isCalibrated := true |}.
Proof.
  intros Hne (Hlen & Hdet & Hx & Hy).
  destruct points as [|p0 ps]; [congruence|].
  unfold Affine.applyCalibration.
  fold (AffineFit.data (p0 :: ps)). fold (AffineFit.fitted (p0 :: ps)).
  destruct (Nat.ltb_spec (length (Affine.goodPoints (p0 :: ps))) 4);
    [lia|].
  rewrite (proj2 (lt_false _ _)) by exact Hdet.
  rewrite (proj2 (outOfRange_false _ _) Hx).
  rewrite (proj2 (outOfRange_false _ _) Hy).
  reflexivity.
Qed.

Lemma affine_applyCalibration_rejected (w : Window.t)
    (t : Affine.MediaPipeTracker) (points : list CalibrationPoint.t) :
  points <> [] ->
  ~ AffineFit.accepted w points ->
  Affine.applyCalibration w t points = Affine.useDefaultCalibration w t.
Proof.
  intros Hne Hrej.
  destruct points as [|p0 ps]; [congruence|].
  unfold Affine.applyCalibration.
  fold (AffineFit.data (p0 :: ps)). fold (AffineFit.fitted (p0 :: ps)).
  destruct (Nat.ltb_spec (length (Affine.goodPoints (p0 :: ps))) 4)
    as [|Hlen]; [reflexivity|].
  destruct (JS.lt _ 1e-10) eqn:Hdet; [reflexivity|].
  destruct (Affine.outOfRange w (Affine.effectiveScaleX _)) eqn:Hx;
    [reflexivity|].
  destruct (Affine.outOfRange w (Affine.primaryScaleY _)) eqn:Hy;
    [reflexivity|].
  exfalso. apply Hrej. split; [exact Hlen|]. split.
  - apply lt_false in Hdet. exact Hdet.
  - split; apply outOfRange_false; assumption.
Qed.

Lemma accepted_det_nonzero (w : Window.t) (points : list CalibrationPoint.t) :
  AffineFit.accepted w points ->
  Affine.detA (Affine.sums (AffineFit.data points))
              (JS.length (AffineFit.data points)) <> 0.
Proof.
  intros (_ & Hdet & _) E. rewrite E, Rabs_R0 in Hdet. lra.
Qed.

(** The matrix that Cramer's rule gives has the least squared error of
    all matrices, on both rows. *)
Lemma solve_minimal (data : list Affine.Datum) (m' : Affine.CalibrationMatrix) :
  Affine.detA (Affine.sums data) (JS.length data) <> 0 ->
  let m := Affine.solve (Affine.sums data) (JS.length data) in
  LeastSquares.squaredErrorX m data <= LeastSquares.squaredErrorX m' data
  /\ LeastSquares.squaredErrorY m data <= LeastSquares.squaredErrorY m' data.
Proof.
  intros Hdet m.
  destruct (cramer_normal_equations _ _ Hdet)
    as [(X1 & X2 & X3) (Y1 & Y2 & Y3)].
  fold m in X1, X2, X3, Y1, Y2, Y3.
  split.
  - pose proof (affine_shift_nonneg data
                  (Affine.a m' - Affine.a m) (Affine.b m' - Affine.b m)
                  (Affine.tx m' - Affine.tx m)) as Hq.
    cbv zeta in Hq.
    rewrite (squaredErrorX_expand m data), (squaredErrorX_expand m' data).
    cbv zeta. rewrite <- X1, <- X2, <- X3.
    apply Rminus_le. apply Ropp_le_cancel. rewrite Ropp_0.
    eapply Rle_trans; [exact Hq|]. apply Req_le. ring.
  - pose proof (affine_shift_nonneg data
                  (Affine.c m' - Affine.c m) (Affine.d m' - Affine.d m)
                  (Affine.ty m' - Affine.ty m)) as Hq.
    cbv zeta in Hq.
    rewrite (squaredErrorY_expand m data), (squaredErrorY_expand m' data).
    cbv zeta. rewrite <- Y1, <- Y2, <- Y3.
    apply Rminus_le. apply Ropp_le_cancel. rewrite Ropp_0.
    eapply Rle_trans; [exact Hq|]. apply Req_le. ring.
Qed.

(** Samples that an affine map explains without error satisfy its normal
    equations. *)
Lemma exactOn_normal_equations (m0 : Affine.CalibrationMatrix)
    (data : list Affine.Datum) :
  LeastSquares.exactOn m0 data ->
  let s := Affine.sums data in
  let n := JS.length data in
  Affine.sumXX s * Affine.a m0 + Affine.sumXY s * Affine.b m0
    + Affine.sumX s * Affine.tx m0 = Affine.sumXDstX s
  /\ Affine.sumXY s * Affine.a m0 + Affine.sumYY s * Affine.b m0
     + Affine.sumY s * Affine.tx m0 = Affine.sumYDstX s
  /\ Affine.sumX s * Affine.a m0 + Affine.sumY s * Affine.b m0
     + n * Affine.tx m0 = Affine.sumDstX s
  /\ Affine.sumXX s * Affine.c m0 + Affine.sumXY s * Affine.d m0
     + Affine.sumX s * Affine.ty m0 = Affine.sumXDstY s
  /\ Affine.sumXY s * Affine.c m0 + Affine.sumYY s * Affine.d m0
     + Affine.sumY s * Affine.ty m0 = Affine.sumYDstY s
  /\ Affine.sumX s * Affine.c m0 + Affine.sumY s * Affine.d m0
     + n * Affine.ty m0 = Affine.sumDstY s.
Proof.
  intros Hex. cbv zeta. rewrite affine_sums_spec.
  cbn [Affine.sumX Affine.sumY Affine.sumXX Affine.sumYY Affine.sumXY
       Affine.sumDstX Affine.sumDstY Affine.sumXDstX Affine.sumYDstX
       Affine.sumXDstY Affine.sumYDstY].
  unfold JS.length.
  induction data as [|p l IH].
  - simpl. repeat split; lra.
  - assert (Hl : LeastSquares.exactOn m0 l).
    { intros q Hq. apply Hex. right. exact Hq. }
    destruct (IH Hl) as (E1 & E2 & E3 & E4 & E5 & E6).
    destruct (Hex p (or_introl eq_refl)) as [Hx Hy].
    unfold LeastSquares.residualX in Hx.
    unfold LeastSquares.residualY in Hy.
    assert (Dx : Affine.dstX p = Affine.a m0 * Affine.srcX p
                 + Affine.b m0 * Affine.srcY p + Affine.tx m0) by lra.
    assert (Dy : Affine.dstY p = Affine.c m0 * Affine.srcX p
                 + Affine.d m0 * Affine.srcY p + Affine.ty m0) by lra.
    cbn [map Spec.sum fold_right length].
    change (fold_right Rplus 0) with Spec.sum in *.
    rewrite S_INR, Dx, Dy.
    rewrite <- E1, <- E2, <- E3, <- E4, <- E5, <- E6.
    repeat split; ring.
Qed.

Lemma exactOn_recovered (m0 : Affine.CalibrationMatrix)
    (data : list Affine.Datum) :
  LeastSquares.exactOn m0 data ->
  Affine.detA (Affine.sums data) (JS.length data) <> 0 ->
  Affine.solve (Affine.sums data) (JS.length data) = m0.
Proof.
  intros Hex Hdet.
  destruct (exactOn_normal_equations m0 data Hex)
    as (E1 & E2 & E3 & E4 & E5 & E6).
  apply cramer_unique; assumption.
Qed.

Lemma goodPoints_idempotent (points : list CalibrationPoint.t) :
  Affine.goodPoints (Affine.goodPoints points) = Affine.goodPoints points.
Proof.
  unfold Affine.goodPoints. induction points as [|p l IH]; [reflexivity|].
  simpl. destruct (Affine.isGood p) eqn:E; [|exact IH].
  simpl. rewrite E, IH. reflexivity.
Qed.

(** The example inputs. *)
Lemma corners_data_sums :
  Affine.sums (AffineFit.data MoreExamples.corners) =
  {| Affine.sumX := 0; Affine.sumY := 0;
     Affine.sumXX := 0.36; Affine.sumYY := 0.36;
     Affine.sumXY := 0;
     Affine.sumDstX := 3840; Affine.sumDstY := 2160;
     Affine.sumXDstX := 1152; Affine.sumYDstX := 0;
     Affine.sumXDstY := 0; Affine.sumYDstY := 648 |}.
Proof.
  unfold AffineFit.data, Affine.sums. cbn.
  unfold Affine.addSums, Affine.datum, Examples.sample. cbn.
  f_equal; lra.
Qed.

Lemma corners_data_det :
  Affine.detA (Affine.sums (AffineFit.data MoreExamples.corners))
              (JS.length (AffineFit.data MoreExamples.corners)) = 0.5184.
Proof.
  rewrite corners_data_sums.
  replace (JS.length (AffineFit.data MoreExamples.corners)) with 4
    by (cbn; lra).
  unfold Affine.detA. cbn. lra.
Qed.

Lemma corners_fitted :
  AffineFit.fitted MoreExamples.corners =
  {| Affine.a := 3200; Affine.b := 0; Affine.c := 0;
     Affine.d := 1800; Affine.tx := 960; Affine.ty := 540 |}.
Proof.
  unfold AffineFit.fitted, Affine.solve. rewrite corners_data_det.
  rewrite corners_data_sums.
  replace (JS.length (AffineFit.data MoreExamples.corners)) with 4
    by (cbn; lra).
  cbn. f_equal; lra.
Qed.

Lemma corners_scalesInRange :
  AffineFit.scalesInRange Examples.viewport
    {| Affine.a := 3200; Affine.b := 0; Affine.c := 0;
       Affine.d := 1800; Affine.tx := 960; Affine.ty := 540 |}.
Proof.
  unfold AffineFit.scalesInRange, Affine.effectiveScaleX,
    Affine.primaryScaleY, Affine.MAX_SCALE, Affine.MIN_SCALE,
    Affine.expectedScale, JS.sqrt, JS.abs.
  cbn [Affine.a Affine.c Affine.d Window.innerWidth Examples.viewport].
  replace (3200 * 3200 + 0 * 0) with (3200 * 3200) by lra.
  rewrite sqrt_square by lra. rewrite Rabs_pos_eq by lra. lra.
Qed.

Lemma corners_accepted :
  AffineFit.accepted Examples.viewport MoreExamples.corners.
Proof.
  split; [cbn; lia|]. split.
  - rewrite corners_data_det, Rabs_pos_eq by lra. lra.
  - rewrite corners_fitted. exact corners_scalesInRange.
Qed.

Lemma corners_exact :
  LeastSquares.exactOn
    {| Affine.a := 3200; Affine.b := 0; Affine.c := 0;
       Affine.d := 1800; Affine.tx := 960; Affine.ty := 540 |}
    (AffineFit.data MoreExamples.corners).
Proof.
  intros p Hp. cbn in Hp.
  unfold LeastSquares.residualX, LeastSquares.residualY.
  destruct Hp as [<- | [<- | [<- | [<- | []]]]]; cbn; split; lra.
Qed.

Lemma scattered_not_good :
  Affine.isGood OutlierExamples.scattered = false.
Proof.
  unfold Affine.isGood, OutlierExamples.scattered, Affine.MAX_STDDEV.
  cbn [CalibrationPoint.stdDev].
  rewrite (strict_neq_true 80 0) by lra.
  rewrite (proj2 (lt_false 80 50)) by lra. reflexivity.
Qed.

Lemma corners_all_good :
  Affine.goodPoints MoreExamples.corners = MoreExamples.corners.
Proof. reflexivity. Qed.

Lemma withOutlier_good :
  Affine.goodPoints OutlierExamples.withOutlier = MoreExamples.corners.
Proof.
  unfold OutlierExamples.withOutlier, Affine.goodPoints.
  cbn [filter]. rewrite scattered_not_good. exact corners_all_good.
Qed.

(** X3.  Whenever the affine [applyCalibration] keeps its fit (at least
    four samples pass the [stdDev] filter, the determinant is at least
    1e-10 in absolute value and both fitted scales are in range), the
    matrix it installs has the least sum of squared errors over the
    filtered samples among all affine matrices, for the X row and for
    the Y row, and the tracker is marked calibrated. *)
Theorem affine_calibration_least_squares (w : Window.t)
    (t : Affine.MediaPipeTracker) (points : list CalibrationPoint.t) :
  points <> [] ->
  AffineFit.accepted w points ->
  let t' := Affine.applyCalibration w t points in
  let data := map Affine.datum (Affine.goodPoints points) in
  Affine.isCalibrated t' = true
  /\ forall m' : Affine.CalibrationMatrix,
       LeastSquares.squaredErrorX (Affine.calibrationMatrix t') data
       <= LeastSquares.squaredErrorX m' data
       /\ LeastSquares.squaredErrorY (Affine.calibrationMatrix t') data
          <= LeastSquares.squaredErrorY m' data.
Proof.
  intros Hne Hacc t' data. subst t'.
  rewrite (affine_applyCalibration_accepted w t points Hne Hacc).
  cbn [Affine.isCalibrated Affine.calibrationMatrix].
  split; [reflexivity|]. intros m'.
  apply (solve_minimal (AffineFit.data points) m').
  exact (accepted_det_nonzero w points Hacc).
Qed.

Lemma affine_calibration_least_squares_witness :
  let w := Examples.viewport in
  let t' := Affine.applyCalibration w Affine.create MoreExamples.corners in
  let data := map Affine.datum (Affine.goodPoints MoreExamples.corners) in
  (MoreExamples.corners <> [] /\ AffineFit.accepted w MoreExamples.corners)
  /\ Affine.isCalibrated t' = true
  /\ forall m' : Affine.CalibrationMatrix,
       LeastSquares.squaredErrorX (Affine.calibrationMatrix t') data
       <= LeastSquares.squaredErrorX m' data
       /\ LeastSquares.squaredErrorY (Affine.calibrationMatrix t') data
          <= LeastSquares.squaredErrorY m' data.
Proof.
  intros w t' data.
  assert (H1 : MoreExamples.corners <> []) by discriminate.
  split; [split; [exact H1 | exact corners_accepted]|].
  exact (affine_calibration_least_squares w Affine.create
           MoreExamples.corners H1 corners_accepted).
Defined.

(** X4.  Round trip of the affine calibration: when the filtered samples
    are explained without error by an affine matrix [m0] whose scales
    are in range, at least four of them passed the filter and the
    determinant is at least 1e-10 in absolute value, [applyCalibration]
    installs [m0] (exactly so in the real-number model), and the
    calibrated tracker then maps the normalized gaze of every filtered
    sample to that sample's target (the clamp leaving a target that is
    on the screen of that moment as it is). *)
Theorem affine_calibration_round_trip (w : Window.t)
    (t : Affine.MediaPipeTracker) (points : list CalibrationPoint.t)
    (m0 : Affine.CalibrationMatrix) :
  points <> [] ->
  (4 <= length (Affine.goodPoints points))%nat ->
  1e-10 <= Rabs (Affine.detA (Affine.sums (AffineFit.data points))
                             (JS.length (AffineFit.data points))) ->
  LeastSquares.exactOn m0 (AffineFit.data points) ->
  AffineFit.scalesInRange w m0 ->
  let t' := Affine.applyCalibration w t points in
  t' = {| Affine.calibrationMatrix := m0; Affine.isCalibrated := true |}
  /\ forall p, In p (Affine.goodPoints points) ->
       let nx := Affine.srcX (Affine.datum p) in
       let ny := Affine.srcY (Affine.datum p) in
       Affine.transform m0 nx ny = CalibrationPoint.actual p
       /\ (0 <= Point2D.x (CalibrationPoint.actual p) <= Window.innerWidth w ->
           0 <= Point2D.y (CalibrationPoint.actual p) <= Window.innerHeight w ->
           Affine.gazePoint w t' nx ny = CalibrationPoint.actual p).
Proof.
  intros Hne Hlen Hdet Hex Hrange t'.
  assert (Hnz : Affine.detA (Affine.sums (AffineFit.data points))
                            (JS.length (AffineFit.data points)) <> 0).
  { intros E. rewrite E, Rabs_R0 in Hdet. lra. }
  assert (Hfit : AffineFit.fitted points = m0).
  { apply exactOn_recovered; assumption. }
  assert (Hacc : AffineFit.accepted w points).
  { split; [exact Hlen|]. split; [exact Hdet|]. rewrite Hfit. exact Hrange. }
  assert (Ht : t' = {| Affine.calibrationMatrix := m0;
                       Affine.isCalibrated := true |}).
  { subst t'. rewrite (affine_applyCalibration_accepted w t points Hne Hacc).
    rewrite Hfit. reflexivity. }
  split; [exact Ht|].
  intros p Hp nx ny.
  assert (Hin : In (Affine.datum p) (AffineFit.data points)).
  { unfold AffineFit.data. apply in_map. exact Hp. }
  destruct (Hex _ Hin) as [Hx Hy].
  unfold LeastSquares.residualX in Hx. unfold LeastSquares.residualY in Hy.
  assert (Htr : Affine.transform m0 nx ny = CalibrationPoint.actual p).
  { unfold Affine.transform. subst nx ny.
    destruct (CalibrationPoint.actual p) as [ax ay] eqn:Ea.
    unfold Affine.datum in *. cbn [Affine.srcX Affine.srcY Affine.dstX
      Affine.dstY] in *. rewrite Ea in Hx, Hy. cbn [Point2D.x Point2D.y] in *.
    f_equal; lra. }
  split; [exact Htr|].
  intros Bx By. rewrite Ht. unfold Affine.gazePoint.
  cbn [Affine.isCalibrated Affine.calibrationMatrix negb].
  rewrite Htr.
  destruct (CalibrationPoint.actual p) as [ax ay].
  cbn [Point2D.x Point2D.y] in *. unfold JS.max, JS.min.
  rewrite (Rmin_right _ ax) by lra. rewrite (Rmin_right _ ay) by lra.
  rewrite !Rmax_right by lra. reflexivity.
Qed.

Lemma affine_calibration_round_trip_witness :
  let w := Examples.viewport in
  let m0 := {| Affine.a := 3200; Affine.b := 0; Affine.c := 0;
               Affine.d := 1800; Affine.tx := 960; Affine.ty := 540 |} in
  let t' := Affine.applyCalibration w Affine.create MoreExamples.corners in
  (MoreExamples.corners <> []
   /\ (4 <= length (Affine.goodPoints MoreExamples.corners))%nat
   /\ 1e-10 <= Rabs (Affine.detA
                       (Affine.sums (AffineFit.data MoreExamples.corners))
                       (JS.length (AffineFit.data MoreExamples.corners)))
   /\ LeastSquares.exactOn m0 (AffineFit.data MoreExamples.corners)
   /\ AffineFit.scalesInRange w m0)
  /\ t' = {| Affine.calibrationMatrix := m0; Affine.isCalibrated := true |}
  /\ Affine.gazePoint w t' 0.3 (-0.3) = Point2D.mk 1920 0.
Proof.
  intros w m0 t'.
  assert (H1 : MoreExamples.corners <> []) by discriminate.
  assert (H2 : (4 <= length (Affine.goodPoints MoreExamples.corners))%nat)
    by (cbn; lia).
  assert (H3 : 1e-10 <= Rabs (Affine.detA
                       (Affine.sums (AffineFit.data MoreExamples.corners))
                       (JS.length (AffineFit.data MoreExamples.corners)))).
  { rewrite corners_data_det, Rabs_pos_eq by lra. lra. }
  pose proof (affine_calibration_round_trip w Affine.create
                MoreExamples.corners m0 H1 H2 H3 corners_exact
                corners_scalesInRange) as [Ht Hp].
  split;
    [exact (conj H1 (conj H2 (conj H3 (conj corners_exact
                                            corners_scalesInRange))))|].
  split; [exact Ht|].
  assert (Hin : In (Examples.sample 1920 0 0 0 0.3 (-0.3))
                   (Affine.goodPoints MoreExamples.corners)).
  { cbn. right; left; reflexivity. }
  destruct (Hp _ Hin) as [_ Hg].
  apply Hg; cbn; lra.
Defined.

(** X5.  Samples that fail the [stdDev] filter have no influence on the
    affine calibration: as long as one sample passes the filter, calling
    [applyCalibration] with all samples gives the same tracker as
    calling it with the passing samples alone. *)
Theorem affine_calibration_ignores_scattered (w : Window.t)
    (t : Affine.MediaPipeTracker) (points : list CalibrationPoint.t) :
  Affine.goodPoints points <> [] ->
  Affine.applyCalibration w t points
  = Affine.applyCalibration w t (Affine.goodPoints points).
Proof.
  intros Hgood.
  assert (Hne : points <> []) by (intros ->; apply Hgood; reflexivity).
  destruct points as [|p0 ps]; [congruence|].
  destruct (Affine.goodPoints (p0 :: ps)) as [|g0 gs] eqn:Eg; [congruence|].
  unfold Affine.applyCalibration.
  rewrite <- Eg, goodPoints_idempotent. reflexivity.
Qed.

Lemma affine_calibration_ignores_scattered_witness :
  let w := Examples.viewport in
  Affine.goodPoints OutlierExamples.withOutlier <> []
  /\ Affine.applyCalibration w Affine.create OutlierExamples.withOutlier
     = Affine.applyCalibration w Affine.create MoreExamples.corners.
Proof.
  intros w.
  assert (H : Affine.goodPoints OutlierExamples.withOutlier <> []).
  { rewrite withOutlier_good. discriminate. }
  split; [exact H|].
  rewrite (affine_calibration_ignores_scattered w Affine.create
             OutlierExamples.withOutlier H).
  rewrite withOutlier_good. reflexivity.
Defined.

(* ================================================================== *)
(** ** Whole sessions of the linear tracker *)
(* ================================================================== *)

Section LinearSession.
Import Linear.
Variable w : Window.t.

(** [applyCalibration] writes the matrix and nothing else. *)
Lemma applyCalibration_frame (t : MediaPipeTracker)
    (points : list CalibrationPoint.t) :
  let t' := JS.value (applyCalibration w t points) in
  config t' = config t /\ isRunning t' = isRunning t
  /\ gazeHistory t' = gazeHistory t
  /\ eyeHeightHistory t' = eyeHeightHistory t
  /\ stableEyeHeight t' = stableEyeHeight t
  /\ frameCounter t' = frameCounter t.
Proof.
  destruct points as [|p ps].
  - cbn. repeat split.
  - cbv zeta. rewrite applyCalibration_value by discriminate.
    cbn. repeat split.
Qed.

(** An invariant of the tracker that every kind of step preserves holds
    after every sequence of events. *)

Lemma updateEyeHeight_buffer (hist : list R) (h : R) :
  fst (updateEyeHeight hist h) =
  if (15 <? length (hist ++ [h]))%nat then tl (hist ++ [h]) else hist ++ [h].
Proof. reflexivity. Qed.

Lemma updateEyeHeight_length (hist : list R) (h : R) :
  (length hist <= EYE_HEIGHT_WINDOW)%nat ->
  length (fst (updateEyeHeight hist h))
  = Nat.min EYE_HEIGHT_WINDOW (S (length hist)).
Proof.
  unfold EYE_HEIGHT_WINDOW. intros Hlen. rewrite updateEyeHeight_buffer.
  assert (Hl : length (hist ++ [h]) = S (length hist)).
  { rewrite length_app. simpl. lia. }
  destruct (Nat.ltb_spec 15 (length (hist ++ [h]))) as [Hlt|Hge].
  - destruct (hist ++ [h]) as [|a l]; cbn [length tl] in *; lia.
  - lia.
Qed.

Lemma smooth_length (hist : list Point2D.t) (p : Point2D.t) :
  (length hist <= SMOOTHING_WINDOW_X)%nat ->
  length (fst (smooth hist p)) = Nat.min SMOOTHING_WINDOW_X (S (length hist)).
Proof.
  unfold SMOOTHING_WINDOW_X. intros Hlen. rewrite smooth_buffer.
  assert (Hl : length (hist ++ [p]) = S (length hist)).
  { rewrite length_app. simpl. lia. }
  destruct (Nat.ltb_spec 8 (length (hist ++ [p]))) as [Hlt|Hge].
  - destruct (hist ++ [p]) as [|a l]; cbn [length tl] in *; lia.
  - lia.
Qed.

Lemma updateEyeHeight_stable (hist : list R) (h : R) :
  snd (updateEyeHeight hist h) = Spec.mean (fst (updateEyeHeight hist h)).
Proof.
  unfold updateEyeHeight. cbn [fst snd].
  rewrite reduce_sum_spec, map_id. reflexivity.
Qed.

Lemma updateEyeHeight_nonempty (hist : list R) (h : R) :
  fst (updateEyeHeight hist h) <> [].
Proof.
  rewrite updateEyeHeight_buffer.
  destruct (Nat.ltb_spec 15 (length (hist ++ [h]))) as [Hlt|Hge].
  - destruct (hist ++ [h]) as [|a [|b l]]; cbn [length tl] in *;
      try lia; discriminate.
  - destruct hist; discriminate.
Qed.

Lemma updateEyeHeight_Forall (P : R -> Prop) (hist : list R) (h : R) :
  Forall P hist -> P h -> Forall P (fst (updateEyeHeight hist h)).
Proof.
  intros Hh Hp. rewrite updateEyeHeight_buffer.
  assert (Hall : Forall P (hist ++ [h])).
  { apply Forall_app. split; [exact Hh | constructor; [exact Hp | constructor]]. }
  destruct (15 <? _)%nat; [|exact Hall].
  destruct (hist ++ [h]) as [|a l]; [constructor|].
  inversion Hall; assumption.
Qed.

Lemma currentEyeHeight_nonneg (lm : list Point2D.t) :
  0 <= currentEyeHeight lm.
Proof.
  unfold currentEyeHeight, leftEyeHeight, rightEyeHeight, JS.abs.
  pose proof (Rabs_pos (Point2D.y (landmark lm 145) - Point2D.y (landmark lm 159))).
  pose proof (Rabs_pos (Point2D.y (landmark lm 374) - Point2D.y (landmark lm 386))).
  lra.
Qed.

Lemma step_buffers_bounded (t : MediaPipeTracker) (e : Session.Event) :
  (length (gazeHistory t) <= SMOOTHING_WINDOW_X)%nat
  /\ (length (eyeHeightHistory t) <= EYE_HEIGHT_WINDOW)%nat ->
  (length (gazeHistory (fst (Session.step w t e))) <= SMOOTHING_WINDOW_X)%nat
  /\ (length (eyeHeightHistory (fst (Session.step w t e)))
      <= EYE_HEIGHT_WINDOW)%nat.
Proof.
  intros [Hg He]. destruct e as [now data | points | | ].
  - cbn [Session.step].
    destruct (handleGazeData_cases w now t data)
      as [-> | (lm & li & ri & Hrun & Hwf & Hb)].
    + cbn. split; assumption.
    + rewrite (handleGazeData_open w now t data lm li ri Hrun Hwf Hb).
      cbn [fst gazeHistory eyeHeightHistory].
      rewrite smooth_length, updateEyeHeight_length by assumption. lia.
  - cbn [Session.step fst].
    destruct (applyCalibration_frame t points) as (_ & _ & -> & -> & _).
    split; assumption.
  - cbn. split; assumption.
  - cbn. split; assumption.
Qed.

Lemma step_eyeHeightConsistent (t : MediaPipeTracker) (e : Session.Event) :
  SessionSpec.eyeHeightConsistent t ->
  SessionSpec.eyeHeightConsistent (fst (Session.step w t e)).
Proof.
  intros (Hpos & Hnil & Hmean). destruct e as [now data | points | | ].
  - cbn [Session.step].
    destruct (handleGazeData_cases w now t data)
      as [-> | (lm & li & ri & Hrun & Hwf & Hb)].
    + split; [|split]; assumption.
    + rewrite (handleGazeData_open w now t data lm li ri Hrun Hwf Hb).
      unfold SessionSpec.eyeHeightConsistent.
      cbn [fst eyeHeightHistory stableEyeHeight].
      split; [|split].
      * apply updateEyeHeight_Forall;
          [exact Hpos | apply currentEyeHeight_nonneg].
      * intros E. exfalso. exact (updateEyeHeight_nonempty _ _ E).
      * intros _. apply updateEyeHeight_stable.
  - cbn [Session.step fst]. unfold SessionSpec.eyeHeightConsistent.
    destruct (applyCalibration_frame t points) as (_ & _ & _ & -> & -> & _).
    split; [|split]; assumption.
  - split; [|split]; assumption.
  - split; [|split]; assumption.
Qed.


(** While the tracker is not running, a step hands out nothing and
    keeps the buffers, unless it is a start. *)
Lemma step_stopped (t : MediaPipeTracker) (e : Session.Event) :
  isRunning t = false ->
  SessionSpec.isStart e = false ->
  snd (Session.step w t e) = []
  /\ gazeHistory (fst (Session.step w t e)) = gazeHistory t
  /\ eyeHeightHistory (fst (Session.step w t e)) = eyeHeightHistory t
  /\ stableEyeHeight (fst (Session.step w t e)) = stableEyeHeight t
  /\ isRunning (fst (Session.step w t e)) = false.
Proof.
  intros Hrun He.
  destruct e as [now data | points | | ].
  - cbn [Session.step].
    rewrite handleGazeData_dropped by (left; exact Hrun).
    cbn. repeat split. exact Hrun.
  - cbn [Session.step fst snd].
    destruct (applyCalibration_frame t points)
      as (_ & -> & -> & -> & -> & _).
    repeat split. exact Hrun.
  - discriminate.
  - cbn. repeat split.
Qed.
End LinearSession.

(** An invariant of the tracker that every kind of step preserves, on
    every viewport, holds after every sequence of calls. *)
Lemma play_invariant (P : Linear.MediaPipeTracker -> Prop) :
  (forall w t e, P t -> P (fst (Session.step w t e))) ->
  forall calls t, P t -> P (fst (Session.play t calls)).
Proof.
  intros Hstep calls.
  induction calls as [|[w e] calls IH]; intros t Ht; [exact Ht|].
  cbn [Session.play]. specialize (Hstep w t e Ht).
  destruct (Session.step w t e) as [t1 out1]. cbn [fst] in Hstep.
  specialize (IH t1 Hstep).
  destruct (Session.play t1 calls) as [t2 out2]. exact IH.
Qed.


(** While the tracker is not running, frames go nowhere. *)
Lemma play_stopped (calls : list (Window.t * Session.Event)) :
  forall t : Linear.MediaPipeTracker,
    Linear.isRunning t = false ->
    forallb (fun c => negb (SessionSpec.isStart (snd c))) calls = true ->
    snd (Session.play t calls) = []
    /\ Linear.gazeHistory (fst (Session.play t calls)) = Linear.gazeHistory t
    /\ Linear.eyeHeightHistory (fst (Session.play t calls))
       = Linear.eyeHeightHistory t
    /\ Linear.stableEyeHeight (fst (Session.play t calls))
       = Linear.stableEyeHeight t
    /\ Linear.isRunning (fst (Session.play t calls)) = false.
Proof.
  induction calls as [|[w e] calls IH]; intros t Hrun Hno.
  - cbn. repeat split. exact Hrun.
  - cbn [forallb snd] in Hno. apply andb_true_iff in Hno as [He Hes].
    apply negb_true_iff in He.
    cbn [Session.play].
    pose proof (step_stopped w t e Hrun He) as Hstep.
    destruct (Session.step w t e) as [t1 out1]. cbn [fst snd] in Hstep.
    destruct Hstep as (-> & G1 & E1 & S1 & R1).
    destruct (IH t1 R1 Hes) as (O2 & G2 & E2 & S2 & R2).
    destruct (Session.play t1 calls) as [t2 out2]. cbn [fst snd] in *.
    subst out2. repeat split; congruence.
Qed.


(** X6.  The two history buffers of the linear tracker stay bounded:
    from a tracker whose smoothing buffer holds at most 8 points and
    whose eye-height history holds at most 15 values (a new tracker's
    are empty), every sequence of frames, calibrations, starts and
    stops, on whatever viewport each call finds, leaves at most 8
    points and at most 15 values. *)
Theorem session_buffers_bounded (t : Linear.MediaPipeTracker)
    (calls : list (Window.t * Session.Event)) :
  (length (Linear.gazeHistory t) <= 8)%nat ->
  (length (Linear.eyeHeightHistory t) <= 15)%nat ->
  (length (Linear.gazeHistory (fst (Session.play t calls))) <= 8)%nat
  /\ (length (Linear.eyeHeightHistory (fst (Session.play t calls)))
      <= 15)%nat.
Proof.
  intros Hg He.
  apply (play_invariant
           (fun t => (length (Linear.gazeHistory t)
                      <= Linear.SMOOTHING_WINDOW_X)%nat
                     /\ (length (Linear.eyeHeightHistory t)
                         <= Linear.EYE_HEIGHT_WINDOW)%nat)).
  - intros w t0 e. apply step_buffers_bounded.
  - split; assumption.
Qed.

Lemma session_buffers_bounded_witness :
  let t := Linear.create Examples.listening in
  let calls := (Examples.viewport, Session.Start)
               :: repeat (ResizeExamples.narrow,
                          Session.Frame 0 Examples.openFrame) 20 in
  ((length (Linear.gazeHistory t) <= 8)%nat
   /\ (length (Linear.eyeHeightHistory t) <= 15)%nat)
  /\ (length (Linear.gazeHistory (fst (Session.play t calls))) <= 8)%nat
  /\ (length (Linear.eyeHeightHistory (fst (Session.play t calls)))
      <= 15)%nat.
Proof.
  intros t calls.
  assert (H1 : (length (Linear.gazeHistory t) <= 8)%nat) by (cbn; lia).
  assert (H2 : (length (Linear.eyeHeightHistory t) <= 15)%nat) by (cbn; lia).
  split; [split; assumption|].
  exact (session_buffers_bounded t calls H1 H2).
Defined.

(** X7.  From a new linear tracker, after every sequence of calls:
    every value of the eye-height history is non-negative, and
    [stableEyeHeight] is still the initial 0.03 while the history is
    empty and the mean of the history otherwise (so it is never
    negative). *)
Theorem session_stable_eye_height (cfg : Linear.MediaPipeConfig)
    (calls : list (Window.t * Session.Event)) :
  let t := fst (Session.play (Linear.create cfg) calls) in
  Forall (fun h => 0 <= h) (Linear.eyeHeightHistory t)
  /\ (Linear.eyeHeightHistory t = [] -> Linear.stableEyeHeight t = 0.03)
  /\ (Linear.eyeHeightHistory t <> [] ->
      Linear.stableEyeHeight t = Spec.mean (Linear.eyeHeightHistory t))
  /\ 0 <= Linear.stableEyeHeight t.
Proof.
  intros t.
  assert (H : SessionSpec.eyeHeightConsistent t).
  { subst t. apply play_invariant.
    - intros w t0 e. apply step_eyeHeightConsistent.
    - split; [constructor|]. split; [reflexivity|]. intros E. now elim E. }
  destruct H as (Hpos & Hnil & Hmean).
  split; [exact Hpos|]. split; [exact Hnil|]. split; [exact Hmean|].
  destruct (Linear.eyeHeightHistory t) as [|h l] eqn:E.
  - rewrite Hnil by reflexivity. lra.
  - rewrite Hmean by discriminate.
    apply (mean_bounds 0 (Spec.sum (h :: l) + 1)); [discriminate|].
    clear -Hpos.
    assert (G : forall l0 : list R, Forall (fun v => 0 <= v) l0 ->
              Forall (fun v => 0 <= v <= Spec.sum l0 + 1) l0).
    { induction 1 as [|v l0 Hv Hl IH]; [constructor|].
      pose proof (sum_bounds 0 (Spec.sum l0 + 1) l0 IH) as [Hs _].
      constructor.
      - cbn [Spec.sum fold_right]. fold (Spec.sum l0). lra.
      - eapply Forall_impl; [|exact IH]. cbn beta. intros a Ha.
        cbn [Spec.sum fold_right]. fold (Spec.sum l0). lra. }
    apply G. exact Hpos.
Qed.


(** X9.  A tracker that is not running (never started, or stopped) and
    is not started by the calls hands out nothing: no GazePoint is
    emitted, and the smoothing buffer, the eye-height history and
    [stableEyeHeight] are the ones from before, whatever frames and
    calibrations arrive; [stop()] itself keeps the buffers. *)
Theorem session_stopped_is_silent (t : Linear.MediaPipeTracker)
    (calls : list (Window.t * Session.Event)) :
  forallb (fun c => negb (SessionSpec.isStart (snd c))) calls = true ->
  let r := Session.play (Linear.stop t) calls in
  snd r = []
  /\ Linear.gazeHistory (fst r) = Linear.gazeHistory t
  /\ Linear.eyeHeightHistory (fst r) = Linear.eyeHeightHistory t
  /\ Linear.stableEyeHeight (fst r) = Linear.stableEyeHeight t
  /\ Linear.isRunning (fst r) = false.
Proof.
  intros Hno r. subst r.
  exact (play_stopped calls (Linear.stop t) eq_refl Hno).
Qed.

Lemma session_stopped_is_silent_witness :
  let t := Linear.start (Linear.create Examples.listening) in
  let calls := [ (Examples.viewport, Session.Frame 0 Examples.openFrame);
                 (Examples.viewport, Session.Calibrate Examples.twoSamples);
                 (ResizeExamples.narrow, Session.Frame 1 Examples.openFrame);
                 (ResizeExamples.narrow, Session.Stop) ] in
  forallb (fun c => negb (SessionSpec.isStart (snd c))) calls = true
  /\ snd (Session.play (Linear.stop t) calls) = [].
Proof.
  intros t calls.
  assert (H : forallb (fun c => negb (SessionSpec.isStart (snd c))) calls
              = true)
    by reflexivity.
  split; [exact H|].
  exact (proj1 (session_stopped_is_silent t calls H)).
Defined.

(* ================================================================== *)
(** ** More on the capture callback *)
(* ================================================================== *)

Lemma sorted_nth_le {A} (key : A -> R) (d : A) (l : list A) :
  StronglySorted (fun p q => key p <= key q) l ->
  forall i j, (i <= j < length l)%nat ->
              key (nth i l d) <= key (nth j l d).
Proof.
  induction 1 as [|a l Hs IH Ha]; intros i j Hij.
  - simpl in Hij. lia.
  - destruct i as [|i], j as [|j]; cbn [nth length] in *.
    + lra.
    + rewrite Forall_forall in Ha. apply Ha. apply nth_In. lia.
    + lia.
    + apply IH. lia.
Qed.

Lemma variance_nonneg (l : list R) : l <> [] -> 0 <= Spec.variance l.
Proof.
  intros Hne. unfold Spec.variance.
  set (m := Spec.mean l).
  assert (Hs : 0 <= Spec.sum (map (fun v => (v - m) * (v - m)) l)).
  { apply (sum_squares_nonneg (fun v => v - m)). }
  unfold Spec.mean. rewrite length_map.
  assert (Hn : 0 < INR (length l)).
  { apply lt_0_INR. destruct l; [congruence | simpl; lia]. }
  apply Rmult_le_pos; [exact Hs|]. left. apply Rinv_0_lt_compat. exact Hn.
Qed.

Lemma variance_le_range (lo hi : R) (l : list R) :
  l <> [] -> Forall (fun v => lo <= v <= hi) l ->
  Spec.variance l <= (hi - lo) * (hi - lo).
Proof.
  intros Hne Hall. pose proof (mean_bounds lo hi l Hne Hall) as Hm.
  unfold Spec.variance. set (m := Spec.mean l) in *.
  apply (mean_bounds 0 ((hi - lo) * (hi - lo))).
  - destruct l; [congruence | discriminate].
  - rewrite Forall_map. eapply Forall_impl; [|exact Hall].
    cbn beta. intros v Hv.
    pose proof (Rle_0_sqr (v - m)) as Hsq. unfold Rsqr in Hsq.
    assert (Hp : 0 <= (hi - lo - (v - m)) * (hi - lo + (v - m)))
      by (apply Rmult_le_pos; lra).
    split; [exact Hsq | nra].
Qed.

Section MoreCaptureFacts.
Variable store : Capture.Store.

Lemma trimmedSamples_incl (samples : list nat) (g : nat) :
  In g (Capture.trimmedSamples store samples) -> In g samples.
Proof. unfold Capture.trimmedSamples. rewrite filter_In. tauto. Qed.

Lemma validSamples_incl (samples : list nat) (g : nat) :
  In g (Capture.validSamples store samples) -> In g samples.
Proof.
  unfold Capture.validSamples.
  destruct (10 <=? _)%nat; [apply trimmedSamples_incl | tauto].
Qed.

Lemma validSamples_nonempty (samples : list nat) :
  length samples = 50%nat -> Capture.validSamples store samples <> [].
Proof.
  intros Hlen E. pose proof (validSamples_length store samples Hlen) as H.
  rewrite E in H. simpl in H. lia.
Qed.

(** A sample that survives the trimming lies, on an axis, between the
    values at positions 5 and 44 of that axis's order. *)
Lemma trimmed_between (key : nat -> R) (samples : list nat) (g : nat) :
  length samples = 50%nat ->
  In g samples ->
  (5 <= JS.indexOf (JS.sort_by key samples) g < 45)%Z ->
  key (nth 5 (JS.sort_by key samples) 0%nat) <= key g
  <= key (nth 44 (JS.sort_by key samples) 0%nat).
Proof.
  intros Hlen Hin Hr.
  destruct (rank_first_position key samples g Hin) as (k & E & Hk & Hn & _).
  rewrite E in Hr.
  assert (Hl : length (JS.sort_by key samples) = 50%nat).
  { rewrite (Permutation_length (sort_by_perm key samples)). exact Hlen. }
  pose proof (sort_by_sorted key samples) as Hs.
  pose proof (sorted_nth_le key 0%nat _ Hs 5 k) as Hlo.
  pose proof (sorted_nth_le key 0%nat _ Hs k 44) as Hhi.
  rewrite Hn in Hlo, Hhi. split; [apply Hlo | apply Hhi]; lia.
Qed.

Lemma summarize_measured (targetPoint : Point2D.t) (samples : list nat) :
  let valid := Capture.validSamples store samples in
  let emitted := fst (Capture.summarize store targetPoint samples) in
  Measured.x (CalibrationPoint.measured emitted)
  = Spec.mean (map (Capture.xOf store) valid)
  /\ Measured.y (CalibrationPoint.measured emitted)
     = Spec.mean (map (Capture.yOf store) valid)
  /\ CalibrationPoint.stdDev emitted
     = Some (sqrt (Spec.variance (map (Capture.xOf store) valid)
                   + Spec.variance (map (Capture.yOf store) valid)))
  /\ snd (Capture.summarize store targetPoint samples)
     = Point2D.mk (Measured.x (CalibrationPoint.measured emitted))
                  (Measured.y (CalibrationPoint.measured emitted)).
Proof.
  cbv zeta. unfold Capture.summarize.
  cbn [fst snd CalibrationPoint.measured CalibrationPoint.stdDev
       Measured.x Measured.y].
  rewrite !variance_as_computed, !mean_as_computed.
  repeat split.
Qed.
End MoreCaptureFacts.

Lemma collect_readings (store : Capture.Store) (targetPoint : Point2D.t)
    (gazes : list (option nat)) :
  forall samples : list nat,
    (length samples < 50)%nat ->
    CaptureRun.collect store targetPoint gazes samples
    = if (50 <=? length (samples ++ CaptureRun.readings gazes))%nat
      then Some (Capture.summarize store targetPoint
                   (firstn 50 (samples ++ CaptureRun.readings gazes)))
      else None.
Proof.
  induction gazes as [|[g|] rest IH]; intros samples Hlen.
  - cbn [CaptureRun.collect CaptureRun.readings]. rewrite app_nil_r.
    destruct (Nat.leb_spec 50 (length samples)); [lia | reflexivity].
  - cbn [CaptureRun.collect CaptureRun.readings].
    unfold Capture.tick, JS.push, Capture.sampleCount.
    assert (E : samples ++ g :: CaptureRun.readings rest
                = (samples ++ [g]) ++ CaptureRun.readings rest).
    { rewrite <- app_assoc. reflexivity. }
    destruct (Nat.leb_spec 50 (length (samples ++ [g]))) as [Hge|Hlt].
    + assert (Hl : length (samples ++ [g]) = 50%nat).
      { rewrite length_app in *. simpl in *. lia. }
      rewrite E.
      replace (50 <=? length ((samples ++ [g]) ++ CaptureRun.readings rest))%nat
        with true
        by (symmetry; apply Nat.leb_le; rewrite length_app; lia).
      replace (firstn 50 ((samples ++ [g]) ++ CaptureRun.readings rest))
        with (samples ++ [g]); [reflexivity|].
      rewrite <- Hl, firstn_app, Nat.sub_diag, firstn_all.
      cbn [firstn]. rewrite app_nil_r. reflexivity.
    + rewrite (IH (samples ++ [g]) Hlt), E. reflexivity.
  - cbn [CaptureRun.collect CaptureRun.readings].
    unfold Capture.tick, Capture.sampleCount.
    destruct (Nat.leb_spec 50 (length samples)); [lia|].
    apply IH. exact Hlen.
Qed.

(** X10.  The point a capture measures is an average of collected
    samples: on each axis it lies within any bounds that hold for all 50
    samples (so it is on screen when they are), it is the value the
    capture promise resolves to, and when at least 10 samples survive
    the trimming it lies between the values at positions 5 and 44 of
    that axis's ascending order, whatever the 5 lowest and 5 highest
    samples are. *)
Theorem capture_measured_bounds (store : Capture.Store)
    (targetPoint : Point2D.t) (samples : list nat) :
  length samples = 50%nat ->
  let emitted := fst (Capture.summarize store targetPoint samples) in
  let mx := Measured.x (CalibrationPoint.measured emitted) in
  let my := Measured.y (CalibrationPoint.measured emitted) in
  (forall lo hi, (forall g, In g samples -> lo <= Capture.xOf store g <= hi) ->
                 lo <= mx <= hi)
  /\ (forall lo hi, (forall g, In g samples -> lo <= Capture.yOf store g <= hi) ->
                    lo <= my <= hi)
  /\ snd (Capture.summarize store targetPoint samples) = Point2D.mk mx my
  /\ CalibrationPoint.actual emitted = targetPoint
  /\ ((10 <= length (Capture.trimmedSamples store samples))%nat ->
      Capture.xOf store (nth 5 (Capture.sortedX store samples) 0%nat) <= mx
      <= Capture.xOf store (nth 44 (Capture.sortedX store samples) 0%nat)
      /\ Capture.yOf store (nth 5 (Capture.sortedY store samples) 0%nat) <= my
         <= Capture.yOf store (nth 44 (Capture.sortedY store samples) 0%nat)).
Proof.
  intros Hlen emitted mx my.
  destruct (summarize_measured store targetPoint samples)
    as (Ex & Ey & _ & Er).
  fold emitted in Ex, Ey, Er. fold mx in Ex, Er. fold my in Ey, Er.
  pose proof (validSamples_nonempty store samples Hlen) as Hne.
  assert (Hmap : forall f : nat -> R,
            map f (Capture.validSamples store samples) <> []).
  { intros f E. apply Hne. destruct (Capture.validSamples store samples);
      [reflexivity | discriminate]. }
  split; [|split; [|split; [|split]]].
  - intros lo hi H. rewrite Ex. apply mean_bounds; [apply Hmap|].
    rewrite Forall_map, Forall_forall. intros g Hg. apply H.
    apply (validSamples_incl store). exact Hg.
  - intros lo hi H. rewrite Ey. apply mean_bounds; [apply Hmap|].
    rewrite Forall_map, Forall_forall. intros g Hg. apply H.
    apply (validSamples_incl store). exact Hg.
  - exact Er.
  - reflexivity.
  - intros Hten.
    assert (Hv : Capture.validSamples store samples
                 = Capture.trimmedSamples store samples).
    { unfold Capture.validSamples.
      destruct (Nat.leb_spec 10 (length (Capture.trimmedSamples store samples)));
        [reflexivity | lia]. }
    assert (Hk : forall g, In g (Capture.validSamples store samples) ->
              In g samples
              /\ (5 <= Capture.xRank store samples g < 45)%Z
              /\ (5 <= Capture.yRank store samples g < 45)%Z).
    { intros g Hg. rewrite Hv in Hg. unfold Capture.trimmedSamples in Hg.
      apply filter_In in Hg as [Hin Hkept].
      apply kept_spec in Hkept. tauto. }
    split.
    + rewrite Ex. apply mean_bounds; [apply Hmap|].
      rewrite Forall_map, Forall_forall. intros g Hg.
      destruct (Hk g Hg) as (Hin & Hx & _).
      apply (trimmed_between (Capture.xOf store) samples g Hlen Hin Hx).
    + rewrite Ey. apply mean_bounds; [apply Hmap|].
      rewrite Forall_map, Forall_forall. intros g Hg.
      destruct (Hk g Hg) as (Hin & _ & Hy).
      apply (trimmed_between (Capture.yOf store) samples g Hlen Hin Hy).
Qed.

Lemma capture_measured_bounds_witness :
  let store := CaptureExamples.store in
  let samples := CaptureExamples.samples in
  let emitted := fst (Capture.summarize store CaptureExamples.target samples) in
  (length samples = 50%nat
   /\ (10 <= length (Capture.trimmedSamples store samples))%nat)
  /\ Capture.xOf store (nth 5 (Capture.sortedX store samples) 0%nat)
     <= Measured.x (CalibrationPoint.measured emitted)
     <= Capture.xOf store (nth 44 (Capture.sortedX store samples) 0%nat).
Proof.
  intros store samples emitted.
  assert (H1 : length samples = 50%nat) by reflexivity.
  assert (H2 : (10 <= length (Capture.trimmedSamples store samples))%nat).
  { subst store samples. rewrite distinct_samples_trimmed, length_seq. lia. }
  split; [split; assumption|].
  destruct (capture_measured_bounds store CaptureExamples.target samples H1)
    as (_ & _ & _ & _ & H).
  exact (proj1 (H H2)).
Defined.

(** X11.  The [stdDev] of a captured sample is never negative and at
    most the diagonal of any box that holds the screen points of all
    averaged samples.  So a capture whose averaged samples lie in a box
    with a diagonal below 50 px passes the [stdDev] filter of the affine
    calibration, and so does a gaze that did not change during the
    capture (the same object pushed 50 times). *)
Theorem capture_stdDev_bounded (store : Capture.Store)
    (targetPoint : Point2D.t) (samples : list nat) :
  length samples = 50%nat ->
  let valid := Capture.validSamples store samples in
  let emitted := fst (Capture.summarize store targetPoint samples) in
  exists s,
    CalibrationPoint.stdDev emitted = Some s
    /\ 0 <= s
    /\ (forall loX hiX loY hiY,
          (forall g, In g valid ->
                     loX <= Capture.xOf store g <= hiX
                     /\ loY <= Capture.yOf store g <= hiY) ->
          let diagonal2 :=
            (hiX - loX) * (hiX - loX) + (hiY - loY) * (hiY - loY) in
          s <= sqrt diagonal2
          /\ (diagonal2 < 50 * 50 -> Affine.isGood emitted = true))
    /\ (forall g, samples = repeat g 50 -> Affine.isGood emitted = true).
Proof.
  intros Hlen valid emitted.
  destruct (summarize_measured store targetPoint samples)
    as (_ & _ & Es & _).
  fold emitted valid in Es.
  pose proof (validSamples_nonempty store samples Hlen) as Hne.
  fold valid in Hne.
  assert (Hmap : forall f : nat -> R, map f valid <> []).
  { intros f E. apply Hne. destruct valid; [reflexivity | discriminate]. }
  pose proof (variance_nonneg _ (Hmap (Capture.xOf store))) as Vx.
  pose proof (variance_nonneg _ (Hmap (Capture.yOf store))) as Vy.
  set (vx := Spec.variance (map (Capture.xOf store) valid)) in *.
  set (vy := Spec.variance (map (Capture.yOf store) valid)) in *.
  assert (Hbox : forall loX hiX loY hiY,
            (forall g, In g valid ->
                       loX <= Capture.xOf store g <= hiX
                       /\ loY <= Capture.yOf store g <= hiY) ->
            sqrt (vx + vy)
            <= sqrt ((hiX - loX) * (hiX - loX) + (hiY - loY) * (hiY - loY))
            /\ ((hiX - loX) * (hiX - loX) + (hiY - loY) * (hiY - loY)
                < 50 * 50 ->
                Affine.isGood emitted = true)).
  { intros loX hiX loY hiY Hin.
    assert (Bx : vx <= (hiX - loX) * (hiX - loX)).
    { apply variance_le_range; [apply Hmap|].
      rewrite Forall_map, Forall_forall. intros g Hg. apply (Hin g Hg). }
    assert (By : vy <= (hiY - loY) * (hiY - loY)).
    { apply variance_le_range; [apply Hmap|].
      rewrite Forall_map, Forall_forall. intros g Hg. apply (Hin g Hg). }
    assert (Hle : sqrt (vx + vy)
                  <= sqrt ((hiX - loX) * (hiX - loX)
                           + (hiY - loY) * (hiY - loY))).
    { apply sqrt_le_1_alt. lra. }
    split; [exact Hle|].
    intros Hd. apply isGood_spec. rewrite Es. right.
    assert (H50 : sqrt (50 * 50) = 50) by (apply sqrt_square; lra).
    rewrite <- H50. apply Rle_lt_trans with (1 := Hle).
    apply sqrt_lt_1_alt. split; [nra | exact Hd]. }
  exists (sqrt (vx + vy)). split; [exact Es|]. split; [apply sqrt_pos|].
  split; [exact Hbox|].
  intros g Hrep.
  apply (Hbox (Capture.xOf store g) (Capture.xOf store g)
              (Capture.yOf store g) (Capture.yOf store g)); [|lra].
  intros h Hh. apply (validSamples_incl store) in Hh.
  rewrite Hrep in Hh. apply repeat_spec in Hh. subst h. lra.
Qed.

Lemma capture_stdDev_bounded_witness :
  let store := CaptureExamples.store in
  let emitted := fst (Capture.summarize store CaptureExamples.target
                        MoreExamples.sameObject) in
  length MoreExamples.sameObject = 50%nat
  /\ Affine.isGood emitted = true.
Proof.
  intros store emitted.
  assert (H : length MoreExamples.sameObject = 50%nat) by reflexivity.
  split; [exact H|].
  destruct (capture_stdDev_bounded store CaptureExamples.target
              MoreExamples.sameObject H) as (s & _ & _ & _ & Hrep).
  exact (Hrep 7%nat eq_refl).
Defined.

(** X12.  A capture completes exactly when [currentGaze] held a gaze at
    50 ticks or more: ticks without a gaze add nothing, the sample is
    then computed from the first 50 readings (a reading that did not
    change between two ticks counted again), and with fewer than 50
    readings the promise is never resolved. *)
Theorem capture_completes_on_fifty_readings (store : Capture.Store)
    (targetPoint : Point2D.t) (gazes : list (option nat)) :
  let readings := CaptureRun.readings gazes in
  ((50 <= length readings)%nat ->
   CaptureRun.collect store targetPoint gazes []
   = Some (Capture.summarize store targetPoint (firstn 50 readings)))
  /\ ((length readings < 50)%nat ->
      CaptureRun.collect store targetPoint gazes [] = None).
Proof.
  intros readings.
  pose proof (collect_readings store targetPoint gazes []) as H.
  cbn [app length] in H. fold readings in H.
  split; intros Hl; rewrite H by lia.
  - destruct (Nat.leb_spec 50 (length readings)); [reflexivity | lia].
  - destruct (Nat.leb_spec 50 (length readings)); [lia | reflexivity].
Qed.

Lemma capture_completes_on_fifty_readings_witness :
  let store := CaptureExamples.store in
  let gazes := None :: repeat (Some 7%nat) 50 ++ [Some 8%nat] in
  (50 <= length (CaptureRun.readings gazes))%nat
  /\ CaptureRun.collect store CaptureExamples.target gazes []
     = Some (Capture.summarize store CaptureExamples.target
               MoreExamples.sameObject).
Proof.
  intros store gazes.
  assert (H : (50 <= length (CaptureRun.readings gazes))%nat).
  { apply Nat.leb_le. reflexivity. }
  split; [exact H|].
  exact (proj1 (capture_completes_on_fifty_readings
                  store CaptureExamples.target gazes) H).
Defined.

(* ================================================================== *)
(** ** The cursor conditioner *)
(* ================================================================== *)

Section CursorFacts.
Import Cursor.
Variable gazeIndicator : bool.

Lemma frameSkip_flip (n : nat) :
  (n <= 1)%nat -> ((n + 1) mod 2 = 1 - n)%nat.
Proof. intros H. destruct n as [|[|n]]; [reflexivity | reflexivity | lia]. Qed.

(** A call that the frame skip ends early. *)
Lemma handleGazeUpdate_skipped (s : State) (gaze : GazePoint.t) :
  frameSkip s = 0%nat ->
  handleGazeUpdate gazeIndicator s gaze =
  ({| currentGaze := Some gaze;
      smoothedX := smoothedX s; smoothedY := smoothedY s;
      displayX := displayX s; displayY := displayY s;
      isFirstGaze := isFirstGaze s; frameSkip := 1 |}, None).
Proof. intros H. unfold handleGazeUpdate. rewrite H. reflexivity. Qed.

Lemma handleGazeUpdate_processed (s : State) (gaze : GazePoint.t) :
  frameSkip s = 1%nat ->
  let s' := fst (handleGazeUpdate gazeIndicator s gaze) in
  currentGaze s' = Some gaze
  /\ frameSkip s' = 0%nat
  /\ isFirstGaze s' = false
  /\ smoothedX s'
     = 0.15 * GazePoint.x gaze
       + 0.85 * (if isFirstGaze s then GazePoint.x gaze else smoothedX s)
  /\ smoothedY s'
     = 0.15 * GazePoint.y gaze
       + 0.85 * (if isFirstGaze s then GazePoint.y gaze else smoothedY s)
  /\ (displayX s' = smoothedX s'
      \/ displayX s' = (if isFirstGaze s then GazePoint.x gaze else displayX s)
         /\ Rabs (smoothedX s' - displayX s') <= 20)
  /\ (displayY s' = smoothedY s'
      \/ displayY s' = (if isFirstGaze s then GazePoint.y gaze else displayY s)
         /\ Rabs (smoothedY s' - displayY s') <= 8)
  /\ snd (handleGazeUpdate gazeIndicator s gaze)
     = if gazeIndicator then Some (displayX s' - 8, displayY s' - 8) else None.
Proof.
  intros H. unfold handleGazeUpdate. rewrite H.
  change ((1 + 1) mod 2)%nat with 0%nat.
  cbn [Nat.eqb negb fst snd currentGaze frameSkip
       isFirstGaze smoothedX smoothedY displayX displayY].
  unfold SMOOTHING_ALPHA, DEAD_ZONE_X, DEAD_ZONE_Y, LINE_HEIGHT, JS.gt, JS.abs.
  split; [reflexivity|]. split; [reflexivity|]. split; [reflexivity|].
  split; [lra|]. split; [lra|].
  split; [|split].
  - destruct (JS.lt 20 _) eqn:E; [left; reflexivity|].
    right. split; [reflexivity|]. apply lt_false in E. exact E.
  - destruct (JS.lt (16 * 0.5) _) eqn:E; [left; reflexivity|].
    right. split; [reflexivity|]. apply lt_false in E. lra.
  - reflexivity.
Qed.

Lemma frameSkip_bit (s : State) (gaze : GazePoint.t) :
  (frameSkip s <= 1)%nat ->
  frameSkip (fst (handleGazeUpdate gazeIndicator s gaze))
  = (1 - frameSkip s)%nat.
Proof.
  intros H. destruct (frameSkip s) as [|[|n]] eqn:E; [| |lia].
  - rewrite handleGazeUpdate_skipped by exact E. reflexivity.
  - destruct (handleGazeUpdate_processed s gaze E) as (_ & -> & _).
    reflexivity.
Qed.

Lemma run_app (s : State) (l1 l2 : list GazePoint.t) :
  run gazeIndicator s (l1 ++ l2)
  = (fst (run gazeIndicator (fst (run gazeIndicator s l1)) l2),
     snd (run gazeIndicator s l1)
     ++ snd (run gazeIndicator (fst (run gazeIndicator s l1)) l2)).
Proof.
  revert s. induction l1 as [|g l1 IH]; intros s.
  - cbn. destruct (run gazeIndicator s l2); reflexivity.
  - cbn [app run].
    destruct (handleGazeUpdate gazeIndicator s g) as [s1 o1].
    rewrite IH. destruct (run gazeIndicator s1 l1) as [s2 o2].
    cbn [fst snd]. destruct (run gazeIndicator s2 l2); reflexivity.
Qed.

Lemma run_state_invariant (P : State -> Prop) :
  (forall s g, P s -> P (fst (handleGazeUpdate gazeIndicator s g))) ->
  forall gazes s, P s -> P (fst (run gazeIndicator s gazes)).
Proof.
  intros Hstep gazes. induction gazes as [|g rest IH]; intros s Hs;
    [exact Hs|].
  cbn [run]. specialize (Hstep s g Hs).
  destruct (handleGazeUpdate gazeIndicator s g) as [s1 o1].
  specialize (IH s1 Hstep). destruct (run gazeIndicator s1 rest).
  exact IH.
Qed.

Lemma run_length (gazes : list GazePoint.t) (s : State) :
  length (snd (run gazeIndicator s gazes)) = length gazes.
Proof.
  revert s. induction gazes as [|g rest IH]; intros s; [reflexivity|].
  cbn [run]. destruct (handleGazeUpdate gazeIndicator s g) as [s1 o1].
  specialize (IH s1). destruct (run gazeIndicator s1 rest).
  cbn [snd length] in *. lia.
Qed.

(** Two consecutive calls from an even position: the first is skipped,
    the second is processed. *)
Lemma run_pair (s : State) (g1 g2 : GazePoint.t) (rest : list GazePoint.t) :
  frameSkip s = 0%nat ->
  exists s2,
    frameSkip s2 = 0%nat
    /\ currentGaze s2 = Some g2
    /\ fst (handleGazeUpdate gazeIndicator
              (fst (handleGazeUpdate gazeIndicator s g1)) g2) = s2
    /\ run gazeIndicator s (g1 :: g2 :: rest)
       = (fst (run gazeIndicator s2 rest),
          None :: (if gazeIndicator
                   then Some (displayX s2 - 8, displayY s2 - 8) else None)
               :: snd (run gazeIndicator s2 rest)).
Proof.
  intros H0. cbn [run].
  rewrite (handleGazeUpdate_skipped s g1 H0).
  set (s1 := {| currentGaze := Some g1; smoothedX := smoothedX s;
                smoothedY := smoothedY s; displayX := displayX s;
                displayY := displayY s; isFirstGaze := isFirstGaze s;
                frameSkip := 1 |}).
  assert (H1 : frameSkip s1 = 1%nat) by reflexivity.
  destruct (handleGazeUpdate_processed s1 g2 H1)
    as (Hc & Hf & _ & _ & _ & _ & _ & Hout).
  cbn [fst].
  destruct (handleGazeUpdate gazeIndicator s1 g2) as [s2 o2].
  cbn [fst snd] in *. exists s2.
  split; [exact Hf|]. split; [exact Hc|]. split; [reflexivity|].
  destruct (run gazeIndicator s2 rest) as [s3 o3]. cbn [fst snd].
  rewrite Hout. reflexivity.
Qed.

Lemma step_withinDeadZone (s : State) (g : GazePoint.t) :
  (frameSkip s <= 1)%nat ->
  CursorSpec.withinDeadZone s ->
  CursorSpec.withinDeadZone (fst (handleGazeUpdate gazeIndicator s g)).
Proof.
  intros Hb Hs. destruct (frameSkip s) as [|[|n]] eqn:E; [| |lia].
  - rewrite handleGazeUpdate_skipped by exact E. exact Hs.
  - destruct (handleGazeUpdate_processed s g E)
      as (_ & _ & _ & _ & _ & Hx & Hy & _).
    split.
    + destruct Hx as [-> | [_ Hx]]; [|exact Hx].
      rewrite Rminus_diag, Rabs_R0. lra.
    + destruct Hy as [-> | [_ Hy]]; [|exact Hy].
      rewrite Rminus_diag, Rabs_R0. lra.
Qed.

Lemma step_inBox (loX hiX loY hiY : R) (s : State) (g : GazePoint.t) :
  (frameSkip s <= 1)%nat ->
  CursorSpec.gazeInBox loX hiX loY hiY g ->
  CursorSpec.inBox loX hiX loY hiY s ->
  CursorSpec.inBox loX hiX loY hiY (fst (handleGazeUpdate gazeIndicator s g)).
Proof.
  intros Hb [Gx Gy] Hs. destruct (frameSkip s) as [|[|n]] eqn:E; [| |lia].
  - rewrite handleGazeUpdate_skipped by exact E. exact Hs.
  - destruct (handleGazeUpdate_processed s g E)
      as (_ & _ & _ & Sx & Sy & Dx & Dy & _).
    intros _. unfold CursorSpec.inBox in Hs.
    destruct (isFirstGaze s).
    + assert (Hsx : loX <= smoothedX (fst (handleGazeUpdate gazeIndicator s g))
                    <= hiX) by lra.
      assert (Hsy : loY <= smoothedY (fst (handleGazeUpdate gazeIndicator s g))
                    <= hiY) by lra.
      split; (split; [assumption|]).
      * destruct Dx as [-> | [-> _]]; assumption.
      * destruct Dy as [-> | [-> _]]; assumption.
    + destruct (Hs eq_refl) as [[Bsx Bdx] [Bsy Bdy]].
      assert (Hsx : loX <= smoothedX (fst (handleGazeUpdate gazeIndicator s g))
                    <= hiX) by lra.
      assert (Hsy : loY <= smoothedY (fst (handleGazeUpdate gazeIndicator s g))
                    <= hiY) by lra.
      split; (split; [assumption|]).
      * destruct Dx as [-> | [-> _]]; assumption.
      * destruct Dy as [-> | [-> _]]; assumption.
Qed.
End CursorFacts.

Section CursorRuns.
Import Cursor.
Variable gazeIndicator : bool.

Lemma pair_induction {A} (P : list A -> Prop) :
  P [] -> (forall a, P [a]) -> (forall a b l, P l -> P (a :: b :: l)) ->
  forall l, P l.
Proof.
  intros H0 H1 H2.
  assert (H : forall l, P l /\ forall a, P (a :: l)).
  { induction l as [|b l [IH1 IH2]]; split; auto. }
  intros l. apply H.
Qed.

Lemma handleGazeUpdate_currentGaze (s : State) (g : GazePoint.t) :
  currentGaze (fst (handleGazeUpdate gazeIndicator s g)) = Some g.
Proof.
  unfold handleGazeUpdate.
  destruct (negb (((frameSkip s + 1) mod 2 =? 0)%nat)); reflexivity.
Qed.

Lemma last_default {A} (l : list A) (d d' : A) :
  l <> [] -> last l d = last l d'.
Proof.
  induction l as [|a [|b l] IH]; intros Hne; [congruence | reflexivity |].
  change (last (b :: l) d = last (b :: l) d'). apply IH. discriminate.
Qed.

Lemma run_currentGaze (gazes : list GazePoint.t) :
  forall s : State,
    currentGaze (fst (run gazeIndicator s gazes))
    = last (map Some gazes) (currentGaze s).
Proof.
  induction gazes as [|g rest IH]; intros s; [reflexivity|].
  cbn [run]. pose proof (handleGazeUpdate_currentGaze s g) as Hc.
  destruct (handleGazeUpdate gazeIndicator s g) as [s1 o1].
  specialize (IH s1). destruct (run gazeIndicator s1 rest) as [s2 o2].
  cbn [fst] in *. rewrite IH, Hc.
  destruct rest as [|g' rest']; [reflexivity|].
  cbn [map]. change (last (Some g :: Some g' :: map Some rest') (currentGaze s))
    with (last (Some g' :: map Some rest') (currentGaze s)).
  apply last_default. discriminate.
Qed.

Lemma mod2_SS (n : nat) : (S (S n) mod 2 = n mod 2)%nat.
Proof.
  replace (S (S n)) with (n + 1 * 2)%nat by lia.
  apply Nat.Div0.mod_add.
Qed.

Lemma run_parity (gazes : list GazePoint.t) :
  forall s : State,
    frameSkip s = 0%nat ->
    frameSkip (fst (run gazeIndicator s gazes)) = (length gazes mod 2)%nat
    /\ (forall i, (i < length gazes)%nat -> Nat.even i = true ->
                  nth i (snd (run gazeIndicator s gazes)) None = None)
    /\ (forall i, (i < length gazes)%nat -> Nat.odd i = true ->
                  gazeIndicator = true ->
                  nth i (snd (run gazeIndicator s gazes)) None <> None)
    /\ length (CursorSpec.positions (snd (run gazeIndicator s gazes)))
       = if gazeIndicator then (length gazes / 2)%nat else 0%nat.
Proof.
  induction gazes as [| a | a b l IH] using pair_induction; intros s H0.
  - cbn. split; [exact H0|]. split; [intros; lia|]. split; [intros; lia|].
    destruct gazeIndicator; reflexivity.
  - cbn [run]. rewrite (handleGazeUpdate_skipped gazeIndicator s a H0).
    cbn [fst snd frameSkip length nth CursorSpec.positions].
    split; [reflexivity|]. split.
    + intros i Hi _. destruct i; [reflexivity | lia].
    + split; [intros i Hi Ho; destruct i; [discriminate | lia]|].
      destruct gazeIndicator; reflexivity.
  - destruct (run_pair gazeIndicator s a b l H0) as (s2 & F2 & _ & _ & ->).
    destruct (IH s2 F2) as (I1 & I2 & I3 & I4).
    cbn [fst snd length]. rewrite mod2_SS.
    split; [exact I1|]. split; [|split].
    + intros i Hi He. destruct i as [|[|i]]; [reflexivity | discriminate |].
      cbn [nth]. apply I2; [lia|].
      rewrite Nat.even_succ_succ in He. exact He.
    + intros i Hi Ho Hind. destruct i as [|[|i]]; [discriminate | |].
      * cbn [nth]. rewrite Hind. discriminate.
      * cbn [nth]. apply I3; [lia | | exact Hind].
        rewrite Nat.odd_succ_succ in Ho. exact Ho.
    + cbn [CursorSpec.positions].
      replace (S (S (length l)) / 2)%nat with (S (length l / 2)).
      2:{ replace (S (S (length l))) with (length l + 1 * 2)%nat by lia.
          rewrite Nat.div_add by lia. lia. }
      destruct gazeIndicator; cbn [CursorSpec.positions length];
        rewrite I4; reflexivity.
Qed.

Lemma run_cursor_invariant (P : State -> Prop) :
  (forall s g, (frameSkip s <= 1)%nat -> P s ->
               P (fst (handleGazeUpdate gazeIndicator s g))) ->
  forall gazes s, (frameSkip s <= 1)%nat -> P s ->
                  P (fst (run gazeIndicator s gazes)).
Proof.
  intros Hstep gazes s Hb Hs.
  apply (run_state_invariant gazeIndicator
           (fun s => (frameSkip s <= 1)%nat /\ P s)).
  - intros s0 g [Hb0 Hs0]. split.
    + rewrite frameSkip_bit by exact Hb0. lia.
    + apply Hstep; assumption.
  - split; assumption.
Qed.

Lemma step_output_inBox (loX hiX loY hiY : R) (s : State) (g : GazePoint.t) :
  (frameSkip s <= 1)%nat ->
  CursorSpec.gazeInBox loX hiX loY hiY g ->
  CursorSpec.inBox loX hiX loY hiY s ->
  match snd (handleGazeUpdate gazeIndicator s g) with
  | Some p => loX - 8 <= fst p <= hiX - 8 /\ loY - 8 <= snd p <= hiY - 8
  | None => True
  end.
Proof.
  intros Hb Hg Hs.
  pose proof (step_inBox gazeIndicator loX hiX loY hiY s g Hb Hg Hs) as Hbox.
  destruct (frameSkip s) as [|[|n]] eqn:E; [| |lia].
  - rewrite handleGazeUpdate_skipped by exact E. exact I.
  - destruct (handleGazeUpdate_processed gazeIndicator s g E)
      as (_ & _ & Hf & _ & _ & _ & _ & Hout).
    rewrite Hout. destruct gazeIndicator; [|exact I].
    destruct (Hbox Hf) as [[_ Bx] [_ By]]. cbn [fst snd]. lra.
Qed.

Lemma run_positions_inBox (loX hiX loY hiY : R) (gazes : list GazePoint.t) :
  forall s : State,
    (frameSkip s <= 1)%nat ->
    Forall (CursorSpec.gazeInBox loX hiX loY hiY) gazes ->
    CursorSpec.inBox loX hiX loY hiY s ->
    CursorSpec.inBox loX hiX loY hiY (fst (run gazeIndicator s gazes))
    /\ Forall (fun p => loX - 8 <= fst p <= hiX - 8
                        /\ loY - 8 <= snd p <= hiY - 8)
              (CursorSpec.positions (snd (run gazeIndicator s gazes))).
Proof.
  induction gazes as [|g rest IH]; intros s Hb Hall Hs.
  - split; [exact Hs | constructor].
  - inversion Hall as [|? ? Hg Hrest]; subst.
    cbn [run].
    pose proof (step_inBox gazeIndicator loX hiX loY hiY s g Hb Hg Hs) as H1.
    pose proof (step_output_inBox loX hiX loY hiY s g Hb Hg Hs) as H2.
    pose proof (frameSkip_bit gazeIndicator s g Hb) as H3.
    destruct (handleGazeUpdate gazeIndicator s g) as [s1 o1].
    cbn [fst snd] in *.
    assert (Hb1 : (frameSkip s1 <= 1)%nat) by lia.
    destruct (IH s1 Hb1 Hrest H1) as [I1 I2].
    destruct (run gazeIndicator s1 rest) as [s2 o2]. cbn [fst snd] in *.
    split; [exact I1|].
    destruct o1 as [p|]; cbn [CursorSpec.positions]; [|exact I2].
    constructor; assumption.
Qed.
End CursorRuns.

(** X13.  The content script's gaze handler processes every second
    call: from the initial variables, the calls at the 1st, 3rd, 5th ...
    gaze point end at the frame skip and never touch the indicator, the
    calls in between are processed (and move the indicator when there is
    one), so n gaze points give n/2 indicator updates; [currentGaze]
    holds the latest gaze point after every call, skipped or not; and
    the second gaze point, the first one that is processed, is where
    the cursor is first displayed, the low-pass value being the filter
    applied to that point and itself. *)
Theorem cursor_every_second_call (gazeIndicator : bool)
    (gazes : list GazePoint.t) :
  let r := Cursor.run gazeIndicator Cursor.init gazes in
  Cursor.frameSkip (fst r) = (length gazes mod 2)%nat
  /\ Cursor.currentGaze (fst r) = last (map Some gazes) None
  /\ length (snd r) = length gazes
  /\ (forall i, (i < length gazes)%nat -> Nat.even i = true ->
                nth i (snd r) None = None)
  /\ (forall i, (i < length gazes)%nat -> Nat.odd i = true ->
                gazeIndicator = true -> nth i (snd r) None <> None)
  /\ length (CursorSpec.positions (snd r))
     = (if gazeIndicator then (length gazes / 2)%nat else 0%nat)
  /\ (forall g1 g2,
        Cursor.run gazeIndicator Cursor.init [g1; g2]
        = ({| Cursor.currentGaze := Some g2;
              Cursor.smoothedX :=
                Cursor.SMOOTHING_ALPHA * GazePoint.x g2
                + (1 - Cursor.SMOOTHING_ALPHA) * GazePoint.x g2;
              Cursor.smoothedY :=
                Cursor.SMOOTHING_ALPHA * GazePoint.y g2
                + (1 - Cursor.SMOOTHING_ALPHA) * GazePoint.y g2;
              Cursor.displayX := GazePoint.x g2;
              Cursor.displayY := GazePoint.y g2;
              Cursor.isFirstGaze := false;
              Cursor.frameSkip := 0 |},
           [ None;
             if gazeIndicator
             then Some (GazePoint.x g2 - 8, GazePoint.y g2 - 8)
             else None ])).
Proof.
  intros r. subst r.
  destruct (run_parity gazeIndicator gazes Cursor.init eq_refl)
    as (P1 & P2 & P3 & P4).
  split; [exact P1|].
  split; [apply (run_currentGaze gazeIndicator gazes Cursor.init)|].
  split; [apply run_length|].
  split; [exact P2|]. split; [exact P3|]. split; [exact P4|].
  intros g1 g2. cbn [Cursor.run].
  rewrite (handleGazeUpdate_skipped gazeIndicator Cursor.init g1 eq_refl).
  unfold Cursor.handleGazeUpdate.
  cbn [Cursor.frameSkip Cursor.isFirstGaze Cursor.init].
  change ((1 + 1) mod 2)%nat with 0%nat. cbn [Nat.eqb negb].
  assert (Near : forall v dead, 0 <= dead ->
            JS.gt (JS.abs (Cursor.SMOOTHING_ALPHA * v
                           + (1 - Cursor.SMOOTHING_ALPHA) * v - v)) dead
            = false).
  { intros v dead Hd. unfold JS.gt. apply lt_false.
    unfold JS.abs, Cursor.SMOOTHING_ALPHA.
    replace (0.15 * v + (1 - 0.15) * v - v) with 0 by lra.
    rewrite Rabs_R0. exact Hd. }
  rewrite (Near (GazePoint.x g2) Cursor.DEAD_ZONE_X)
    by (unfold Cursor.DEAD_ZONE_X; lra).
  rewrite (Near (GazePoint.y g2) Cursor.DEAD_ZONE_Y)
    by (unfold Cursor.DEAD_ZONE_Y, Cursor.LINE_HEIGHT; lra).
  reflexivity.
Qed.

(** X14.  After every stream of gaze points, from the initial
    variables, the displayed cursor is within the dead zone of the
    low-pass value: at most 20 px away horizontally and at most 8 px
    (half a line) vertically. *)
Theorem cursor_within_dead_zone (gazeIndicator : bool)
    (gazes : list GazePoint.t) :
  let s := fst (Cursor.run gazeIndicator Cursor.init gazes) in
  Rabs (Cursor.smoothedX s - Cursor.displayX s) <= Cursor.DEAD_ZONE_X
  /\ Rabs (Cursor.smoothedY s - Cursor.displayY s) <= Cursor.DEAD_ZONE_Y.
Proof.
  intros s.
  assert (H : CursorSpec.withinDeadZone s).
  { subst s. apply run_cursor_invariant.
    - intros s0 g Hb Hs. apply step_withinDeadZone; assumption.
    - cbn. lia.
    - split; cbn; rewrite Rminus_diag, Rabs_R0; lra. }
  destruct H as [Hx Hy].
  unfold Cursor.DEAD_ZONE_X, Cursor.DEAD_ZONE_Y, Cursor.LINE_HEIGHT.
  split; lra.
Qed.

(** X15.  The conditioner keeps the cursor inside any box that holds
    all gaze points: from the initial variables, when every gaze point
    of the stream has x in [loX, hiX] and y in [loY, hiY], the low-pass
    value and the displayed cursor are in that box once a gaze has been
    processed, and every position given to the indicator (its top-left
    corner, 8 px up and left of the cursor) has left in
    [loX - 8, hiX - 8] and top in [loY - 8, hiY - 8]. *)
Theorem cursor_stays_in_box (gazeIndicator : bool)
    (loX hiX loY hiY : R) (gazes : list GazePoint.t) :
  Forall (CursorSpec.gazeInBox loX hiX loY hiY) gazes ->
  let r := Cursor.run gazeIndicator Cursor.init gazes in
  (Cursor.isFirstGaze (fst r) = false ->
   (loX <= Cursor.smoothedX (fst r) <= hiX
    /\ loX <= Cursor.displayX (fst r) <= hiX)
   /\ (loY <= Cursor.smoothedY (fst r) <= hiY
       /\ loY <= Cursor.displayY (fst r) <= hiY))
  /\ Forall (fun p => loX - 8 <= fst p <= hiX - 8
                      /\ loY - 8 <= snd p <= hiY - 8)
            (CursorSpec.positions (snd r)).
Proof.
  intros Hall r. subst r.
  apply (run_positions_inBox gazeIndicator loX hiX loY hiY gazes Cursor.init).
  - cbn. lia.
  - exact Hall.
  - intros Hf. discriminate.
Qed.

Lemma cursor_stays_in_box_witness :
  Forall (CursorSpec.gazeInBox 0 1920 0 1080) CursorExamples.stream
  /\ Forall (fun p => 0 - 8 <= fst p <= 1920 - 8
                      /\ 0 - 8 <= snd p <= 1080 - 8)
            (CursorSpec.positions
               (snd (Cursor.run true Cursor.init CursorExamples.stream))).
Proof.
  assert (H : Forall (CursorSpec.gazeInBox 0 1920 0 1080)
                     CursorExamples.stream).
  { unfold CursorExamples.stream, CursorSpec.gazeInBox, CursorExamples.gazeAt.
    repeat (apply Forall_cons;
            [cbn [GazePoint.x GazePoint.y]; split; lra|]).
    apply Forall_nil. }
  split; [exact H|].
  exact (proj2 (cursor_stays_in_box true 0 1920 0 1080
                  CursorExamples.stream H)).
Defined.

(* ================================================================== *)
(** ** The affine estimator's frames *)
(* ================================================================== *)

Lemma clamp_bounds (lo hi v : R) :
  lo <= hi -> lo <= Rmax lo (Rmin hi v) <= hi.
Proof.
  intros H. split; [apply Rmax_l|].
  apply Rmax_lub; [exact H | apply Rmin_l].
Qed.

Lemma clamp_id (lo hi v : R) :
  lo <= v <= hi -> Rmax lo (Rmin hi v) = v.
Proof.
  intros H. rewrite Rmin_right by lra. rewrite Rmax_right by lra. reflexivity.
Qed.

(** A clamp moves two values no further apart than they are. *)
Lemma clamp_lipschitz (lo hi u v : R) :
  lo <= hi ->
  Rabs (Rmax lo (Rmin hi u) - Rmax lo (Rmin hi v)) <= Rabs (u - v).
Proof.
  intros H.
  assert (Hu : (u <= lo /\ Rmax lo (Rmin hi u) = lo)
               \/ (lo <= u <= hi /\ Rmax lo (Rmin hi u) = u)
               \/ (hi <= u /\ Rmax lo (Rmin hi u) = hi)).
  { destruct (Rle_dec u lo); [left; split; [assumption|]|].
    - rewrite Rmin_right by lra. apply Rmax_left. lra.
    - destruct (Rle_dec u hi).
      + right; left. split; [lra|]. rewrite Rmin_right by lra.
        apply Rmax_right. lra.
      + right; right. split; [lra|]. rewrite Rmin_left by lra.
        apply Rmax_right. lra. }
  assert (Hv : (v <= lo /\ Rmax lo (Rmin hi v) = lo)
               \/ (lo <= v <= hi /\ Rmax lo (Rmin hi v) = v)
               \/ (hi <= v /\ Rmax lo (Rmin hi v) = hi)).
  { destruct (Rle_dec v lo); [left; split; [assumption|]|].
    - rewrite Rmin_right by lra. apply Rmax_left. lra.
    - destruct (Rle_dec v hi).
      + right; left. split; [lra|]. rewrite Rmin_right by lra.
        apply Rmax_right. lra.
      + right; right. split; [lra|]. rewrite Rmin_left by lra.
        apply Rmax_right. lra. }
  destruct Hu as [[Hu ->] | [[Hu ->] | [Hu ->]]];
    destruct Hv as [[Hv ->] | [[Hv ->] | [Hv ->]]];
    unfold Rabs;
    repeat match goal with
           | |- context [Rcase_abs ?a] => destruct (Rcase_abs a)
           end; lra.
Qed.

Section AffineFrames.
Import AffineTracker.
Variable w : Window.t.

Lemma headContribution_bounds (lm : list Point2D.t) :
  -0.3 <= fst (headContribution lm) <= 0.3
  /\ -0.3 <= snd (headContribution lm) <= 0.3.
Proof.
  unfold headContribution, JS.max, JS.min. cbn [fst snd].
  split; apply clamp_bounds; lra.
Qed.

Lemma normalized_spec (lm : list Point2D.t) (li ri : Point2D.t) :
  normalized lm li ri
  = (AffineTrackerSpec.clamp95
       (- (fst (irisOffset lm li ri) + fst (headContribution lm))),
     AffineTrackerSpec.clamp95
       (- (snd (irisOffset lm li ri) + snd (headContribution lm)))).
Proof.
  unfold normalized.
  destruct (irisOffset lm li ri) as [ix iy].
  destruct (headContribution lm) as [dx dy]. reflexivity.
Qed.

Lemma gazePoint_onScreen (c : Affine.MediaPipeTracker) (nx ny : R) :
  0 <= Window.innerWidth w -> 0 <= Window.innerHeight w ->
  Spec.onScreen w (Point2D.x (Affine.gazePoint w c nx ny))
                  (Point2D.y (Affine.gazePoint w c nx ny)).
Proof.
  intros Hw Hh. unfold Spec.onScreen, Affine.gazePoint, JS.max, JS.min.
  cbn [Point2D.x Point2D.y].
  split; apply clamp_bounds; assumption.
Qed.

(** A frame that passes validation and the blink check. *)
Lemma affine_handleGazeData_open (now : R) (t : MediaPipeTracker)
    (data : SandboxGazeData.t) (lm : list Point2D.t) (li ri : Point2D.t) :
  isRunning t = true ->
  Spec.wellFormed data lm li ri ->
  Linear.isBlinking lm = false ->
  let nxy := normalized lm li ri in
  let p := Affine.gazePoint w (calibration t) (fst nxy) (snd nxy) in
  let sm := Linear.smooth (gazeHistory t) p in
  let eh := Linear.updateEyeHeight (eyeHeightHistory t)
                                   (Linear.currentEyeHeight lm) in
  handleGazeData w now t data =
  ({| config := config t; isRunning := true;
      calibration := calibration t;
      gazeHistory := fst sm;
      eyeHeightHistory := fst eh;
      stableEyeHeight := snd eh;
      frameCounter := S (frameCounter t) |},
   (if onHeadPoseUpdate (config t)
    then [ HeadPoseUpdate {| yaw := headYaw lm; pitch := headPitch lm;
                             x := Point2D.x (landmark lm 4);
                             y := Point2D.y (landmark lm 4) |} ]
    else [])
   ++ (if onGazeUpdate (config t)
       then [ GazeUpdate {| GazePoint.x := fst (snd sm);
                            GazePoint.y := snd (snd sm);
                            GazePoint.timestamp := now;
                            GazePoint.confidence := 0.8;
                            GazePoint.normalizedX := Some (fst nxy);
                            GazePoint.normalizedY := Some (snd nxy) |} ]
       else [])).
Proof.
  intros Hrun (Hlm & Hlen & Hli & Hri) Hblink nxy p sm eh.
  unfold handleGazeData. cbn [countFrame isRunning config calibration
    gazeHistory eyeHeightHistory stableEyeHeight frameCounter].
  rewrite Hrun, Hlm, Hli, Hri, Hblink. cbn [negb].
  destruct (Nat.ltb_spec (length lm) 478) as [Hlt|_]; [lia|].
  subst nxy p sm eh.
  destruct (normalized lm li ri) as [nx ny]. cbn [fst snd].
  destruct (Linear.updateEyeHeight _ _) as [heights stable].
  destruct (Linear.smooth _ _) as [hist [sx sy]]. reflexivity.
Qed.
End AffineFrames.

Section HeadExampleFacts.
Import HeadExamples.

Lemma head_face_length : length face = 478%nat.
Proof. unfold face. rewrite length_map, length_seq. reflexivity. Qed.

Lemma head_face_landmark (i : nat) :
  (i < 478)%nat -> landmark face i = facePoint i.
Proof.
  intros Hi. unfold landmark, face.
  rewrite nth_indep with (d' := facePoint 0%nat)
    by (rewrite length_map, length_seq; exact Hi).
  rewrite map_nth, seq_nth by exact Hi. reflexivity.
Qed.

Lemma head_face_eyes :
  Linear.leftEyeWidth face = 0.1 /\ Linear.rightEyeWidth face = 0.1
  /\ Linear.leftEyeHeight face = 0.04 /\ Linear.rightEyeHeight face = 0.04.
Proof.
  unfold Linear.leftEyeWidth, Linear.rightEyeWidth,
    Linear.leftEyeHeight, Linear.rightEyeHeight.
  rewrite !head_face_landmark by lia.
  cbn [facePoint Examples.facePoint Nat.eqb Point2D.x Point2D.y].
  unfold JS.abs. rewrite !Rabs_pos_eq by lra. repeat split; lra.
Qed.

Lemma head_face_height : AffineTracker.faceHeight face = 0.6.
Proof.
  unfold AffineTracker.faceHeight. rewrite !head_face_landmark by lia.
  cbn [facePoint Nat.eqb Point2D.x Point2D.y].
  unfold JS.abs. rewrite Rabs_pos_eq by lra. lra.
Qed.

Lemma head_face_measurable : AffineTrackerSpec.measurable face.
Proof.
  destruct head_face_eyes as (E1 & E2 & E3 & E4).
  split; [|rewrite head_face_height; lra].
  unfold Spec.eyesMeasurable. rewrite E1, E2, E3, E4. repeat split; lra.
Qed.

Lemma head_face_open : Linear.isBlinking face = false.
Proof.
  destruct head_face_eyes as (E1 & E2 & E3 & E4).
  unfold Linear.isBlinking, Linear.aspectRatio, Linear.currentEyeHeight,
    Linear.avgEyeWidth. rewrite E1, E2, E3, E4.
  apply lt_false. lra.
Qed.

Lemma head_frame_wellFormed :
  Spec.wellFormed frame face Examples.leftIris Examples.rightIris.
Proof.
  unfold Spec.wellFormed. split; [reflexivity|].
  split; [rewrite head_face_length; lia|]. split; reflexivity.
Qed.
End HeadExampleFacts.

(** X16.  In the affine estimator, on a frame whose quotients all have
    non-zero divisors: the head-pose contribution to each axis is within
    [-0.3, 0.3], the normalized gaze is the mirrored sum of iris offset
    and head-pose contribution clamped to [-0.95, 0.95], so both
    normalized coordinates lie in [-0.95, 0.95], and the head pose
    moves a normalized coordinate by at most 0.3 from what the iris
    offset alone gives. *)
Theorem affine_normalized_bounded (lm : list Point2D.t)
    (leftIris rightIris : Point2D.t) :
  AffineTrackerSpec.measurable lm ->
  let nxy := AffineTracker.normalized lm leftIris rightIris in
  let iris := AffineTracker.irisOffset lm leftIris rightIris in
  let head := AffineTracker.headContribution lm in
  (-0.3 <= fst head <= 0.3 /\ -0.3 <= snd head <= 0.3)
  /\ (-0.95 <= fst nxy <= 0.95 /\ -0.95 <= snd nxy <= 0.95)
  /\ Rabs (fst nxy - AffineTrackerSpec.clamp95 (- fst iris)) <= 0.3
  /\ Rabs (snd nxy - AffineTrackerSpec.clamp95 (- snd iris)) <= 0.3
  /\ (-0.95 <= - (fst iris + fst head) <= 0.95 ->
      fst nxy = - (fst iris + fst head))
  /\ (-0.95 <= - (snd iris + snd head) <= 0.95 ->
      snd nxy = - (snd iris + snd head)).
Proof.
  intros _ nxy iris head. subst nxy. rewrite normalized_spec.
  fold iris head. cbn [fst snd].
  destruct (headContribution_bounds lm) as [Hx Hy]. fold head in Hx, Hy.
  split; [split; assumption|].
  unfold AffineTrackerSpec.clamp95.
  split; [split; apply clamp_bounds; lra|].
  assert (L : forall i d, -0.3 <= d <= 0.3 ->
            Rabs (Rmax (-0.95) (Rmin 0.95 (- (i + d)))
                  - Rmax (-0.95) (Rmin 0.95 (- i))) <= 0.3).
  { intros i d Hd. eapply Rle_trans; [apply clamp_lipschitz; lra|].
    replace (- (i + d) - - i) with (- d) by lra.
    rewrite Rabs_Ropp. apply Rabs_le. lra. }
  split; [apply L; exact Hx|]. split; [apply L; exact Hy|].
  split; intros H; apply clamp_id; exact H.
Qed.

Lemma affine_normalized_bounded_witness :
  let nxy := AffineTracker.normalized HeadExamples.face
               Examples.leftIris Examples.rightIris in
  AffineTrackerSpec.measurable HeadExamples.face
  /\ (-0.95 <= fst nxy <= 0.95 /\ -0.95 <= snd nxy <= 0.95).
Proof.
  intros nxy. split; [exact head_face_measurable|].
  exact (proj1 (proj2 (affine_normalized_bounded HeadExamples.face
                         Examples.leftIris Examples.rightIris
                         head_face_measurable))).
Defined.

(** X17.  A frame of the affine estimator that passes validation and the
    blink check, on a running tracker: the head-pose callback (when
    there is one) is called before the gaze callback (when there is
    one), with the yaw, the pitch and the nose tip of the frame; the
    GazePoint carries the normalized pair of the frame, both within
    [-0.95, 0.95]; and with a viewport of non-negative size and a
    smoothing buffer of on-screen points the GazePoint is on screen and
    the buffer stays on screen, calibrated or not. *)
Theorem affine_frame_output (w : Window.t) (now : R)
    (t : AffineTracker.MediaPipeTracker) (data : SandboxGazeData.t)
    (lm : list Point2D.t) (leftIris rightIris : Point2D.t) :
  AffineTracker.isRunning t = true ->
  Spec.wellFormed data lm leftIris rightIris ->
  AffineTrackerSpec.measurable lm ->
  Linear.aspectRatio lm >= 0.15 ->
  0 <= Window.innerWidth w -> 0 <= Window.innerHeight w ->
  Forall (fun q => Spec.onScreen w (Point2D.x q) (Point2D.y q))
         (AffineTracker.gazeHistory t) ->
  let r := AffineTracker.handleGazeData w now t data in
  let pose := {| AffineTracker.yaw := AffineTracker.headYaw lm;
                 AffineTracker.pitch := AffineTracker.headPitch lm;
                 AffineTracker.x := Point2D.x (landmark lm 4);
                 AffineTracker.y := Point2D.y (landmark lm 4) |} in
  exists g,
    snd r = (if AffineTracker.onHeadPoseUpdate (AffineTracker.config t)
             then [AffineTracker.HeadPoseUpdate pose] else [])
            ++ (if AffineTracker.onGazeUpdate (AffineTracker.config t)
                then [AffineTracker.GazeUpdate g] else [])
    /\ GazePoint.normalizedX g
       = Some (fst (AffineTracker.normalized lm leftIris rightIris))
    /\ GazePoint.normalizedY g
       = Some (snd (AffineTracker.normalized lm leftIris rightIris))
    /\ Spec.onScreen w (GazePoint.x g) (GazePoint.y g)
    /\ Forall (fun q => Spec.onScreen w (Point2D.x q) (Point2D.y q))
              (AffineTracker.gazeHistory (fst r))
    /\ AffineTracker.calibration (fst r) = AffineTracker.calibration t
    /\ AffineTracker.frameCounter (fst r)
       = S (AffineTracker.frameCounter t).
Proof.
  intros Hrun Hwf _ Hr Hw Hh Hhist r pose.
  assert (Hb : Linear.isBlinking lm = false).
  { unfold Linear.isBlinking. apply lt_false. lra. }
  subst r. rewrite (affine_handleGazeData_open w now t data lm leftIris
                      rightIris Hrun Hwf Hb).
  cbn [fst snd AffineTracker.gazeHistory AffineTracker.calibration
       AffineTracker.frameCounter].
  set (nxy := AffineTracker.normalized lm leftIris rightIris).
  set (p := Affine.gazePoint w (AffineTracker.calibration t)
              (fst nxy) (snd nxy)).
  assert (Hp : Spec.onScreen w (Point2D.x p) (Point2D.y p)).
  { apply gazePoint_onScreen; assumption. }
  destruct (smooth_onScreen w (AffineTracker.gazeHistory t) p Hhist Hp)
    as [Hbuf Hout].
  eexists. split; [reflexivity|].
  cbn [GazePoint.normalizedX GazePoint.normalizedY GazePoint.x GazePoint.y].
  repeat (split; [first [reflexivity | assumption]|]). reflexivity.
Qed.

Lemma affine_frame_output_witness :
  let w := Examples.viewport in
  let t := AffineTracker.start (AffineTracker.create HeadExamples.both) in
  (AffineTracker.isRunning t = true
   /\ Spec.wellFormed HeadExamples.frame HeadExamples.face
        Examples.leftIris Examples.rightIris
   /\ AffineTrackerSpec.measurable HeadExamples.face
   /\ Linear.aspectRatio HeadExamples.face >= 0.15
   /\ 0 <= Window.innerWidth w /\ 0 <= Window.innerHeight w
   /\ Forall (fun q => Spec.onScreen w (Point2D.x q) (Point2D.y q))
             (AffineTracker.gazeHistory t))
  /\ exists pose g,
       snd (AffineTracker.handleGazeData w 0 t HeadExamples.frame)
       = [AffineTracker.HeadPoseUpdate pose; AffineTracker.GazeUpdate g]
       /\ Spec.onScreen w (GazePoint.x g) (GazePoint.y g).
Proof.
  intros w t.
  assert (H1 : AffineTracker.isRunning t = true) by reflexivity.
  assert (H4 : Linear.aspectRatio HeadExamples.face >= 0.15).
  { destruct head_face_eyes as (E1 & E2 & E3 & E4).
    unfold Linear.aspectRatio, Linear.currentEyeHeight, Linear.avgEyeWidth.
    rewrite E1, E2, E3, E4. lra. }
  assert (H5 : 0 <= Window.innerWidth w) by (cbn; lra).
  assert (H6 : 0 <= Window.innerHeight w) by (cbn; lra).
  assert (H7 : Forall (fun q => Spec.onScreen w (Point2D.x q) (Point2D.y q))
                      (AffineTracker.gazeHistory t)) by constructor.
  split.
  { exact (conj H1 (conj head_frame_wellFormed (conj head_face_measurable
             (conj H4 (conj H5 (conj H6 H7)))))). }
  destruct (affine_frame_output w 0 t HeadExamples.frame HeadExamples.face
              Examples.leftIris Examples.rightIris H1 head_frame_wellFormed
              head_face_measurable H4 H5 H6 H7)
    as (g & Hout & _ & _ & Hon & _).
  eexists. exists g. split; [exact Hout | exact Hon].
Defined.

(** X18.  The default calibration is not the uncalibrated mapping: an
    uncalibrated tracker maps the normalized range [-0.4, 0.4] onto the
    screen, the default calibration the range [-0.3, 0.3]; so for a
    normalized gaze within [-0.3, 0.3] on both axes (where neither
    mapping is clamped) the distance of the gaze point from the screen
    centre, on each axis, is 4/3 after [useDefaultCalibration] of what
    it was before calibration, the viewport being the same. *)
Theorem default_calibration_is_more_sensitive (w : Window.t)
    (t : Affine.MediaPipeTracker) (nx ny : R) :
  0 <= Window.innerWidth w -> 0 <= Window.innerHeight w ->
  -0.3 <= nx <= 0.3 -> -0.3 <= ny <= 0.3 ->
  let before := Affine.gazePoint w Affine.create nx ny in
  let after := Affine.gazePoint w (Affine.useDefaultCalibration w t) nx ny in
  let cx := Window.innerWidth w / 2 in
  let cy := Window.innerHeight w / 2 in
  Point2D.x before = cx + nx / 0.4 * cx
  /\ Point2D.y before = cy + ny / 0.4 * cy
  /\ Point2D.x after - cx = 4 / 3 * (Point2D.x before - cx)
  /\ Point2D.y after - cy = 4 / 3 * (Point2D.y before - cy).
Proof.
  intros Hw Hh Hx Hy before after cx cy.
  assert (Bx : Point2D.x before = cx + nx / 0.4 * cx).
  { subst before cx. unfold Affine.gazePoint, Affine.create, JS.max, JS.min.
    cbn [Affine.isCalibrated negb Point2D.x].
    apply clamp_id. nra. }
  assert (By : Point2D.y before = cy + ny / 0.4 * cy).
  { subst before cy. unfold Affine.gazePoint, Affine.create, JS.max, JS.min.
    cbn [Affine.isCalibrated negb Point2D.y].
    apply clamp_id. nra. }
  assert (Ax : Point2D.x after = cx + nx / 0.3 * cx).
  { subst after cx. unfold Affine.gazePoint, Affine.useDefaultCalibration,
      Affine.transform, Affine.defaultMatrix, JS.max, JS.min.
    cbn [Affine.isCalibrated Affine.calibrationMatrix negb Point2D.x
         Affine.a Affine.b Affine.tx].
    rewrite clamp_id; [lra | nra]. }
  assert (Ay : Point2D.y after = cy + ny / 0.3 * cy).
  { subst after cy. unfold Affine.gazePoint, Affine.useDefaultCalibration,
      Affine.transform, Affine.defaultMatrix, JS.max, JS.min.
    cbn [Affine.isCalibrated Affine.calibrationMatrix negb Point2D.y
         Affine.c Affine.d Affine.ty].
    rewrite clamp_id; [lra | nra]. }
  split; [exact Bx|]. split; [exact By|].
  rewrite Ax, Ay, Bx, By. split; lra.
Qed.

Lemma default_calibration_is_more_sensitive_witness :
  let w := Examples.viewport in
  (0 <= Window.innerWidth w /\ 0 <= Window.innerHeight w
   /\ -0.3 <= 0.15 <= 0.3 /\ -0.3 <= -0.3 <= 0.3)
  /\ Point2D.x (Affine.gazePoint w Affine.create 0.15 (-0.3))
     = 960 + 0.15 / 0.4 * 960
  /\ Point2D.x (Affine.gazePoint w
                  (Affine.useDefaultCalibration w Affine.create) 0.15 (-0.3))
     - 960
     = 4 / 3 * (Point2D.x (Affine.gazePoint w Affine.create 0.15 (-0.3))
                - 960).
Proof.
  intros w.
  assert (H1 : 0 <= Window.innerWidth w) by (cbn; lra).
  assert (H2 : 0 <= Window.innerHeight w) by (cbn; lra).
  assert (H3 : -0.3 <= 0.15 <= 0.3) by lra.
  assert (H4 : -0.3 <= -0.3 <= 0.3) by lra.
  split; [exact (conj H1 (conj H2 (conj H3 H4)))|].
  destruct (default_calibration_is_more_sensitive w Affine.create
              0.15 (-0.3) H1 H2 H3 H4) as (Bx & _ & Ax & _).
  cbn [Window.innerWidth w Examples.viewport] in Bx, Ax.
  replace (1920 / 2) with 960 in Bx, Ax by lra.
  split; [exact Bx | exact Ax].
Defined.

(* ================================================================== *)
(** ** The calibration grid and the calibration pass *)
(* ================================================================== *)

Lemma sum_map_const {A} (f : A -> R) (v : R) (l : list A) :
  (forall p, In p l -> f p = v) ->
  Spec.sum (map f l) = INR (length l) * v.
Proof.
  induction l as [|p l IH]; intros H.
  - simpl. lra.
  - cbn [map Spec.sum fold_right]. fold (Spec.sum (map f l)).
    rewrite IH by (intros q Hq; apply H; right; exact Hq).
    rewrite (H p) by (left; reflexivity).
    change (length (p :: l)) with (S (length l)). rewrite S_INR. ring.
Qed.

(** Samples that all measured the same normalized pair leave the normal
    equations without a unique solution. *)
Lemma constant_measurement_singular (data : list Affine.Datum) (nx ny : R) :
  (forall p, In p data -> Affine.srcX p = nx /\ Affine.srcY p = ny) ->
  Affine.detA (Affine.sums data) (JS.length data) = 0.
Proof.
  intros H. rewrite affine_sums_spec. unfold Affine.detA, JS.length.
  cbn [Affine.sumX Affine.sumY Affine.sumXX Affine.sumYY Affine.sumXY].
  rewrite (sum_map_const Affine.srcX nx) by (intros p Hp; apply (H p Hp)).
  rewrite (sum_map_const Affine.srcY ny) by (intros p Hp; apply (H p Hp)).
  rewrite (sum_map_const (fun p => Affine.srcX p * Affine.srcX p) (nx * nx))
    by (intros p Hp; destruct (H p Hp) as [-> _]; reflexivity).
  rewrite (sum_map_const (fun p => Affine.srcY p * Affine.srcY p) (ny * ny))
    by (intros p Hp; destruct (H p Hp) as [_ ->]; reflexivity).
  rewrite (sum_map_const (fun p => Affine.srcX p * Affine.srcY p) (nx * ny))
    by (intros p Hp; destruct (H p Hp) as [-> ->]; reflexivity).
  ring.
Qed.

Section PassFacts.
Variable store : Capture.Store.

Lemma showNextPoint_complete (targets : list Point2D.t) :
  forall (ticks : list (list (option nat)))
         (calibrationData : list CalibrationPoint.t),
    ContentScript.complete (length targets) ticks ->
    ContentScript.showNextPoint store targets ticks calibrationData
    = Some (calibrationData ++ ContentScript.samplesOf store targets ticks).
Proof.
  induction targets as [|target rest IH]; intros ticks data Hc.
  - cbn. rewrite app_nil_r. reflexivity.
  - cbn [length ContentScript.complete] in Hc. destruct Hc as [H50 Hrest].
    cbn [ContentScript.showNextPoint ContentScript.samplesOf].
    rewrite collect_readings by (cbn; lia). cbn [app].
    destruct (Nat.leb_spec 50 (length (CaptureRun.readings (hd [] ticks))));
      [|lia].
    destruct (Capture.summarize store target _) as [sample resolved] eqn:E.
    rewrite (IH (tl ticks) (JS.push data sample) Hrest).
    unfold JS.push. rewrite <- app_assoc. cbn [fst app]. reflexivity.
Qed.

Lemma showNextPoint_stuck (targets : list Point2D.t) :
  forall (ticks : list (list (option nat)))
         (calibrationData : list CalibrationPoint.t),
    ~ ContentScript.complete (length targets) ticks ->
    ContentScript.showNextPoint store targets ticks calibrationData = None.
Proof.
  induction targets as [|target rest IH]; intros ticks data Hc.
  - exfalso. apply Hc. exact I.
  - cbn [ContentScript.showNextPoint].
    rewrite collect_readings by (cbn; lia). cbn [app].
    destruct (Nat.leb_spec 50 (length (CaptureRun.readings (hd [] ticks))))
      as [H50|Hlt]; [|reflexivity].
    destruct (Capture.summarize store target _) as [sample resolved].
    apply IH. intros Hrest. apply Hc. split; assumption.
Qed.

Lemma samplesOf_length (targets : list Point2D.t) :
  forall ticks, length (ContentScript.samplesOf store targets ticks)
                = length targets.
Proof.
  induction targets as [|t rest IH]; intros ticks; [reflexivity|].
  cbn [ContentScript.samplesOf length]. rewrite IH. reflexivity.
Qed.

Lemma samplesOf_actual (targets : list Point2D.t) :
  forall ticks, map CalibrationPoint.actual
                    (ContentScript.samplesOf store targets ticks) = targets.
Proof.
  induction targets as [|t rest IH]; intros ticks; [reflexivity|].
  cbn [ContentScript.samplesOf map]. rewrite IH. reflexivity.
Qed.

Lemma samplesOf_shape (targets : list Point2D.t) :
  forall ticks,
    Forall (fun p =>
              (exists nx ny,
                  Measured.normalizedX (CalibrationPoint.measured p) = Some nx
                  /\ Measured.normalizedY (CalibrationPoint.measured p)
                     = Some ny)
              /\ exists s, CalibrationPoint.stdDev p = Some s /\ 0 <= s)
           (ContentScript.samplesOf store targets ticks).
Proof.
  induction targets as [|t rest IH]; intros ticks; [constructor|].
  cbn [ContentScript.samplesOf]. constructor; [|apply IH].
  unfold Capture.summarize.
  cbn [fst CalibrationPoint.measured CalibrationPoint.stdDev
       Measured.normalizedX Measured.normalizedY].
  split; [eexists; eexists; split; reflexivity|].
  eexists. split; [reflexivity|]. apply sqrt_pos.
Qed.
End PassFacts.

Lemma affine_applyCalibration_calibrated (w : Window.t)
    (t : Affine.MediaPipeTracker) (points : list CalibrationPoint.t) :
  points <> [] ->
  Affine.isCalibrated (Affine.applyCalibration w t points) = true
  /\ (Affine.calibrationMatrix (Affine.applyCalibration w t points)
      = Affine.defaultMatrix w
      \/ AffineFit.accepted w points
         /\ Affine.calibrationMatrix (Affine.applyCalibration w t points)
            = AffineFit.fitted points).
Proof.
  intros Hne.
  assert (D : AffineFit.accepted w points \/ ~ AffineFit.accepted w points).
  { unfold AffineFit.accepted, AffineFit.scalesInRange.
    destruct (le_dec 4 (length (Affine.goodPoints points))); [|tauto].
    destruct (Rle_dec 1e-10
                (Rabs (Affine.detA (Affine.sums (AffineFit.data points))
                                   (JS.length (AffineFit.data points)))));
      [|tauto].
    destruct (Rle_dec (Affine.MIN_SCALE w)
                (Affine.effectiveScaleX (AffineFit.fitted points))); [|tauto].
    destruct (Rle_dec (Affine.effectiveScaleX (AffineFit.fitted points))
                (Affine.MAX_SCALE w)); [|tauto].
    destruct (Rle_dec (Affine.MIN_SCALE w)
                (Affine.primaryScaleY (AffineFit.fitted points))); [|tauto].
    destruct (Rle_dec (Affine.primaryScaleY (AffineFit.fitted points))
                (Affine.MAX_SCALE w)); tauto. }
  destruct D as [Hacc | Hrej].
  - rewrite (affine_applyCalibration_accepted w t points Hne Hacc).
    split; [reflexivity|]. right. split; [exact Hacc | reflexivity].
  - rewrite (affine_applyCalibration_rejected w t points Hne Hrej).
    split; [reflexivity|]. left. reflexivity.
Qed.

(** X19.  The calibration grid: nine targets in row-major order, the
    k-th one at the fractions (c, r) of the viewport with c and r taken
    from 0.15, 0.5, 0.85; the grid is symmetric about the screen centre
    (target k and target 8 - k add up to (width, height)); with a
    viewport of non-negative size every target keeps a margin of 15% of
    the width and height from the screen edges; and the nine targets
    are pairwise distinct exactly when neither the width nor the height
    is zero. *)
Theorem calibration_grid_layout (w : Window.t) :
  let grid := CalibrationSystem.generateCalibrationGrid w in
  let sw := Window.innerWidth w in
  let sh := Window.innerHeight w in
  let frac := fun i : nat => nth i [0.15; 0.5; 0.85] 0 in
  let origin := Point2D.mk 0 0 in
  length grid = 9%nat
  /\ (forall r c, (r < 3)%nat -> (c < 3)%nat ->
        nth (3 * r + c) grid origin = Point2D.mk (sw * frac c) (sh * frac r))
  /\ (forall k, (k < 9)%nat ->
        Point2D.x (nth k grid origin) + Point2D.x (nth (8 - k) grid origin) = sw
        /\ Point2D.y (nth k grid origin) + Point2D.y (nth (8 - k) grid origin)
           = sh)
  /\ (0 <= sw -> 0 <= sh ->
      Forall (fun p => 0.15 * sw <= Point2D.x p <= 0.85 * sw
                       /\ 0.15 * sh <= Point2D.y p <= 0.85 * sh) grid)
  /\ (NoDup grid <-> sw <> 0 /\ sh <> 0).
Proof.
  intros grid sw sh frac origin.
  split; [reflexivity|]. split; [|split; [|split]].
  - intros r c Hr Hc.
    destruct r as [|[|[|r]]]; [| | |lia];
      destruct c as [|[|[|c]]]; try lia; reflexivity.
  - intros k Hk.
    do 9 (destruct k as [|k];
          [subst grid sw sh; cbn; split; lra|]).
    lia.
  - intros Hw Hh. subst grid.
    unfold CalibrationSystem.generateCalibrationGrid,
      CalibrationSystem.positions.
    cbn [map]. fold sw sh.
    repeat (apply Forall_cons; [cbn [Point2D.x Point2D.y]; lra|]).
    apply Forall_nil.
  - subst grid.
    unfold CalibrationSystem.generateCalibrationGrid,
      CalibrationSystem.positions.
    cbn [map]. fold sw sh. split.
    + intros Hnd. split; intros E.
      * inversion Hnd as [|? ? Hnot _]; subst. apply Hnot.
        right; left. rewrite E. f_equal; lra.
      * inversion Hnd as [|? ? Hnot _]; subst. apply Hnot.
        right; right; left. rewrite E. f_equal; lra.
    + intros [Hw Hh].
      assert (Hneq : forall a b c d : R,
                a <> c \/ b <> d ->
                Point2D.mk (sw * a) (sh * b) <> Point2D.mk (sw * c) (sh * d)).
      { intros a b c d Hd E. injection E as Ex Ey.
        destruct Hd as [Hd | Hd]; apply Hd.
        - apply (Rmult_eq_reg_l sw); assumption.
        - apply (Rmult_eq_reg_l sh); assumption. }
      repeat (constructor;
              [cbn [In]; intros Hin;
               repeat (destruct Hin as [Hin | Hin];
                       [symmetry in Hin; revert Hin; apply Hneq;
                        first [left; lra | right; lra]|]);
               exact Hin|]).
      constructor.
Qed.

(** X20.  The calibration pass of the content script comes to its end
    exactly when each of the nine captures sees 50 gaze readings or
    more.  It then hands [applyCalibration] nine samples, one per grid
    target and in grid order, each with its target as [actual], with
    both normalized coordinates and with a non-negative [stdDev]; and
    the tracker is marked calibrated afterwards whatever was measured,
    its matrix being either the default one or the accepted fit of the
    nine samples, judged on the viewport found at that moment.  When a
    capture sees fewer readings the pass does not end and
    [applyCalibration] is not called. *)
Theorem calibration_pass_outcome (store : Capture.Store)
    (atStart atEnd : Window.t) (ticks : list (list (option nat)))
    (tracker : AffineTracker.MediaPipeTracker) :
  let grid := CalibrationSystem.generateCalibrationGrid atStart in
  let samples := ContentScript.samplesOf store grid ticks in
  (ContentScript.complete 9 ticks ->
   ContentScript.showNextPoint store grid ticks [] = Some samples
   /\ length samples = 9%nat
   /\ map CalibrationPoint.actual samples = grid
   /\ Forall (fun p =>
                (exists nx ny,
                    Measured.normalizedX (CalibrationPoint.measured p)
                    = Some nx
                    /\ Measured.normalizedY (CalibrationPoint.measured p)
                       = Some ny)
                /\ exists s, CalibrationPoint.stdDev p = Some s /\ 0 <= s)
             samples
   /\ exists tracker',
        ContentScript.runCalibration store atStart atEnd ticks tracker
        = Some tracker'
        /\ tracker' = AffineTracker.applyCalibration atEnd tracker samples
        /\ Affine.isCalibrated (AffineTracker.calibration tracker') = true
        /\ (Affine.calibrationMatrix (AffineTracker.calibration tracker')
            = Affine.defaultMatrix atEnd
            \/ AffineFit.accepted atEnd samples
               /\ Affine.calibrationMatrix (AffineTracker.calibration tracker')
                  = AffineFit.fitted samples))
  /\ (~ ContentScript.complete 9 ticks ->
      ContentScript.runCalibration store atStart atEnd ticks tracker = None).
Proof.
  intros grid samples. split.
  - intros Hc.
    assert (Hs : ContentScript.showNextPoint store grid ticks []
                 = Some samples).
    { apply (showNextPoint_complete store grid ticks []). exact Hc. }
    assert (Hl : length samples = 9%nat).
    { subst samples. rewrite samplesOf_length. reflexivity. }
    split; [exact Hs|]. split; [exact Hl|].
    split; [apply samplesOf_actual|]. split; [apply samplesOf_shape|].
    eexists. split.
    + unfold ContentScript.runCalibration. fold grid. rewrite Hs. reflexivity.
    + split; [reflexivity|].
      cbn [AffineTracker.applyCalibration AffineTracker.calibration].
      apply affine_applyCalibration_calibrated.
      intros E. rewrite E in Hl. discriminate.
  - intros Hc. unfold ContentScript.runCalibration. fold grid.
    rewrite (showNextPoint_stuck store grid ticks []) by exact Hc.
    reflexivity.
Qed.

Lemma calibration_pass_outcome_witness :
  let store := CaptureExamples.store in
  let tracker := AffineTracker.create HeadExamples.both in
  ContentScript.complete 9 ContentScriptExamples.frozen
  /\ exists tracker',
       ContentScript.runCalibration store Examples.viewport
         ResizeExamples.narrow ContentScriptExamples.frozen tracker
       = Some tracker'
       /\ Affine.isCalibrated (AffineTracker.calibration tracker') = true.
Proof.
  intros store tracker.
  assert (H : ContentScript.complete 9 ContentScriptExamples.frozen).
  { cbn. repeat split; lia. }
  split; [exact H|].
  destruct (proj1 (calibration_pass_outcome store Examples.viewport
                     ResizeExamples.narrow
                     ContentScriptExamples.frozen tracker) H)
    as (_ & _ & _ & _ & tracker' & Hrun & _ & Hcal & _).
  exists tracker'. split; [exact Hrun | exact Hcal].
Defined.

(** X21.  A gaze that gives the same normalized pair in all samples
    cannot calibrate the affine tracker: when every sample that passes
    the [stdDev] filter measured the same normalized pair, the
    determinant of the normal equations is 0 in exact arithmetic, and
    [applyCalibration] installs the default transform. *)
Theorem constant_measurement_gives_default (w : Window.t)
    (t : Affine.MediaPipeTracker) (points : list CalibrationPoint.t)
    (nx ny : R) :
  points <> [] ->
  (forall p, In p (Affine.goodPoints points) ->
             Affine.srcX (Affine.datum p) = nx
             /\ Affine.srcY (Affine.datum p) = ny) ->
  Affine.detA (Affine.sums (AffineFit.data points))
              (JS.length (AffineFit.data points)) = 0
  /\ Affine.applyCalibration w t points = Affine.useDefaultCalibration w t.
Proof.
  intros Hne Hconst.
  assert (Hdet : Affine.detA (Affine.sums (AffineFit.data points))
                             (JS.length (AffineFit.data points)) = 0).
  { apply (constant_measurement_singular _ nx ny).
    intros d Hd. unfold AffineFit.data in Hd.
    apply in_map_iff in Hd as (p & <- & Hp). apply Hconst. exact Hp. }
  split; [exact Hdet|].
  apply affine_applyCalibration_rejected; [exact Hne|].
  intros (_ & Habs & _). rewrite Hdet, Rabs_R0 in Habs. lra.
Qed.

Lemma constant_measurement_gives_default_witness :
  let w := Examples.viewport in
  (AffineExamples.degenerate <> []
   /\ forall p, In p (Affine.goodPoints AffineExamples.degenerate) ->
                Affine.srcX (Affine.datum p) = 0
                /\ Affine.srcY (Affine.datum p) = 0)
  /\ Affine.applyCalibration w Affine.create AffineExamples.degenerate
     = Affine.useDefaultCalibration w Affine.create.
Proof.
  intros w.
  assert (H1 : AffineExamples.degenerate <> []) by discriminate.
  assert (H2 : forall p, In p (Affine.goodPoints AffineExamples.degenerate) ->
                         Affine.srcX (Affine.datum p) = 0
                         /\ Affine.srcY (Affine.datum p) = 0).
  { intros p Hp. cbn in Hp.
    destruct Hp as [<- | [<- | [<- | [<- | []]]]]; split; reflexivity. }
  split; [split; assumption|].
  exact (proj2 (constant_measurement_gives_default w Affine.create
                  AffineExamples.degenerate 0 0 H1 H2)).
Defined.

(* ================================================================== *)
(** ** The message queue of the sandbox bridge *)
(* ================================================================== *)

Section BridgeFacts.
Import SandboxBridge.

Lemma sendMessage_cases (s : State) (m : Message) :
  (sendMessage s m = post s m
   /\ iframe s = true /\ contentWindow s = true
   /\ (isMediaPipeReady s = true \/ passesEarly m = true))
  \/ (sendMessage s m = enqueue s m
      /\ (iframe s = false \/ contentWindow s = false
          \/ isMediaPipeReady s = false /\ passesEarly m = false)).
Proof.
  unfold sendMessage.
  destruct (iframe s), (contentWindow s), (isMediaPipeReady s),
    (passesEarly m); cbn; intuition.
Qed.

(** With the window there and MediaPipe ready, the loop posts the queue
    in order and leaves it empty. *)
Lemma flush_posts_all (fuel : nat) :
  forall s : State,
    iframe s = true -> contentWindow s = true -> isMediaPipeReady s = true ->
    (length (messageQueue s) <= fuel)%nat ->
    flushMessageQueue fuel s
    = Some {| iframe := true; contentWindow := true; isMediaPipeReady := true;
              messageQueue := [];
              posted := posted s ++ messageQueue s |}.
Proof.
  induction fuel as [|fuel IH]; intros s Hi Hc Hr Hlen.
  - destruct s as [i c r q p]. cbn in *. subst.
    destruct q; [|cbn in Hlen; lia].
    cbn. rewrite app_nil_r. reflexivity.
  - destruct s as [i c r q p]. cbn in *. subst.
    destruct q as [|m rest].
    + cbn. rewrite app_nil_r. reflexivity.
    + cbn [flushMessageQueue messageQueue].
      unfold sendMessage, setQueue. cbn [iframe contentWindow isMediaPipeReady
        negb orb andb messageQueue posted].
      unfold post. cbn [iframe contentWindow isMediaPipeReady messageQueue
        posted].
      rewrite IH; cbn; try reflexivity; [|cbn in Hlen; lia].
      unfold JS.push. rewrite <- app_assoc. reflexivity.
Qed.

(** A message that is queued again keeps the loop going: without the
    window the loop does not end on a queue that is not empty. *)
Lemma flush_without_window (fuel : nat) :
  forall s : State,
    iframe s = false \/ contentWindow s = false ->
    messageQueue s <> [] ->
    flushMessageQueue fuel s = None.
Proof.
  induction fuel as [|fuel IH]; intros s Hw Hq.
  - destruct s as [i c r [|m q] p]; [cbn in Hq; congruence | reflexivity].
  - destruct s as [i c r [|m q] p]; [cbn in Hq; congruence|].
    cbn [flushMessageQueue messageQueue].
    assert (E : sendMessage (setQueue (mkState i c r (m :: q) p) q) m
                = mkState i c r (q ++ [m]) p).
    { unfold sendMessage, setQueue. cbn in *.
      destruct Hw as [-> | ->]; cbn; [reflexivity|].
      rewrite orb_true_r. reflexivity. }
    rewrite E. apply IH.
    + exact Hw.
    + cbn. destruct q; discriminate.
Qed.

Lemma sendMessage_heldBack (s : State) (m : Message) :
  SandboxBridgeSpec.heldBack s ->
  SandboxBridgeSpec.heldBack (sendMessage s m).
Proof.
  intros H.
  destruct (sendMessage_cases s m) as [(-> & _ & _ & Hp) | (-> & _)].
  - intros Hr. cbn in Hr. destruct Hp as [Hp | Hp]; [congruence|].
    cbn. unfold JS.push. apply Forall_app. split; [apply H; exact Hr|].
    constructor; [exact Hp | constructor].
  - exact H.
Qed.

Lemma sendMessage_ready (s : State) (m : Message) :
  isMediaPipeReady (sendMessage s m) = isMediaPipeReady s.
Proof.
  destruct (sendMessage_cases s m) as [(-> & _) | (-> & _)]; reflexivity.
Qed.

Lemma flush_ready (fuel : nat) :
  forall s s', isMediaPipeReady s = true ->
               flushMessageQueue fuel s = Some s' ->
               isMediaPipeReady s' = true.
Proof.
  induction fuel as [|fuel IH]; intros s s' Hr Hf.
  - cbn in Hf. destruct (messageQueue s); [|discriminate].
    injection Hf as <-. exact Hr.
  - cbn in Hf. destruct (messageQueue s) as [|m q] eqn:Eq.
    + injection Hf as <-. exact Hr.
    + apply IH in Hf; [exact Hf|]. rewrite sendMessage_ready. exact Hr.
Qed.

Lemma step_heldBack (fuel : nat) (config : SandboxBridgeConfig)
    (s s' : State) (op : Op) (out : list Callback) :
  SandboxBridgeSpec.heldBack s ->
  step fuel config s op = Some (s', out) ->
  SandboxBridgeSpec.heldBack s'.
Proof.
  intros H Hs. destruct op as [window | m | fromSandbox e | ].
  - cbn in Hs. injection Hs as <- _. exact H.
  - cbn in Hs. injection Hs as <- _. apply sendMessage_heldBack. exact H.
  - cbn [step] in Hs. unfold onMessage in Hs.
    destruct (negb (iframe s) || negb fromSandbox).
    { injection Hs as <- _. exact H. }
    destruct e as [| | [|] | data |].
    + injection Hs as <- _. apply sendMessage_heldBack. exact H.
    + injection Hs as <- _. exact H.
    + destruct (flushMessageQueue fuel (setReady s)) as [s1|] eqn:Ef;
        [|discriminate].
      injection Hs as <- _. intros Hr.
      apply flush_ready in Ef; [congruence | reflexivity].
    + injection Hs as <- _. exact H.
    + injection Hs as <- _. exact H.
    + injection Hs as <- _. exact H.
  - cbn [step] in Hs. injection Hs as <- _.
    pose proof (sendMessage_heldBack s STOP_TRACKING H) as Hd.
    exact Hd.
Qed.

Lemma run_heldBack (fuel : nat) (config : SandboxBridgeConfig)
    (ops : list Op) :
  forall (s s' : State) (out : list Callback),
    SandboxBridgeSpec.heldBack s ->
    run fuel config s ops = Some (s', out) ->
    SandboxBridgeSpec.heldBack s'.
Proof.
  induction ops as [|op rest IH]; intros s s' out H Hr.
  - cbn in Hr. injection Hr as <- _. exact H.
  - cbn [run] in Hr.
    destruct (step fuel config s op) as [[s1 out1]|] eqn:Es; [|discriminate].
    destruct (run fuel config s1 rest) as [[s2 out2]|] eqn:Er; [|discriminate].
    injection Hr as <- _.
    apply (IH s1 s2 out2); [|exact Er].
    apply (step_heldBack fuel config s s1 op out1 H Es).
Qed.
End BridgeFacts.

(** X22.  The sandbox bridge holds control messages back: after any
    sequence of [initialize()], sends, message events and [dispose()]
    on a new bridge, as long as MediaPipe has not reported ready every
    message that was posted to
    the sandbox is an INIT_MEDIAPIPE, a VIDEO_READY or a VIDEO_FRAME, so
    no START_TRACKING and no STOP_TRACKING reaches the sandbox before
    MEDIAPIPE_READY; and a single [sendMessage] either posts the message
    (the window is there, and MediaPipe is ready or the type is one of
    these three) or appends it to the queue, never both and never
    neither. *)
Theorem bridge_holds_control_messages (fuel : nat)
    (config : SandboxBridge.SandboxBridgeConfig)
    (ops : list SandboxBridge.Op) (s' : SandboxBridge.State)
    (out : list SandboxBridge.Callback) :
  SandboxBridge.run fuel config SandboxBridge.create ops = Some (s', out) ->
  (SandboxBridge.isMediaPipeReady s' = false ->
   ~ In SandboxBridge.START_TRACKING (SandboxBridge.posted s')
   /\ ~ In SandboxBridge.STOP_TRACKING (SandboxBridge.posted s')
   /\ Forall (fun m => SandboxBridge.passesEarly m = true)
             (SandboxBridge.posted s'))
  /\ (forall s m,
        (SandboxBridge.posted (SandboxBridge.sendMessage s m)
         = SandboxBridge.posted s ++ [m]
         /\ SandboxBridge.messageQueue (SandboxBridge.sendMessage s m)
            = SandboxBridge.messageQueue s
         /\ SandboxBridge.iframe s = true
         /\ SandboxBridge.contentWindow s = true
         /\ (SandboxBridge.isMediaPipeReady s = true
             \/ SandboxBridge.passesEarly m = true))
        \/ (SandboxBridge.posted (SandboxBridge.sendMessage s m)
            = SandboxBridge.posted s
            /\ SandboxBridge.messageQueue (SandboxBridge.sendMessage s m)
               = SandboxBridge.messageQueue s ++ [m]
            /\ (SandboxBridge.iframe s = false
                \/ SandboxBridge.contentWindow s = false
                \/ SandboxBridge.isMediaPipeReady s = false
                   /\ SandboxBridge.passesEarly m = false))).
Proof.
  intros Hrun. split.
  - intros Hr.
    assert (H : SandboxBridgeSpec.heldBack s').
    { apply (run_heldBack fuel config ops SandboxBridge.create s' out);
        [|exact Hrun].
      intros _. constructor. }
    specialize (H Hr). rewrite Forall_forall in H.
    split; [|split].
    + intros Hin. apply H in Hin. discriminate.
    + intros Hin. apply H in Hin. discriminate.
    + apply Forall_forall. exact H.
  - intros s m.
    destruct (sendMessage_cases s m) as [(-> & H) | (-> & H)].
    + left. repeat split; try reflexivity; apply H.
    + right. repeat split; try reflexivity. exact H.
Qed.

Lemma bridge_holds_control_messages_witness :
  let ops := [ SandboxBridge.Initialize true;
               SandboxBridge.Send SandboxBridge.STOP_TRACKING;
               SandboxBridge.Send SandboxBridge.VIDEO_READY;
               SandboxBridge.Receive true
                 (SandboxBridge.MEDIAPIPE_READY false) ] in
  exists s' out,
    SandboxBridge.run 5 SandboxBridgeExamples.listening
      SandboxBridge.create ops = Some (s', out)
    /\ SandboxBridge.posted s' = [SandboxBridge.VIDEO_READY]
    /\ ~ In SandboxBridge.STOP_TRACKING (SandboxBridge.posted s').
Proof.
  intros ops. eexists. eexists.
  assert (Hrun : SandboxBridge.run 5 SandboxBridgeExamples.listening
                   SandboxBridge.create ops
                 = Some ({| SandboxBridge.iframe := true;
                            SandboxBridge.contentWindow := true;
                            SandboxBridge.isMediaPipeReady := false;
                            SandboxBridge.messageQueue :=
                              [SandboxBridge.STOP_TRACKING];
                            SandboxBridge.posted :=
                              [SandboxBridge.VIDEO_READY] |},
                         [SandboxBridge.Error]))
    by reflexivity.
  split; [exact Hrun|]. split; [reflexivity|].
  exact (proj1 (proj2 (proj1 (bridge_holds_control_messages 5
           SandboxBridgeExamples.listening ops _ _ Hrun) eq_refl))).
Defined.

(** X23.  When the sandbox reports MEDIAPIPE_READY with success to a
    bridge whose iframe window is there, the bridge becomes ready, calls
    [onReady] once (when there is one) and flushes the queue: every
    queued message is posted, in the order in which it was queued and
    after the messages posted before, and the queue is empty afterwards;
    the loop needs one iteration per queued message.  An event that does
    not come from the iframe's window changes nothing.  Without the
    window, [flushMessageQueue] does not end on a queue that is not
    empty, since every message it takes out is queued again. *)
Theorem bridge_flush_on_ready (fuel : nat)
    (config : SandboxBridge.SandboxBridgeConfig) (s : SandboxBridge.State) :
  (SandboxBridge.iframe s = true ->
   SandboxBridge.contentWindow s = true ->
   (length (SandboxBridge.messageQueue s) <= fuel)%nat ->
   SandboxBridge.onMessage fuel config s true
     (SandboxBridge.MEDIAPIPE_READY true)
   = Some ({| SandboxBridge.iframe := true;
              SandboxBridge.contentWindow := true;
              SandboxBridge.isMediaPipeReady := true;
              SandboxBridge.messageQueue := [];
              SandboxBridge.posted :=
                SandboxBridge.posted s ++ SandboxBridge.messageQueue s |},
           if SandboxBridge.onReady config then [SandboxBridge.Ready]
           else []))
  /\ (forall event, SandboxBridge.onMessage fuel config s false event
                    = Some (s, []))
  /\ (SandboxBridge.iframe s = false \/ SandboxBridge.contentWindow s = false ->
      SandboxBridge.messageQueue s <> [] ->
      SandboxBridge.flushMessageQueue fuel s = None).
Proof.
  split; [|split].
  - intros Hi Hc Hlen. unfold SandboxBridge.onMessage. rewrite Hi.
    cbn [negb orb].
    rewrite (flush_posts_all fuel (SandboxBridge.setReady s));
      try assumption; reflexivity.
  - intros event. unfold SandboxBridge.onMessage.
    rewrite orb_true_r. reflexivity.
  - apply flush_without_window.
Qed.

Lemma bridge_flush_on_ready_witness :
  let s := SandboxBridgeExamples.waiting in
  (SandboxBridge.iframe s = true /\ SandboxBridge.contentWindow s = true
   /\ (length (SandboxBridge.messageQueue s) <= 2)%nat)
  /\ exists s',
       SandboxBridge.onMessage 2 SandboxBridgeExamples.listening s true
         (SandboxBridge.MEDIAPIPE_READY true)
       = Some (s', [SandboxBridge.Ready])
       /\ SandboxBridge.posted s'
          = [ SandboxBridge.INIT_MEDIAPIPE; SandboxBridge.STOP_TRACKING;
              SandboxBridge.START_TRACKING ]
       /\ SandboxBridge.messageQueue s' = [].
Proof.
  intros s.
  assert (H1 : SandboxBridge.iframe s = true) by reflexivity.
  assert (H2 : SandboxBridge.contentWindow s = true) by reflexivity.
  assert (H3 : (length (SandboxBridge.messageQueue s) <= 2)%nat)
    by (cbn; lia).
  split; [exact (conj H1 (conj H2 H3))|].
  eexists. split.
  - exact (proj1 (bridge_flush_on_ready 2 SandboxBridgeExamples.listening s)
             H1 H2 H3).
  - split; reflexivity.
Defined.

(* ================================================================== *)
(** ** The determinant guard of the affine calibration on doubles *)
(* ================================================================== *)

Section AffineOnDoubles.
Import PrimFloat.
Local Open Scope float_scope.

(** X24.  On binary64 numbers, nine samples that all measured the
    normalized pair (0.9, 0.8) leave a determinant that rounding made
    different from 0, about 6.9e-14; it is below the threshold 1e-10 of
    the guard, so the affine [applyCalibration] installs the default
    transform, as it does in exact arithmetic.  Nine samples spread
    over the grid pass the guard and the sanity check, and the fitted
    matrix is installed. *)
Theorem affine_guard_absorbs_rounding :
  let stuck := map Binary64Affine.datum
                   (Binary64Affine.goodPoints
                      Binary64AffineExamples.stuckGrid) in
  let spread := map Binary64Affine.datum
                    (Binary64Affine.goodPoints
                       Binary64AffineExamples.spreadGrid) in
  List.length stuck = 9%nat
  /\ Binary64Affine.detA (Binary64Affine.sums stuck) (Binary64.length stuck)
     = 6.906475391588178e-14
  /\ (abs (Binary64Affine.detA (Binary64Affine.sums stuck)
                               (Binary64.length stuck)) <? 1e-10) = true
  /\ Binary64Affine.applyCalibration Binary64Examples.viewport
       Binary64Affine.create Binary64AffineExamples.stuckGrid
     = Binary64Affine.useDefaultCalibration Binary64Examples.viewport
         Binary64Affine.create
  /\ (abs (Binary64Affine.detA (Binary64Affine.sums spread)
                               (Binary64.length spread)) <? 1e-10) = false
  /\ Binary64Affine.applyCalibration Binary64Examples.viewport
       Binary64Affine.create Binary64AffineExamples.spreadGrid
     = {| Binary64Affine.calibrationMatrix :=
            Binary64Affine.solve (Binary64Affine.sums spread)
                                 (Binary64.length spread);
          Binary64Affine.isCalibrated := true |}.
Proof.
  cbv zeta. repeat split; vm_compute; reflexivity.
Qed.
End AffineOnDoubles.
